(** * cgmanager.c: the cgroup-manager backend of lxc, as a shallow embedding

    The C file drives an external daemon (cgmanager) over D-Bus and a few
    system calls.  Everything outside the process is one deterministic state
    machine [respond]: each external call is answered by a [reply] and moves
    the environment to a new state.  The functions of cgmanager.c become
    functions in a state monad over [world]: the environment, the log of what
    was called and answered, and the file's static variables.

    Not modelled: the process-wide mutex (the model is sequential), memory
    exhaustion (malloc, strdup and realloc succeed), and the arguments of the
    log messages. *)

From Stdlib Require Import ZArith String Ascii List Lia Bool Decimal DecimalString DecimalNat.
From Stdlib.Strings Require Import Byte.
From stdpp Require Import base list strings gmap.
Import ListNotations.

Local Open Scope Z_scope.

(** ** C strings *)

Module CStr.

(** strlen *)
Definition strlen (s : string) : Z := Z.of_nat (String.length s).

(** strncmp(a, b, n): 0 when the first n characters agree (a string that
    ends early counts as ending in NUL), otherwise the difference of the
    first characters that differ. *)
Fixpoint strncmp (a b : string) (n : nat) : Z :=
  match n with
  | O => 0
  | S n' =>
      match a, b with
      | EmptyString, EmptyString => 0
      | EmptyString, String cb _ => 0 - Z.of_nat (nat_of_ascii cb)
      | String ca _, EmptyString => Z.of_nat (nat_of_ascii ca)
      | String ca a', String cb b' =>
          if Ascii.eqb ca cb then strncmp a' b' n'
          else Z.of_nat (nat_of_ascii ca) - Z.of_nat (nat_of_ascii cb)
      end
  end.

(** strchr(s, c) + 1: what follows the first occurrence of c, NULL when
    there is none. *)
Fixpoint after_chr (c : ascii) (s : string) : option string :=
  match s with
  | EmptyString => None
  | String x s' => if Ascii.eqb x c then Some s' else after_chr c s'
  end.

(** What precedes the first occurrence of c (the string once the
    character found by strchr is overwritten with NUL). *)
Fixpoint before_chr (c : ascii) (s : string) : string :=
  match s with
  | EmptyString => EmptyString
  | String x s' => if Ascii.eqb x c then EmptyString else String x (before_chr c s')
  end.

(** The tokens strtok_r(s, delim) hands out for a one-character
    delimiter: maximal runs without the delimiter, empty runs skipped. *)
Fixpoint strtok_all (c : ascii) (cur : string) (s : string) : list string :=
  match s with
  | EmptyString => if String.eqb cur "" then [] else [cur]
  | String x s' =>
      if Ascii.eqb x c
      then (if String.eqb cur "" then strtok_all c "" s'
            else cur :: strtok_all c "" s')
      else strtok_all c (cur +:+ String x "") s'
  end.

Definition NUL : ascii := "000"%char.
Definition LF : ascii := "010"%char.

(** The lines successive getline calls return: each keeps its newline,
    a last line without one is returned as it is. *)
Fixpoint getlines (cur : string) (s : string) : list string :=
  match s with
  | EmptyString => if String.eqb cur "" then [] else [cur]
  | String x s' =>
      if Ascii.eqb x LF then (cur +:+ String x "") :: getlines "" s'
      else getlines (cur +:+ String x "") s'
  end.

(** snprintf's "%d" for an int. *)
Definition fmt_d (z : Z) : string := NilZero.string_of_int (Z.to_int z).

(** The number of leading slashes, which the loop advancing tmp over
    them counts. *)
Fixpoint leading_slashes (s : string) : nat :=
  match s with
  | String "/"%char s' => S (leading_slashes s')
  | _ => O
  end.

(** The string a pointer s + n points to. *)
Fixpoint skip (n : nat) (s : string) : string :=
  match n, s with
  | S n', String _ s' => skip n' s'
  | _, _ => s
  end.

End CStr.

(** ** The outside world *)

(** Every call that leaves the process.  The cgmanager_*_sync calls are the
    daemon's RPCs, the sys_* calls are system calls. *)
Inductive call : Type :=
| dbus_connection_open_private
| nih_dbus_proxy_new
| cgmanager_get_api_version_sync
| cgmanager_create_sync (controller cgroup_path : string)
| cgmanager_remove_sync (controller cgroup_path : string) (recursive : Z)
| cgmanager_move_pid_sync (controller cgroup_path : string) (pid : Z)
| cgmanager_move_pid_abs_sync (controller cgroup_path : string) (pid : Z)
| cgmanager_chmod_sync (controller cgroup_path file : string) (mode : Z)
| cgmanager_chown_scm_sync (controller cgroup_path : string) (sock : Z)
| cgmanager_get_tasks_sync (controller cgroup_path : string)
| cgmanager_set_value_sync (controller cgroup_path key value : string)
| sys_getpid
| sys_getuid
| sys_getgid
| sys_geteuid
| get_ns_uid (origuid : Z)
| sys_socketpair
| sys_setsockopt (fd : Z)
| sys_select (fd : Z)
| sys_read (fd : Z)
| sys_sendmsg (fd pid uid gid : Z)
| sys_close (fd : Z)
| sys_setresgid
| sys_setresuid
| sys_setgroups
| userns_clone.

(** What a call gives back: its return value and up to two values written
    through out-parameters (existed, the api version, the byte read, the two
    descriptors of a socket pair). *)
Record reply : Type := Reply { rc : Z; out : Z; out2 : Z }.

Inductive loglevel : Type := DEBUG | INFO | WARN | ERROR.

Inductive event : Type :=
| EvCall (c : call) (r : reply)
| EvLog (lvl : loglevel) (msg : string).

(** The calls of a log, in order. *)
Fixpoint calls_of (tr : list event) : list call :=
  match tr with
  | [] => []
  | EvCall c _ :: tr' => c :: calls_of tr'
  | EvLog _ _ :: tr' => calls_of tr'
  end.

Definition is_chmod (c : call) : bool :=
  match c with cgmanager_chmod_sync _ _ _ _ => true | _ => false end.

Definition is_remove (c : call) : bool :=
  match c with cgmanager_remove_sync _ _ _ => true | _ => false end.

(** A call that names a cgroup: every RPC but the version query. *)
Definition is_cgroup_rpc (c : call) : bool :=
  match c with
  | cgmanager_create_sync _ _ | cgmanager_remove_sync _ _ _
  | cgmanager_move_pid_sync _ _ _ | cgmanager_move_pid_abs_sync _ _ _
  | cgmanager_chmod_sync _ _ _ _ | cgmanager_chown_scm_sync _ _ _
  | cgmanager_get_tasks_sync _ _ | cgmanager_set_value_sync _ _ _ _ => true
  | _ => false
  end.

Definition CGM_SUPPORTS_GET_ABS : Z := 3.
Definition CGM_SUPPORTS_NAMED : Z := 4.
Definition CG_REMOVE_RECURSIVE : Z := 1.
(** sys/param.h on Linux. *)
Definition MAXPATHLEN : Z := 4096.

(** A size_t handed back through a return type of int, as cgm_get_nrtasks
    does with pids_len: the low 32 bits, read as a signed number. *)
Definition int_of_size_t (z : Z) : Z :=
  (z mod 18446744073709551616 + 2147483648) mod 4294967296 - 2147483648.

(** struct cgm_data; a NULL char pointer is [None]. *)
Record cgm_data : Type := CgmData {
  name : string;
  cgroup_path : option string;
  cgroup_pattern : option string
}.

(** struct lxc_conf, as far as this file looks into it: the id map, one
    (idtype, nsid, hostid, range) entry per line of lxc.id_map. *)
Record lxc_conf : Type := LxcConf { id_map : list (Z * Z * Z * Z) }.

(** ** cull_user_controllers, on the array and its length *)

(** for (j = i; j < nr_subsystems-1; j++) subsystems[j] = subsystems[j+1];
    [n] counts the iterations left.  The reads stay inside the array as long
    as nr_subsystems does not exceed its length; beyond it the model reads
    an empty name where C reads past the end. *)
Fixpoint cull_shift (n j : nat) (subs : list string) : list string :=
  match n with
  | O => subs
  | S n' => cull_shift n' (S j) (<[j := default "" (subs !! S j)]> subs)
  end.

(** The outer loop from index [i] on.  Each round increments [i] and never
    increases nr_subsystems, so it runs at most nr_subsystems - i rounds;
    [fuel] bounds them. *)
Fixpoint cull_loop (fuel i : nat) (subs : list string) (nr : nat)
  : list string * nat :=
  match fuel with
  | O => (subs, nr)
  | S fuel' =>
      if (i <? nr)%nat then
        if negb (CStr.strncmp (default "" (subs !! i)) "name=" 5 =? 0)
        then cull_loop fuel' (S i) subs nr
        else cull_loop fuel' (S i) (cull_shift (nr - 1 - i) i subs) (nr - 1)%nat
      else (subs, nr)
  end.

Definition cull_user_controllers_on (subs : list string) (nr : nat)
  : list string * nat :=
  cull_loop nr 0 subs nr.

(** ** The process state and its monad *)

Section Model.

Variable E : Type.
Variable respond : E -> call -> reply * E.

(** The static variables of cgmanager.c next to the environment and the
    log.  [cgroup_manager] is true while the proxy pointer is not NULL;
    [subsystems] is [None] while the array pointer is NULL. *)
Record world : Type := World {
  env : E;
  trace : list event;
  cgroup_manager : bool;
  api_version : Z;
  nr_subsystems : nat;
  subsystems : option (list string);
  dbus_threads_initialized : bool
}.

Definition M (A : Type) : Type := world -> A * world.

Definition ret {A} (a : A) : M A := fun w => (a, w).

Definition bind {A B} (m : M A) (k : A -> M B) : M B :=
  fun w => let (a, w') := m w in k a w'.

Notation "x <- m ;; k" := (bind m (fun x => k))
  (at level 20, m at level 99, k at level 200, only parsing).
Notation "m ;;; k" := (bind m (fun _ => k))
  (at level 100, k at level 200, right associativity, only parsing).

Definition get : M world := fun w => (w, w).

Definition emit (e : event) : M unit := fun w =>
  (tt, World (env w) (trace w ++ [e]) (cgroup_manager w) (api_version w)
          (nr_subsystems w) (subsystems w) (dbus_threads_initialized w)).

Definition log (lvl : loglevel) (msg : string) : M unit := emit (EvLog lvl msg).

(** One external call: the environment answers and moves on, the log
    records both. *)
Definition do_call (c : call) : M reply := fun w =>
  let (r, e') := respond (env w) c in
  (r, World e' (trace w ++ [EvCall c r]) (cgroup_manager w) (api_version w)
        (nr_subsystems w) (subsystems w) (dbus_threads_initialized w)).

Definition set_cgroup_manager (b : bool) : M unit := fun w =>
  (tt, World (env w) (trace w) b (api_version w)
          (nr_subsystems w) (subsystems w) (dbus_threads_initialized w)).

Definition set_api_version (v : Z) : M unit := fun w =>
  (tt, World (env w) (trace w) (cgroup_manager w) v
          (nr_subsystems w) (subsystems w) (dbus_threads_initialized w)).

Definition set_subsystems (s : option (list string)) (nr : nat) : M unit := fun w =>
  (tt, World (env w) (trace w) (cgroup_manager w) (api_version w)
          nr s (dbus_threads_initialized w)).

Definition set_dbus_threads_initialized (b : bool) : M unit := fun w =>
  (tt, World (env w) (trace w) (cgroup_manager w) (api_version w)
          (nr_subsystems w) (subsystems w) b).

(** subsystems[0] .. subsystems[nr_subsystems-1], what every
    for (i = 0; i < nr_subsystems; i++) loop walks. *)
Definition registry (w : world) : list string :=
  take (nr_subsystems w) (default [] (subsystems w)).

(** for (i = 0; i < nr_subsystems; i++) body(subsystems[i]); *)
Fixpoint for_each (l : list string) (body : string -> M unit) : M unit :=
  match l with
  | [] => ret tt
  | s :: l' => body s ;;; for_each l' body
  end.

(** *** Connection

    dbus_connection_open_private and nih_dbus_proxy_new return pointers:
    a zero [rc] is NULL.  The RPCs return 0 on success. *)

(** The flush, close and free of the proxy stay inside the process. *)
Definition cgm_dbus_disconnect : M unit :=
  set_cgroup_manager false.

Definition cull_user_controllers : M unit :=
  w <- get ;;
  let '(subs, nr) := cull_user_controllers_on (default [] (subsystems w)) (nr_subsystems w) in
  set_subsystems (match subsystems w with None => None | Some _ => Some subs end) nr.

Definition cgm_dbus_connect : M bool :=
  w <- get ;;
  (if dbus_threads_initialized w then ret tt else set_dbus_threads_initialized true) ;;;
  r <- do_call dbus_connection_open_private ;;
  if rc r =? 0 then
    log DEBUG "Failed opening dbus connection" ;;; ret false
  else
    p <- do_call nih_dbus_proxy_new ;;
    if rc p =? 0 then
      log ERROR "Error opening cgmanager proxy" ;;;
      cgm_dbus_disconnect ;;; ret false
    else
      set_cgroup_manager true ;;;
      v <- do_call cgmanager_get_api_version_sync ;;
      if negb (rc v =? 0) then
        log ERROR "Error cgroup manager api version" ;;;
        cgm_dbus_disconnect ;;; ret false
      else
        set_api_version (out v) ;;;
        (if out v <? CGM_SUPPORTS_NAMED then cull_user_controllers else ret tt) ;;;
        ret true.

(** *** Create, remove, destroy *)

(** Returns the boolean result and what the daemon wrote to existed. *)
Definition lxc_cgmanager_create (controller cgroup_path : string) : M (bool * Z) :=
  r <- do_call (cgmanager_create_sync controller cgroup_path) ;;
  if negb (rc r =? 0) then
    log ERROR "call to cgmanager_create_sync failed" ;;;
    log ERROR "Failed to create" ;;;
    ret (false, out r)
  else ret (true, out r).

(** existed is not initialised by the caller: after a failed call the
    test reads whatever the environment left in it. *)
Definition cgm_remove_cgroup (controller path : string) : M unit :=
  r <- do_call (cgmanager_remove_sync controller path CG_REMOVE_RECURSIVE) ;;
  (if negb (rc r =? 0) then
     log ERROR "call to cgmanager_remove_sync failed" ;;;
     log ERROR "Error removing"
   else ret tt) ;;;
  if out r =? -1 then log INFO "cgroup removal attempt: did not exist"
  else ret tt.

Definition cleanup_cgroups (path : string) : M unit :=
  w <- get ;;
  for_each (registry w) (fun s => cgm_remove_cgroup s path).

Definition cgm_destroy (hdata : option cgm_data) : M unit :=
  match hdata with
  | None => ret tt
  | Some d =>
      match cgroup_path d with
      | None => ret tt
      | Some path =>
          ok <- cgm_dbus_connect ;;
          if negb ok then log ERROR "Error connecting to cgroup manager"
          else
            w <- get ;;
            for_each (registry w) (fun s => cgm_remove_cgroup s path) ;;;
            cgm_dbus_disconnect
      end
  end.

(** How the for loop of cgm_create over the subsystems ends. *)
Inductive create_outcome : Type := AllCreated | Collision | HardFailure.

(** The for loop of cgm_create from subsystem list [l] on; on a failed
    create it has already run cleanup_cgroups. *)
Fixpoint cgm_create_for (l : list string) (tmp : string) : M create_outcome :=
  match l with
  | [] => ret AllCreated
  | s :: l' =>
      r <- lxc_cgmanager_create s tmp ;;
      if negb (fst r) then
        log ERROR "Error creating cgroup" ;;;
        cleanup_cgroups tmp ;;;
        ret HardFailure
      else if snd r =? 1 then ret Collision
      else cgm_create_for l' tmp
  end.

(** The label bad. *)
Definition cgm_create_bad (d : cgm_data) : M (bool * option cgm_data) :=
  cgm_dbus_disconnect ;;; ret (false, Some d).

(** From the label again on.  [base] is result as strcpy left it,
    [baselen] its length and [off] the offset of tmp into result.  The
    code loops by goto; index grows by one per round and the loop stops at
    100, so [fuel] = 101 covers every run from index 0. *)
Fixpoint cgm_create_again (fuel : nat) (index : Z) (d : cgm_data)
    (base : string) (baselen : Z) (off : nat) : M (bool * option cgm_data) :=
  match fuel with
  | O => cgm_create_bad d
  | S fuel' =>
      if index =? 100 then
        log ERROR "cgroup error?  100 cgroups with this name already running" ;;;
        cgm_create_bad d
      else
        let suffix := "-" +:+ CStr.fmt_d index in
        if negb (index =? 0) && (CStr.strlen suffix >=? MAXPATHLEN - baselen)
        then cgm_create_bad d
        else
          let result := if index =? 0 then base else base +:+ suffix in
          let tmp := CStr.skip off result in
          w <- get ;;
          o <- cgm_create_for (registry w) tmp ;;
          match o with
          | HardFailure => cgm_create_bad d
          | Collision =>
              cleanup_cgroups tmp ;;;
              cgm_create_again fuel' (index + 1) d base baselen off
          | AllCreated =>
              cgm_dbus_disconnect ;;;
              ret (true, Some (CgmData (name d) (Some tmp) (cgroup_pattern d)))
          end
  end.

(** Modelled from the spec: lxc_string_replace of utils.c, which is not
    under src/.  It substitutes the replacement for every occurrence of the
    needle (the placeholder token) in the haystack; NULL is [None].
    [skip] counts the characters of a needle just replaced that are still
    to be dropped. *)
Fixpoint string_replace_from (needle replace : string) (skip : nat)
    (haystack : string) : string :=
  match haystack with
  | EmptyString => EmptyString
  | String c rest =>
      match skip with
      | S k => string_replace_from needle replace k rest
      | O =>
          if String.prefix needle haystack && negb (String.eqb needle "")
          then replace +:+
               string_replace_from needle replace (String.length needle - 1) rest
          else String c (string_replace_from needle replace O rest)
      end
  end.

Definition lxc_string_replace (needle replace : string)
    (haystack : option string) : option string :=
  match haystack with
  | None => None
  | Some h => Some (string_replace_from needle replace O h)
  end.

Definition cgm_create (hdata : option cgm_data) : M (bool * option cgm_data) :=
  match hdata with
  | None => ret (false, None)
  | Some d =>
      match lxc_string_replace "%n" (name d) (cgroup_pattern d) with
      | None => cgm_create_bad d
      | Some tmp =>
          if CStr.strlen tmp >=? MAXPATHLEN then cgm_create_bad d
          else
            cgm_create_again 101 0 d tmp (CStr.strlen tmp) (CStr.leading_slashes tmp)
      end
  end.

(** *** Enter *)

Definition lxc_cgmanager_enter (pid : Z) (controller cgroup_path : string)
    (abs : bool) : M bool :=
  r <- do_call (if abs then cgmanager_move_pid_abs_sync controller cgroup_path pid
                else cgmanager_move_pid_sync controller cgroup_path pid) ;;
  if negb (rc r =? 0) then
    log ERROR "call to cgmanager_move_pid_sync failed" ;;; ret false
  else ret true.

Fixpoint do_cgm_enter_for (l : list string) (pid : Z) (cgroup_path : string)
    (abs : bool) : M bool :=
  match l with
  | [] => ret true
  | s :: l' =>
      ok <- lxc_cgmanager_enter pid s cgroup_path abs ;;
      if negb ok then ret false else do_cgm_enter_for l' pid cgroup_path abs
  end.

Definition do_cgm_enter (pid : Z) (cgroup_path : string) (abs : bool) : M bool :=
  w <- get ;;
  do_cgm_enter_for (registry w) pid cgroup_path abs.

Definition cgm_enter (hdata : option cgm_data) (pid : Z) : M bool :=
  ok <- cgm_dbus_connect ;;
  if negb ok then log ERROR "Error connecting to cgroup manager" ;;; ret false
  else
    match hdata with
    | None => cgm_dbus_disconnect ;;; ret false
    | Some d =>
        match cgroup_path d with
        | None => cgm_dbus_disconnect ;;; ret false
        | Some path =>
            r <- do_cgm_enter pid path false ;;
            cgm_dbus_disconnect ;;; ret r
        end
    end.

Definition cgm_get_cgroup (hdata : option cgm_data) (subsystem : string)
    : option string :=
  match hdata with
  | None => None
  | Some d => cgroup_path d
  end.

(** The count comes back in pids_len, here [out]. *)
Definition cgm_get_nrtasks (hdata : option cgm_data) : M Z :=
  match hdata with
  | None => ret (-1)
  | Some d =>
      match cgroup_path d with
      | None => ret (-1)
      | Some path =>
          ok <- cgm_dbus_connect ;;
          if negb ok then log ERROR "Error connecting to cgroup manager" ;;; ret (-1)
          else
            w <- get ;;
            r <- do_call (cgmanager_get_tasks_sync
                            (default "" (default [] (subsystems w) !! 0%nat)) path) ;;
            if negb (rc r =? 0) then
              log ERROR "call to cgmanager_get_tasks_sync failed" ;;;
              cgm_dbus_disconnect ;;; ret (-1)
            else cgm_dbus_disconnect ;;; ret (int_of_size_t (out r))
      end
  end.

Definition cgm_unfreeze (hdata : option cgm_data) : M bool :=
  match hdata with
  | None => ret false
  | Some d =>
      match cgroup_path d with
      | None => ret false
      | Some path =>
          ok <- cgm_dbus_connect ;;
          if negb ok then log ERROR "Error connecting to cgroup manager" ;;; ret false
          else
            r <- do_call (cgmanager_set_value_sync "freezer" path
                            "freezer.state" "THAWED") ;;
            if negb (rc r =? 0) then
              log ERROR "call to cgmanager_set_value_sync failed" ;;;
              log ERROR "Error unfreezing" ;;;
              cgm_dbus_disconnect ;;; ret false
            else cgm_dbus_disconnect ;;; ret true
      end
  end.

(** *** Ownership transfer *)

Definition send_creds (sock rpid ruid rgid : Z) : M Z :=
  r <- do_call (sys_sendmsg sock rpid ruid rgid) ;;
  if rc r <? 0 then ret (-1) else ret 0.

(** The label out of do_chown_cgroup: both descriptors are closed, then
    the status byte decides.  49 is the character 1. *)
Definition do_chown_cgroup_out (sv0 sv1 r buf : Z) : M Z :=
  do_call (sys_close sv0) ;;;
  do_call (sys_close sv1) ;;;
  if (r =? 1) && (buf =? 49) then ret 0 else ret (-1).

(** One select-then-read stage on sv[0]: [inl] is the failure that jumps
    to out, [inr] carries the byte read. *)
Definition select_then_read (sv0 : Z) : M (unit + Z) :=
  s <- do_call (sys_select sv0) ;;
  if rc s <? 0 then
    log ERROR "Error getting go-ahead from server" ;;; ret (inl tt)
  else
    r <- do_call (sys_read sv0) ;;
    if negb (rc r =? 1) then
      log ERROR "Error getting reply from server over socketpair" ;;; ret (inl tt)
    else ret (inr (out r)).

Definition do_chown_cgroup (controller cgroup_path : string) (origuid : Z) : M Z :=
  ns <- do_call (get_ns_uid origuid) ;;
  let caller_nsuid := rc ns in
  sp <- do_call sys_socketpair ;;
  if rc sp <? 0 then
    log ERROR "Error creating socketpair" ;;; do_chown_cgroup_out (-1) (-1) (-1) 0
  else
    let sv0 := out sp in
    let sv1 := out2 sp in
    o1 <- do_call (sys_setsockopt sv1) ;;
    if rc o1 =? -1 then
      log ERROR "setsockopt failed" ;;; do_chown_cgroup_out sv0 sv1 (-1) 0
    else
    o0 <- do_call (sys_setsockopt sv0) ;;
    if rc o0 =? -1 then
      log ERROR "setsockopt failed" ;;; do_chown_cgroup_out sv0 sv1 (-1) 0
    else
    c <- do_call (cgmanager_chown_scm_sync controller cgroup_path sv1) ;;
    if negb (rc c =? 0) then
      log ERROR "call to cgmanager_chown_scm_sync failed" ;;;
      do_chown_cgroup_out sv0 sv1 (-1) 0
    else
    st1 <- select_then_read sv0 ;;
    match st1 with
    | inl _ => do_chown_cgroup_out sv0 sv1 (-1) 0
    | inr b1 =>
    pid <- do_call sys_getpid ;;
    uid <- do_call sys_getuid ;;
    gid <- do_call sys_getgid ;;
    c1 <- send_creds sv0 (rc pid) (rc uid) (rc gid) ;;
    if negb (c1 =? 0) then
      log ERROR "Error sending pid over SCM_CREDENTIAL" ;;;
      do_chown_cgroup_out sv0 sv1 (-1) b1
    else
    st2 <- select_then_read sv0 ;;
    match st2 with
    | inl _ => do_chown_cgroup_out sv0 sv1 (-1) b1
    | inr b2 =>
    pid' <- do_call sys_getpid ;;
    c2 <- send_creds sv0 (rc pid') caller_nsuid 0 ;;
    if negb (c2 =? 0) then
      log ERROR "Error sending pid over SCM_CREDENTIAL" ;;;
      do_chown_cgroup_out sv0 sv1 (-1) b2
    else
    s3 <- do_call (sys_select sv0) ;;
    if rc s3 <? 0 then
      log ERROR "Error getting go-ahead from server" ;;;
      do_chown_cgroup_out sv0 sv1 (-1) b2
    else
    r3 <- do_call (sys_read sv0) ;;
    do_chown_cgroup_out sv0 sv1 (rc r3) (if 0 <? rc r3 then out r3 else b2)
    end
    end.

Definition chown_cgroup_wrapper (controller cgroup_path : string) (origuid : Z)
    : M Z :=
  g <- do_call sys_setresgid ;;
  (if rc g <? 0 then log ERROR "Failed to setgid to 0" else ret tt) ;;;
  u <- do_call sys_setresuid ;;
  (if rc u <? 0 then log ERROR "Failed to setuid to 0" else ret tt) ;;;
  s <- do_call sys_setgroups ;;
  (if rc s <? 0 then log ERROR "Failed to clear groups" else ret tt) ;;;
  do_chown_cgroup controller cgroup_path origuid.

(** Modelled from the spec: userns_exec_1 of conf.c, which is not under
    src/: it runs the function inside the container's user namespace.
    Setting the namespace up (one [userns_clone] call) can fail; otherwise
    the function runs and a nonzero result of it comes back as a negative
    return. *)
Definition userns_exec_1 (conf : lxc_conf) (fn : M Z) : M Z :=
  c <- do_call userns_clone ;;
  if rc c <? 0 then ret (-1)
  else
    x <- fn ;;
    if x =? 0 then ret 0 else ret (-1).

Definition lxc_cgmanager_chmod (controller cgroup_path file : string) (mode : Z)
    : M bool :=
  r <- do_call (cgmanager_chmod_sync controller cgroup_path file mode) ;;
  if negb (rc r =? 0) then
    log ERROR "call to cgmanager_chmod_sync failed" ;;; ret false
  else ret true.

(** 0775 is 509. *)
Definition chown_cgroup (controller cgroup_path : string) (conf : lxc_conf)
    : M bool :=
  match id_map conf with
  | [] => ret true
  | _ :: _ =>
      e <- do_call sys_geteuid ;;
      x <- userns_exec_1 conf (chown_cgroup_wrapper controller cgroup_path (rc e)) ;;
      if x <? 0 then
        log ERROR "Error requesting cgroup chown in new namespace" ;;; ret false
      else
        a <- lxc_cgmanager_chmod controller cgroup_path "" 509 ;;
        if negb a then ret false else
        b <- lxc_cgmanager_chmod controller cgroup_path "tasks" 509 ;;
        if negb b then ret false else
        c <- lxc_cgmanager_chmod controller cgroup_path "cgroup.procs" 509 ;;
        if negb c then ret false else
        ret true
  end.

Definition cgm_chown (hdata : option cgm_data) (conf : lxc_conf) : M bool :=
  match hdata with
  | None => ret false
  | Some d =>
      match cgroup_path d with
      | None => ret false
      | Some path =>
          ok <- cgm_dbus_connect ;;
          if negb ok then log ERROR "Error connecting to cgroup manager" ;;; ret false
          else
            w <- get ;;
            for_each (registry w) (fun s =>
              r <- chown_cgroup s path conf ;;
              if negb r then log WARN "Failed to chown to container root"
              else ret tt) ;;;
            cgm_dbus_disconnect ;;; ret true
      end
  end.

(** *** Discovery *)

(** realloc by one slot, strdup into it, nr_subsystems++. *)
Definition add_subsystem (p : string) : M unit :=
  w <- get ;;
  set_subsystems
    (Some (take (nr_subsystems w) (default [] (subsystems w)) ++ [p]))
    (S (nr_subsystems w)).

(** The body of the getline loop.  The C string functions see the line up
    to its first NUL. *)
Definition collect_line (line : string) : M unit :=
  let l := CStr.before_chr CStr.NUL line in
  if String.eqb l "" then ret tt
  else
    match CStr.after_chr ":" l with
    | None => ret tt
    | Some slist =>
        match CStr.after_chr ":" slist with
        | None => ret tt
        | Some _ =>
            for_each (CStr.strtok_all "," "" (CStr.before_chr ":" slist))
                     add_subsystem
        end
    end.

(** The two files are passed as fopen and getline would deliver them:
    [None] when the file cannot be opened. *)
Definition collect_subsytems (proc_self_cgroup proc_1_cgroup : option string)
    : M bool :=
  w <- get ;;
  match subsystems w with
  | Some _ => ret true
  | None =>
      match (match proc_self_cgroup with
             | Some f => Some f
             | None => proc_1_cgroup
             end) with
      | None => ret false
      | Some f =>
          for_each (CStr.getlines "" f) collect_line ;;;
          w' <- get ;;
          if (nr_subsystems w' =? 0)%nat then
            log ERROR "No cgroup subsystems found" ;;; ret false
          else ret true
      end
  end.

End Model.

Arguments World {E}.
Arguments env {E}.
Arguments trace {E}.
Arguments cgroup_manager {E}.
Arguments api_version {E}.
Arguments nr_subsystems {E}.
Arguments subsystems {E}.
Arguments dbus_threads_initialized {E}.
Arguments registry {E}.
Arguments ret {E A}.
Arguments bind {E A B}.
Arguments for_each {E}.
Arguments do_call {E}.
Arguments cgm_dbus_connect {E}.
Arguments cgm_dbus_disconnect {E}.
Arguments cull_user_controllers {E}.
Arguments lxc_cgmanager_create {E}.
Arguments cgm_remove_cgroup {E}.
Arguments cleanup_cgroups {E}.
Arguments cgm_destroy {E}.
Arguments cgm_create_for {E}.
Arguments cgm_create_bad {E}.
Arguments cgm_create_again {E}.
Arguments cgm_create {E}.
Arguments lxc_cgmanager_enter {E}.
Arguments do_cgm_enter_for {E}.
Arguments do_cgm_enter {E}.
Arguments cgm_enter {E}.
Arguments cgm_get_nrtasks {E}.
Arguments cgm_unfreeze {E}.
Arguments send_creds {E}.
Arguments do_chown_cgroup_out {E}.
Arguments select_then_read {E}.
Arguments do_chown_cgroup {E}.
Arguments chown_cgroup_wrapper {E}.
Arguments userns_exec_1 {E}.
Arguments lxc_cgmanager_chmod {E}.
Arguments chown_cgroup {E}.
Arguments cgm_chown {E}.
Arguments add_subsystem {E}.
Arguments collect_line {E}.
Arguments collect_subsytems {E}.

(** The environment after a sequence of calls. *)
Definition env_after {E} (respond : E -> call -> reply * E) (e : E)
    (cs : list call) : E :=
  fold_left (fun e c => snd (respond e c)) cs e.

(** The replies of a log, in order. *)
Fixpoint replies_of (tr : list event) : list reply :=
  match tr with
  | [] => []
  | EvCall _ r :: tr' => r :: replies_of tr'
  | EvLog _ _ :: tr' => replies_of tr'
  end.

(** ** A test double for the daemon

    The double keeps the set of (controller, path) pairs that exist.  Create
    reports 1 in existed for a pair that is there and otherwise adds it;
    recursive remove drops the pair and everything below it and reports -1
    when the pair was not there; moving a pid succeeds where the cgroup
    exists.  The connection always opens and the version is [ver]. *)
Module Double.

(** [q] is [p] or lies below it. *)
Definition under (p q : string) : bool :=
  String.eqb q p || String.prefix (p +:+ "/") q.

Definition has (S : gset (string * string)) (c p : string) : bool :=
  bool_decide ((c, p) ∈ S).

Definition respond (ver : Z) (S : gset (string * string)) (c : call)
    : reply * gset (string * string) :=
  match c with
  | dbus_connection_open_private => (Reply 1 0 0, S)
  | nih_dbus_proxy_new => (Reply 1 0 0, S)
  | cgmanager_get_api_version_sync => (Reply 0 ver 0, S)
  | cgmanager_create_sync ctrl p =>
      if has S ctrl p then (Reply 0 1 0, S)
      else (Reply 0 (-1) 0, S ∪ {[ (ctrl, p) ]})
  | cgmanager_remove_sync ctrl p _ =>
      (Reply 0 (if has S ctrl p then 1 else -1) 0,
       filter (fun x => negb (String.eqb (fst x) ctrl && under p (snd x)) = true) S)
  | cgmanager_move_pid_sync ctrl p _
  | cgmanager_move_pid_abs_sync ctrl p _ =>
      (Reply (if has S ctrl p then 0 else -1) 0 0, S)
  | _ => (Reply 0 0 0, S)
  end.

(** A process that has discovered [subs] and holds no connection. *)
Definition start (S : gset (string * string)) (subs : list string)
    : world (gset (string * string)) :=
  World S [] false 0 (length subs) (Some subs) false.

End Double.

(** A scripted environment: the calls are answered from a list of replies in
    order, and with success (0) once the list is used up. *)
Module Script.

Definition respond (q : list reply) (c : call) : reply * list reply :=
  match q with
  | [] => (Reply 0 0 0, [])
  | r :: q' => (r, q')
  end.

Definition start (q : list reply) (subs : list string) : world (list reply) :=
  World q [] false 0 (length subs) (Some subs) false.

End Script.

(** ** cgm_get, the parent's side

    The parent creates a pipe, forks, reads the 4-byte length the child
    reports and then the value.  Each of these happens at most once, so the
    outside is a record of what they return: [pipe_rc] and [fork_rc] are
    the return values of pipe and fork, [hdr_rc] and [hdr] the return value
    of the first read and the int it stored, [body] is what the pipe holds
    for the second read ([None]: the read fails).  newlen, ret
    and readlen are int, len is size_t; the conversions are written out. *)
Module Get.

Definition int (z : Z) : Z := (z + 2147483648) mod 4294967296 - 2147483648.
Definition size_t (z : Z) : Z := z mod 18446744073709551616.

Record pipe_io : Type := PipeIO {
  pipe_rc : Z;
  fork_rc : Z;
  hdr_rc : Z;
  hdr : Z;
  body : option (list byte)
}.

(** read(p[0], value, count): the return value, the buffer afterwards and
    what stays in the pipe. *)
Definition read_body (avail : option (list byte)) (buf : list byte) (count : Z)
    : Z * list byte * option (list byte) :=
  match avail with
  | None => (-1, buf, None)
  | Some bs =>
      let got := take (Z.to_nat count) bs in
      (Z.of_nat (length got), got ++ drop (length got) buf,
       Some (drop (length got) bs))
  end.

(** readlen = newlen > len ? len : newlen *)
Definition readlen_of (newlen len : Z) : Z :=
  int (if size_t newlen >? len then len else size_t newlen).

(** From the close of the write end on.  Returns the int result, the
    buffer and what stays in the pipe. *)
Definition cgm_get_parent (io : pipe_io) (value : option (list byte)) (len : Z)
    : Z * option (list byte) * option (list byte) :=
  if negb (hdr_rc io =? 4) then (-1, value, body io) else
  let newlen := hdr io in
  match value with
  | None => (newlen, value, body io)
  | Some buf0 =>
      if len =? 0 then (newlen, value, body io) else
      let buf := replicate (Z.to_nat len) x00 ++ drop (Z.to_nat len) buf0 in
      if newlen <? 0 then (-1, Some buf, body io) else
      if newlen =? 0 then (0, Some buf, body io) else
      let readlen := readlen_of newlen len in
      let '(r, buf1, rest) := read_body (body io) buf readlen in
      if negb (int r =? readlen) then (-1, Some buf1, rest) else
      if size_t newlen >=? len then
        (int (len - 1), Some (<[Z.to_nat (len - 1) := x00]> buf1), rest)
      else if size_t (int (newlen + 1)) <? len then
        (int (newlen + 1),
         Some (<[Z.to_nat (int (newlen + 1)) := x00]>
                 (<[Z.to_nat newlen := x0a]> buf1)),
         rest)
      else (newlen, Some buf1, rest)
  end.

(** Where fork returns 0 the process is the child: it runs do_cgm_get,
    which exits, so cgm_get does not return there ([None]). *)
Definition cgm_get (io : pipe_io) (value : option (list byte)) (len : Z)
    : option (Z * option (list byte) * option (list byte)) :=
  if pipe_rc io <? 0 then Some (-1, value, body io) else
  if fork_rc io <? 0 then Some (-1, value, body io) else
  if fork_rc io =? 0 then None else
  Some (cgm_get_parent io value len).

End Get.

(** ** The discovery record as the specification words it

    A record is newline-delimited, a line is colon-separated, its middle
    field is comma-separated. *)
Module ProcRecord.

(** The fields of [s] between occurrences of [c]. *)
Fixpoint split_on (c : ascii) (s : string) : list string :=
  match s with
  | EmptyString => [EmptyString]
  | String x s' =>
      if Ascii.eqb x c then EmptyString :: split_on c s'
      else match split_on c s' with
           | h :: t => String x h :: t
           | [] => [String x EmptyString]
           end
  end.

Definition nonempty (s : string) : bool := negb (String.eqb s "").

(** hierarchy-id:comma-separated-subsystem-names:path *)
Definition controllers_of_line (line : string) : list string :=
  match split_on ":" line with
  | _ :: names :: _ :: _ => List.filter nonempty (split_on "," names)
  | _ => []
  end.

Definition controllers (content : string) : list string :=
  flat_map controllers_of_line (split_on CStr.LF content).

(** Deduplicated by appearance: the first occurrence of each name stays. *)
Fixpoint dedup (seen l : list string) : list string :=
  match l with
  | [] => []
  | x :: l' =>
      if bool_decide (x ∈ seen) then dedup seen l'
      else x :: dedup (x :: seen) l'
  end.

End ProcRecord.

(** ** What a step leaves alone

    [extends w w' evs]: from [w] to [w'] the log grew by [evs] and the
    subsystem array, its length and the api version stayed. *)
Definition extends {E} (w w' : world E) (evs : list event) : Prop :=
  trace w' = trace w ++ evs /\
  nr_subsystems w' = nr_subsystems w /\
  subsystems w' = subsystems w /\
  api_version w' = api_version w.

(** A create RPC that did not fail. *)
Definition create_ok (e : event) : bool :=
  match e with
  | EvCall (cgmanager_create_sync _ _) r => rc r =? 0
  | _ => true
  end.

(** A select that failed or a read that did not return one byte. *)
Definition stage_failed (e : event) : bool :=
  match e with
  | EvCall (sys_select _) r => rc r <? 0
  | EvCall (sys_read _) r => negb (rc r =? 1)
  | _ => false
  end.

(** cull_user_controllers seen on the list of the first nr_subsystems
    entries: an entry that matches is deleted, and the index moves on past
    the entry that took its place. *)
Fixpoint cull_list (fuel i : nat) (l : list string) : list string :=
  match fuel with
  | O => l
  | S fuel' =>
      if (i <? length l)%nat then
        if negb (CStr.strncmp (default "" (l !! i)) "name=" 5 =? 0)
        then cull_list fuel' (S i) l
        else cull_list fuel' (S i) (delete i l)
      else l
  end.

Definition is_named (s : string) : bool :=
  CStr.strncmp s "name=" 5 =? 0.

(** [runs respond w w' evs]: moreover the environment of [w'] is the one of
    [w] after the calls of [evs], and nothing else reached it. *)
Definition runs {E} (respond : E -> call -> reply * E) (w w' : world E)
    (evs : list event) : Prop :=
  extends w w' evs /\ env w' = env_after respond (env w) (calls_of evs).

Definition rem (p : string) (s : string) : call :=
  cgmanager_remove_sync s p CG_REMOVE_RECURSIVE.

Definition cr (p : string) (s : string) : call := cgmanager_create_sync s p.

Definition is_create (c : call) : bool :=
  match c with cgmanager_create_sync _ _ => true | _ => false end.

(** The log of a run that met a failed create: the creates of subsystems
    0..i-1 precede it and the removes of cleanup_cgroups follow it. *)
Definition rolled_back (reg : list string) (evs : list event) : Prop :=
  exists pre c p r post (i : nat),
    evs = pre ++ EvCall (cr p c) r :: post /\
    forallb create_ok pre = true /\ rc r <> 0 /\
    reg !! i = Some c /\
    (exists pre0, calls_of pre = pre0 ++ map (cr p) (take i reg)) /\
    calls_of post = map (rem p) reg.

(** move_pid or move_pid_abs, as lxc_cgmanager_enter chooses. *)
Definition mv (abs : bool) (pid : Z) (p : string) (s : string) : call :=
  if abs then cgmanager_move_pid_abs_sync s p pid
  else cgmanager_move_pid_sync s p pid.

(** What the second of two destroys of one path finds in a subsystem: the
    remove is answered with -1 in existed, which is logged. *)
Definition not_there (p : string) (s : string) : list event :=
  [EvCall (rem p s) (Reply 0 (-1) 0);
   EvLog INFO "cgroup removal attempt: did not exist"].

(** The array is at least as long as its counted part. *)
Definition in_bounds {E} (w : world E) : Prop :=
  (nr_subsystems w <= length (default [] (subsystems w)))%nat.

(** No two neighbours in the list are both named controllers. *)
Fixpoint no_adjacent_named (l : list string) : bool :=
  match l with
  | x :: ((y :: _) as t) => negb (is_named x && is_named y) && no_adjacent_named t
  | _ => true
  end.

(** The array holds exactly the counted entries. *)
Definition counted {E} (w : world E) : Prop :=
  length (registry w) = nr_subsystems w.

(** [emits m P]: from any state, [m] appends some events to the log, and
    [P] holds of its result and these events. *)
Definition emits {E A} (m : M E A) (P : A -> list event -> Prop) : Prop :=
  forall w, exists evs, trace (snd (m w)) = trace w ++ evs /\ P (fst (m w)) evs.

(** The read that delivers the status byte 1. *)
Definition status_read (e : event) : bool :=
  match e with
  | EvCall (sys_read _) r => (rc r =? 1) && (out r =? 49)
  | _ => false
  end.

(** What do_chown_cgroup leaves in the log: it starts with the uid lookup
    and the socket pair and ends with the close of both ends (of -1 twice
    when there is no pair). *)
Definition handshake_log (origuid : Z) (evs : list event) : Prop :=
  exists ns sp rest r0 r1,
    evs = EvCall (get_ns_uid origuid) ns :: EvCall sys_socketpair sp ::
          rest ++ [EvCall (sys_close (if rc sp <? 0 then -1 else out sp)) r0;
                   EvCall (sys_close (if rc sp <? 0 then -1 else out2 sp)) r1].

(** The log of a handshake that reports success: every call of
    do_chown_cgroup in its order and no message, the read of the third
    stage returning one byte, the character 1 (49), and the close of both
    ends after it. *)
Definition reports_success (controller path : string) (origuid : Z)
    (hs : list event) : Prop :=
  exists ns sp o1 o0 c s1 r1 pid uid gid m1 s2 r2 pid' m2 s3 r3 k0 k1,
    hs = [EvCall (get_ns_uid origuid) ns; EvCall sys_socketpair sp;
          EvCall (sys_setsockopt (out2 sp)) o1;
          EvCall (sys_setsockopt (out sp)) o0;
          EvCall (cgmanager_chown_scm_sync controller path (out2 sp)) c;
          EvCall (sys_select (out sp)) s1; EvCall (sys_read (out sp)) r1;
          EvCall sys_getpid pid; EvCall sys_getuid uid; EvCall sys_getgid gid;
          EvCall (sys_sendmsg (out sp) (rc pid) (rc uid) (rc gid)) m1;
          EvCall (sys_select (out sp)) s2; EvCall (sys_read (out sp)) r2;
          EvCall sys_getpid pid';
          EvCall (sys_sendmsg (out sp) (rc pid') (rc ns) 0) m2;
          EvCall (sys_select (out sp)) s3; EvCall (sys_read (out sp)) r3;
          EvCall (sys_close (out sp)) k0; EvCall (sys_close (out2 sp)) k1] /\
    rc r3 = 1 /\ out r3 = 49.

Definition chmods (controller path : string) : list call :=
  [cgmanager_chmod_sync controller path "" 509;
   cgmanager_chmod_sync controller path "tasks" 509;
   cgmanager_chmod_sync controller path "cgroup.procs" 509].

(** What chown_cgroup leaves in the log: first the handshake, without any
    chmod, then the chmod calls, a prefix of the three, and these only when
    no stage of the handshake failed and the handshake, the last thing in
    the log before them, reported success. *)
Definition transfer_log (controller path : string) (b : bool)
    (evs : list event) : Prop :=
  exists pre post,
    evs = pre ++ post /\
    existsb is_chmod (calls_of pre) = false /\
    existsb stage_failed post = false /\
    (exists k : nat, calls_of post = take k (chmods controller path)) /\
    (calls_of post <> [] ->
     existsb status_read pre = true /\ existsb stage_failed pre = false /\
     exists h hs origuid,
       pre = h ++ hs /\ reports_success controller path origuid hs) /\
    (existsb stage_failed pre = true -> b = false /\ calls_of post = []).

(** What one round of the loop of cgm_chown leaves in the log for a
    subsystem: the log of chown_cgroup, and a warning when it failed. *)
Definition chown_round (path : string) (s : string) (evs : list event) : Prop :=
  exists b tl,
    transfer_log s path b tl /\
    evs = tl ++ (if b then [] else [EvLog WARN "Failed to chown to container root"]).

(** An event that is neither a chmod nor a select or read. *)
Definition neutral (e : event) : bool :=
  match e with
  | EvCall (cgmanager_chmod_sync _ _ _ _) _ => false
  | EvCall (sys_select _) _ => false
  | EvCall (sys_read _) _ => false
  | _ => true
  end.

(** The controllers collect_line adds for one line. *)
Definition line_tokens (line : string) : list string :=
  let l := CStr.before_chr CStr.NUL line in
  if String.eqb l "" then []
  else
    match CStr.after_chr ":" l with
    | None => []
    | Some slist =>
        match CStr.after_chr ":" slist with
        | None => []
        | Some _ => CStr.strtok_all "," "" (CStr.before_chr ":" slist)
        end
    end.

(** The record is text: it holds no NUL. *)
Definition no_nul (s : string) : Prop := CStr.after_chr CStr.NUL s = None.

(** [cur] put in front of the first field. *)
Definition onto_head (cur : string) (l : list string) : list string :=
  match l with
  | [] => [cur]
  | h :: t => (cur +:+ h) :: t
  end.

(** What snprintf appends for an index: nothing for 0. *)
Definition suffix (index : Z) : string :=
  if index =? 0 then "" else "-" +:+ CStr.fmt_d index.

(** The path cgm_create tries at an index: tmp, once result holds the base
    and the suffix. *)
Definition candidate (base : string) (index : Z) : string :=
  CStr.skip (CStr.leading_slashes base)
            (if index =? 0 then base else base +:+ ("-" +:+ CStr.fmt_d index)).

(** The suffix fits into what is left of result. *)
Definition fits (base : string) (index : Z) : Prop :=
  index = 0 \/
  CStr.strlen ("-" +:+ CStr.fmt_d index) < MAXPATHLEN - CStr.strlen base.

(** Two suffixes below 100: different, neither names a cgroup below the
    other, and the larger index has the longer suffix. *)
Definition suffix_table : bool :=
  forallb (fun i =>
    forallb (fun j =>
      let a := suffix (Z.of_nat i) in
      let b := suffix (Z.of_nat j) in
      ((i =? j)%nat || negb (String.eqb b a) && negb (String.prefix (a +:+ "/") b)) &&
      ((j <? i)%nat || (String.length a <=? String.length b)%nat))
    (seq 0 100)) (seq 0 100).

(** ** Concrete runs *)
Module Example.

(** [n] copies of a character. *)
Fixpoint fill (n : nat) (c : ascii) : string :=
  match n with
  | O => EmptyString
  | S n' => String c (fill n' c)
  end.

Definition idmap : lxc_conf := LxcConf [(0, 0, 100000, 65536)].

(** A handle as cgm_init leaves it, and one whose create has succeeded. *)
Definition fresh : cgm_data := CgmData "c1" None (Some "/lxc/%n").
Definition created : cgm_data := CgmData "c1" (Some "lxc/c1") (Some "/lxc/%n").

(** lxc/c1 and lxc/c1-1 are taken. *)
Definition crowded : world (gset (string * string)) :=
  Double.start {[ ("cpu", "lxc/c1"); ("memory", "lxc/c1-1") ]} ["cpu"; "memory"].

(** The container's cgroup with a child in one subsystem. *)
Definition populated : world (gset (string * string)) :=
  Double.start {[ ("cpu", "lxc/c1"); ("cpu", "lxc/c1/init"); ("memory", "lxc/c1") ]}
               ["cpu"; "memory"].

(** Two named hierarchies in a row, and a daemon without support for them. *)
Definition named : world (gset (string * string)) :=
  Double.start ∅ ["name=systemd"; "name=lxc"; "cpu"].

(** A name as long as result allows. *)
Definition long_name : string := fill 4095 "a".
Definition long : cgm_data := CgmData long_name None (Some "%n").
Definition long_taken : world (gset (string * string)) :=
  Double.start {[ ("cpu", long_name) ]} ["cpu"].

(** The create of the second subsystem fails. *)
Definition second_create_fails : world (list reply) :=
  Script.start [Reply 0 (-1) 0; Reply 1 0 0] ["cpu"; "memory"].

(** The connection opens (version 4), the namespace cannot be set up. *)
Definition chown_fails : world (list reply) :=
  Script.start [Reply 1 0 0; Reply 1 0 0; Reply 0 4 0;
                Reply 1000 0 0; Reply (-1) 0 0] ["cpu"].

(** The handshake reaches its second stage, whose select fails: euid,
    namespace, setresgid, setresuid, setgroups, ns uid, socket pair (3, 4),
    two setsockopt, chown_scm, select, read, pid, uid, gid, sendmsg,
    select. *)
Definition second_select_fails : world (list reply) :=
  Script.start [Reply 1000 0 0; Reply 0 0 0; Reply 0 0 0; Reply 0 0 0;
                Reply 0 0 0; Reply 0 0 0; Reply 0 3 4; Reply 0 0 0;
                Reply 0 0 0; Reply 0 0 0; Reply 1 0 0; Reply 1 0 0;
                Reply 42 0 0; Reply 0 0 0; Reply 0 0 0; Reply 0 0 0;
                Reply (-1) 0 0] ["cpu"].

(** The first read of the handshake returns nothing: ns uid, socket pair
    (3, 4), two setsockopt, chown_scm, select, read. *)
Definition first_read_short : world (list reply) :=
  Script.start [Reply 0 0 0; Reply 0 3 4; Reply 0 0 0; Reply 0 0 0;
                Reply 0 0 0; Reply 1 0 0; Reply 0 0 0] ["cpu"].

(** A process that has discovered nothing yet. *)
Definition undiscovered : world unit := World tt [] false 0 0 None false.

Definition lf : string := String CStr.LF "".
Definition proc_cgroup : string :=
  "4:cpu,cpuacct:/" +:+ lf +:+ "3:memory:/user" +:+ lf +:+ "1:name=systemd:/" +:+ lf.
Definition proc_cgroup_twice : string :=
  "2:cpu:/" +:+ lf +:+ "1:cpu:/" +:+ lf.

(** The child reports the three bytes abc; the caller has room for 8. *)
Definition abc : Get.pipe_io := Get.PipeIO 0 1 4 3 (Some [x61; x62; x63]).
(** The child reports an empty value. *)
Definition empty : Get.pipe_io := Get.PipeIO 0 1 4 0 (Some []).

End Example.

(** * The rest of cgmanager.c *)

(** ** Start-up: cgm_ops_init and cgm_init *)
Module Startup.

Section Startup.

Variable E : Type.
Variable respond : E -> call -> reply * E.

Local Notation "x <- m ;; k" := (bind m (fun x => k))
  (at level 20, m at level 99, k at level 200, only parsing).
Local Notation "m ;;; k" := (bind m (fun _ => k))
  (at level 100, k at level 200, right associativity, only parsing).

(** The strings and the array are freed; what stays of them is the NULL
    pointer and the zero count. *)
Definition free_subsystems : M E unit := set_subsystems E None 0.

(** The loop of lxc_cgmanager_escape from subsystem list [l] on. *)
Fixpoint lxc_cgmanager_escape_for (l : list string) (me : Z) : M E bool :=
  match l with
  | [] => ret true
  | s :: l' =>
      r <- do_call respond (cgmanager_move_pid_abs_sync s "/" me) ;;
      if negb (rc r =? 0) then
        log E ERROR "call to cgmanager_move_pid_abs_sync() failed" ;;; ret false
      else lxc_cgmanager_escape_for l' me
  end.

Definition lxc_cgmanager_escape : M E bool :=
  me <- do_call respond sys_getpid ;;
  w <- get E ;;
  lxc_cgmanager_escape_for (registry w) (rc me).

(** The result is whether the pointer returned is &cgmanager_ops and not
    NULL.  The two files are passed on to collect_subsytems. *)
Definition cgm_ops_init (proc_self_cgroup proc_1_cgroup : option string)
    : M E bool :=
  found <- collect_subsytems proc_self_cgroup proc_1_cgroup ;;
  if negb found then ret false
  else
    ok <- cgm_dbus_connect respond ;;
    if negb ok then free_subsystems ;;; ret false
    else
      e <- do_call respond sys_geteuid ;;
      if rc e =? 0 then
        escaped <- lxc_cgmanager_escape ;;
        if negb escaped then
          cgm_dbus_disconnect ;;; free_subsystems ;;; ret false
        else cgm_dbus_disconnect ;;; ret true
      else cgm_dbus_disconnect ;;; ret true.

(** [lxc_cgroup_pattern] is what lxc_global_config_value (utils.c, not
    under src/) hands back for lxc.cgroup.pattern, NULL when there is no
    value; it is looked at for root only.  The handle comes back with the
    connection left open. *)
Definition cgm_init (lxc_cgroup_pattern : option string) (name : string)
    : M E (option cgm_data) :=
  ok <- cgm_dbus_connect respond ;;
  if negb ok then
    log E ERROR "Error connecting to cgroup manager" ;;; ret None
  else
    e <- do_call respond sys_geteuid ;;
    let pattern := if rc e =? 0 then lxc_cgroup_pattern else None in
    ret (Some (CgmData name None
                 (Some (match pattern with Some p => p | None => "%n" end)))).

End Startup.

End Startup.

Arguments Startup.free_subsystems {E}.
Arguments Startup.lxc_cgmanager_escape_for {E}.
Arguments Startup.lxc_cgmanager_escape {E}.
Arguments Startup.cgm_ops_init {E}.
Arguments Startup.cgm_init {E}.

(** ** cgm_setup_limits *)
Module Limits.

(** struct lxc_cgroup: one lxc.cgroup.* line of the configuration, the
    file name (as in memory.limit_in_bytes) and the value to write. *)
Record lxc_cgroup : Type := LxcCgroup { subsystem : string; value : string }.

(** do_devices != !strncmp("devices", cg->subsystem, 7) is false: the
    setting belongs to this pass. *)
Definition in_pass (do_devices : bool) (cg : lxc_cgroup) : bool :=
  Bool.eqb do_devices (CStr.strncmp "devices" (subsystem cg) 7 =? 0).

Section Limits.

Variable E : Type.
Variable respond : E -> call -> reply * E.

Local Notation "x <- m ;; k" := (bind m (fun x => k))
  (at level 20, m at level 99, k at level 200, only parsing).
Local Notation "m ;;; k" := (bind m (fun _ => k))
  (at level 100, k at level 200, right associativity, only parsing).

(** lxc_list_for_each from [l] on, up to the label out.  controller is
    char[100] and strcpy writes strlen + 1 bytes: a name of 100 characters
    passes the test that precedes the copy and the copy then writes one byte
    past the array, which is [None]. *)
Fixpoint setup_limits_for (l : list lxc_cgroup) (path : string)
    (do_devices : bool) : M E (option bool) :=
  match l with
  | [] => log E INFO "cgroup limits have been setup" ;;; ret (Some true)
  | cg :: l' =>
      if negb (in_pass do_devices cg) then setup_limits_for l' path do_devices
      else if CStr.strlen (subsystem cg) >? 100 then ret (Some false)
      else if CStr.strlen (subsystem cg) + 1 >? 100 then ret None
      else
        let controller := CStr.before_chr "." (subsystem cg) in
        r <- do_call respond
               (cgmanager_set_value_sync controller path (subsystem cg) (value cg)) ;;
        if negb (rc r =? 0) then
          log E ERROR "call to cgmanager_set_value_sync failed" ;;;
          log E ERROR "Error setting cgroup limit type" ;;;
          ret (Some false)
        else
          log E DEBUG "cgroup set to" ;;;
          setup_limits_for l' path do_devices
  end.

Definition cgm_setup_limits (hdata : option cgm_data)
    (cgroup_settings : list lxc_cgroup) (do_devices : bool) : M E (option bool) :=
  match cgroup_settings with
  | [] => ret (Some true)
  | _ :: _ =>
      match hdata with
      | None => ret (Some false)
      | Some d =>
          match cgroup_path d with
          | None => ret (Some false)
          | Some path =>
              ok <- cgm_dbus_connect respond ;;
              if negb ok then
                log E ERROR "Error connecting to cgroup manager" ;;;
                ret (Some false)
              else
                r <- setup_limits_for cgroup_settings path do_devices ;;
                match r with
                | None => ret None
                | Some b => cgm_dbus_disconnect ;;; ret (Some b)
                end
          end
      end
  end.

End Limits.

(** The write one setting asks of the daemon. *)
Definition set_call (path : string) (cg : lxc_cgroup) : call :=
  cgmanager_set_value_sync (CStr.before_chr "." (subsystem cg)) path
    (subsystem cg) (value cg).

End Limits.

Arguments Limits.setup_limits_for {E}.
Arguments Limits.cgm_setup_limits {E}.

(** ** Operations on a running container: cgm_attach, cgm_set, cgm_get

    The cgroup of a running container is looked up, not stored.
    lxc_cmd_get_init_pid and lxc_cmd_get_cgroup_path (commands.c, not under
    src/) ask the container's monitor, cgmanager_get_pid_cgroup_abs_sync and
    cgmanager_get_value_sync ask the daemon, and all four hand back a pid or
    a string.  Each is used at most once in an operation; they are taken as
    functions of the environment and their arguments that leave the
    environment and the log as they are.  free_abs_cgroup only releases
    memory and has no counterpart here. *)
Module Running.

(** strrchr(s, c) followed by *p = '\0': what precedes the last occurrence
    of c and what follows it; NULL is [None]. *)
Fixpoint strrchr_cut (c : ascii) (s : string) : option (string * string) :=
  match s with
  | EmptyString => None
  | String x s' =>
      match strrchr_cut c s' with
      | Some (a, b) => Some (String x a, b)
      | None => if Ascii.eqb x c then Some (EmptyString, s') else None
      end
  end.

(** What a child process leaves behind: the int and the bytes it handed to
    write, in order, and its exit status. *)
Record child_end : Type := ChildEnd {
  sent_int : Z;
  sent_bytes : option string;
  exit_status : Z
}.

Section Running.

Variable E : Type.
Variable respond : E -> call -> reply * E.

(** Whether the build has the RPC (the configure-time macro). *)
Variable HAVE_CGMANAGER_GET_PID_CGROUP_ABS_SYNC : bool.
Variable lxc_cmd_get_init_pid : E -> string -> string -> Z.
Variable lxc_cmd_get_cgroup_path : E -> string -> string -> string -> option string.
(** The return value and the cgroup written through the out-parameter. *)
Variable cgmanager_get_pid_cgroup_abs_sync : E -> string -> Z -> Z * option string.
(** The return value and the result string. *)
Variable cgmanager_get_value_sync : E -> string -> string -> string -> Z * string.

Local Notation "x <- m ;; k" := (bind m (fun x => k))
  (at level 20, m at level 99, k at level 200, only parsing).
Local Notation "m ;;; k" := (bind m (fun _ => k))
  (at level 100, k at level 200, right associativity, only parsing).

Definition abs_cgroup_supported : M E bool :=
  w <- get E ;;
  ret (HAVE_CGMANAGER_GET_PID_CGROUP_ABS_SYNC &&
       (api_version w >=? CGM_SUPPORTS_GET_ABS)).

Definition try_get_abs_cgroup (name lxcpath controller : string)
    : M E (option string) :=
  a <- abs_cgroup_supported ;;
  w <- get E ;;
  if a then
    let pid := lxc_cmd_get_init_pid (env w) name lxcpath in
    if pid <? 0 then ret None
    else
      let '(r, cgroup) := cgmanager_get_pid_cgroup_abs_sync (env w) controller pid in
      if negb (r =? 0) then ret None else ret cgroup
  else ret (lxc_cmd_get_cgroup_path (env w) name lxcpath controller).

(** subsystems[0]; the model reads an empty name where there is no array. *)
Definition first_subsystem : M E string :=
  w <- get E ;;
  ret (default "" (default [] (subsystems w) !! 0%nat)).

Definition cgm_attach (name lxcpath : string) (pid : Z) : M E bool :=
  ok <- cgm_dbus_connect respond ;;
  if negb ok then
    log E ERROR "Error connecting to cgroup manager" ;;; ret false
  else
    s0 <- first_subsystem ;;
    cg <- try_get_abs_cgroup name lxcpath s0 ;;
    match cg with
    | None =>
        log E ERROR "Failed to get cgroup for controller" ;;;
        cgm_dbus_disconnect ;;; ret false
    | Some cgroup =>
        a <- abs_cgroup_supported ;;
        pass <- do_cgm_enter respond pid cgroup a ;;
        cgm_dbus_disconnect ;;;
        (if negb pass then log E ERROR "Failed to enter group" else ret tt) ;;;
        ret pass
    end.

(** *** The child of cgm_set

    [wr] is what the one write to the pipe returns. *)

(** The write of the error value and exit(1). *)
Definition set_fails (wr : Z) : M E child_end :=
  (if negb (wr =? 4) then
     log E WARN "Failed to warn cgm_set of error; parent may hang"
   else ret tt) ;;;
  ret (ChildEnd 0 None 1).

Definition do_cgm_set (name lxcpath filename value : string) (wr : Z)
    : M E child_end :=
  match CStr.after_chr "." filename with
  | None => set_fails wr
  | Some _ =>
      let controller := CStr.before_chr "." filename in
      ok <- cgm_dbus_connect respond ;;
      if negb ok then
        log E ERROR "Error connecting to cgroup manager" ;;; set_fails wr
      else
        s0 <- first_subsystem ;;
        cg <- try_get_abs_cgroup name lxcpath s0 ;;
        match cg with
        | None => cgm_dbus_disconnect ;;; set_fails wr
        | Some cgroup =>
            match strrchr_cut "/" cgroup with
            | None => cgm_dbus_disconnect ;;; set_fails wr
            | Some (dir, cglast) =>
                me <- do_call respond sys_getpid ;;
                a <- abs_cgroup_supported ;;
                entered <- lxc_cgmanager_enter respond (rc me) controller dir a ;;
                if negb entered then
                  log E ERROR "Failed to enter container cgroup" ;;;
                  r <- set_fails wr ;;
                  cgm_dbus_disconnect ;;; ret r
                else
                  s <- do_call respond
                         (cgmanager_set_value_sync controller cglast filename value) ;;
                  if negb (rc s =? 0) then
                    log E ERROR "Error setting cgroup value for" ;;;
                    log E ERROR "call to cgmanager_set_value_sync failed" ;;;
                    cgm_dbus_disconnect ;;; set_fails wr
                  else
                    cgm_dbus_disconnect ;;;
                    ret (ChildEnd 1 None (if negb (wr =? 4) then 1 else 0))
            end
        end
  end.

(** *** The child of cgm_get

    [wr1] and [wr2] are what the write of the length and the write of the
    value return.  len is an int. *)

(** The write of -1 and exit(1). *)
Definition get_fails (wr1 : Z) : M E child_end :=
  (if negb (wr1 =? 4) then
     log E WARN "Failed to warn cgm_get of error; parent may hang"
   else ret tt) ;;;
  ret (ChildEnd (-1) None 1).

Definition do_cgm_get (name lxcpath filename : string) (sendvalue : bool)
    (wr1 wr2 : Z) : M E child_end :=
  match CStr.after_chr "." filename with
  | None => get_fails wr1
  | Some _ =>
      let controller := CStr.before_chr "." filename in
      ok <- cgm_dbus_connect respond ;;
      if negb ok then
        log E ERROR "Error connecting to cgroup manager" ;;; get_fails wr1
      else
        s0 <- first_subsystem ;;
        cg <- try_get_abs_cgroup name lxcpath s0 ;;
        match cg with
        | None => cgm_dbus_disconnect ;;; get_fails wr1
        | Some cgroup =>
            match strrchr_cut "/" cgroup with
            | None => cgm_dbus_disconnect ;;; get_fails wr1
            | Some (dir, cglast) =>
                me <- do_call respond sys_getpid ;;
                a <- abs_cgroup_supported ;;
                entered <- lxc_cgmanager_enter respond (rc me) controller dir a ;;
                if negb entered then
                  log E ERROR "Failed to enter container cgroup" ;;;
                  r <- get_fails wr1 ;;
                  cgm_dbus_disconnect ;;; ret r
                else
                  w <- get E ;;
                  let '(v, result) :=
                    cgmanager_get_value_sync (env w) controller cglast filename in
                  if negb (v =? 0) then cgm_dbus_disconnect ;;; get_fails wr1
                  else
                    cgm_dbus_disconnect ;;;
                    let len := Get.int (CStr.strlen result) in
                    if negb (wr1 =? 4) then
                      log E WARN "Failed to send length to parent" ;;;
                      ret (ChildEnd len None 1)
                    else if (len =? 0) || negb sendvalue then
                      ret (ChildEnd len None 0)
                    else
                      ret (ChildEnd len (Some result) (if wr2 <? 0 then 1 else 0))
            end
        end
  end.

End Running.

(** *** cgm_set, the parent's side

    [pipe_rc] and [fork_rc] are the return values of pipe and fork, [rd_rc]
    and [rd] the return value of the read and the int it stored. *)
Record set_io : Type := SetIO {
  pipe_rc : Z;
  fork_rc : Z;
  rd_rc : Z;
  rd : Z
}.

(** Where fork returns 0 the process is the child: it runs do_cgm_set,
    which exits, so cgm_set does not return there ([None]). *)
Definition cgm_set (io : set_io) : option Z :=
  if pipe_rc io <? 0 then Some (-1) else
  if fork_rc io <? 0 then Some (-1) else
  if fork_rc io =? 0 then None else
  if negb (rd_rc io =? 4) || (rd io =? 0) then Some (-1) else Some 0.

(** *** The pipe between the two processes of cgm_get

    What the parent finds when pipe and fork succeeded and the child's
    write of the int was complete: the int, then those of the child's
    bytes that are in the pipe when the parent reads.  A read from a pipe
    returns what is there, which is less than the whole of a value that is
    larger than the pipe or that was written in part.  [wr2] is what the
    child's second write returned and [avail] the number of bytes in the
    pipe when the parent reads, no more than were written. *)
Definition pipe_of (pid : Z) (c : child_end) (wr2 : Z) (avail : nat)
    : Get.pipe_io :=
  Get.PipeIO 0 pid 4 (sent_int c)
    (Some (take (Nat.min avail (Z.to_nat wr2))
                (match sent_bytes c with
                 | Some s => list_byte_of_string s
                 | None => []
                 end))).

(** A value as it is to arrive in a buffer of len bytes, with the return
    value: cut to len - 1 bytes and a NUL when it does not fit, followed by
    a newline and NULs when there is room for both, and by NULs alone
    otherwise. *)
Definition framed (v : list byte) (len : Z) : Z * list byte :=
  let n := Z.of_nat (length v) in
  if n =? 0 then (0, replicate (Z.to_nat len) x00)
  else if len <=? n then (len - 1, take (Z.to_nat (len - 1)) v ++ [x00])
  else if n + 1 <? len then
    (n + 1, v ++ [x0a] ++ replicate (Z.to_nat (len - n - 1)) x00)
  else (n, v ++ [x00]).

End Running.

Arguments Running.abs_cgroup_supported {E}.
Arguments Running.try_get_abs_cgroup {E}.
Arguments Running.first_subsystem {E}.
Arguments Running.cgm_attach {E}.
Arguments Running.set_fails {E}.
Arguments Running.do_cgm_set {E}.
Arguments Running.get_fails {E}.
Arguments Running.do_cgm_get {E}.

(** ** cgm_mount_cgroup

    The file system is a state machine of its own: dir_exists (utils.c, a
    stat followed by S_ISDIR), mount and mkdir are answered by [fs] and move
    the file system on.  A function returns its result, the file system and
    the calls it made; the error messages it logs are left out. *)
Module Mount.

Inductive fs_call : Type :=
| dir_exists (path : string)
| sys_mount (source target fstype : string) (flags : Z) (data : option string)
| sys_mkdir (path : string) (mode : Z).

Definition MS_BIND : Z := 4096.
Definition CGMANAGER_LOWER_SOCK : string := "/sys/fs/cgroup/cgmanager.lower".
Definition CGMANAGER_UPPER_SOCK : string := "/sys/fs/cgroup/cgmanager".

Section Mount.

Variable F : Type.
Variable fs : F -> fs_call -> Z * F.

Definition FS (A : Type) : Type := F * list fs_call -> A * (F * list fs_call).

Definition fs_ret {A} (a : A) : FS A := fun s => (a, s).

Definition fs_bind {A B} (m : FS A) (k : A -> FS B) : FS B :=
  fun s => let (a, s') := m s in k a s'.

Definition fs_do (c : fs_call) : FS Z := fun s =>
  let (r, f') := fs (fst s) c in (r, (f', snd s ++ [c])).

Local Notation "x <- m ;; k" := (fs_bind m (fun x => k))
  (at level 20, m at level 99, k at level 200, only parsing).

(** dir_exists is true for a nonzero answer; 0755 is 493. *)
Definition cgm_bind_dir (root dirname : string) : FS bool :=
  let cgpath := root +:+ "/sys/fs/cgroup" in
  e <- fs_do (dir_exists cgpath) ;;
  if e =? 0 then fs_ret false
  else
    m <- fs_do (sys_mount "cgroup" cgpath "tmpfs" 0 (Some "size=10000,mode=755")) ;;
    if negb (m =? 0) then fs_ret false
    else
      let cgpath := cgpath +:+ "/cgmanager" in
      d <- fs_do (sys_mkdir cgpath 493) ;;
      if d <? 0 then fs_ret false
      else
        b <- fs_do (sys_mount dirname cgpath "none" MS_BIND None) ;;
        if negb (b =? 0) then fs_ret false else fs_ret true.

Definition cgm_mount_cgroup (hdata : option cgm_data) (root : string) (type : Z)
    : FS bool :=
  lower <- fs_do (dir_exists CGMANAGER_LOWER_SOCK) ;;
  if negb (lower =? 0) then cgm_bind_dir root CGMANAGER_LOWER_SOCK
  else
    upper <- fs_do (dir_exists CGMANAGER_UPPER_SOCK) ;;
    if negb (upper =? 0) then cgm_bind_dir root CGMANAGER_UPPER_SOCK
    else fs_ret false.

(** The test cgm_bind_dir puts to the answer of each of its calls: the
    directory exists (a nonzero answer), mount returns 0, mkdir does not
    return a negative number. *)
Definition passed (c : fs_call) (z : Z) : bool :=
  match c with
  | dir_exists _ => negb (z =? 0)
  | sys_mount _ _ _ _ _ => z =? 0
  | sys_mkdir _ _ => negb (z <? 0)
  end.

(** The answers of the file system to calls made one after the other. *)
Fixpoint answers (f : F) (cs : list fs_call) : list Z :=
  match cs with
  | [] => []
  | c :: cs' => fst (fs f c) :: answers (snd (fs f c)) cs'
  end.

End Mount.

End Mount.

Arguments Mount.fs_ret {F A}.
Arguments Mount.fs_bind {F A B}.
Arguments Mount.fs_do {F}.
Arguments Mount.cgm_bind_dir {F}.
Arguments Mount.cgm_mount_cgroup {F}.
Arguments Mount.answers {F}.

(** A kernel controller: one whose name does not begin with [name=]. *)
Definition kernel (s : string) : bool := negb (is_named s).

(** ** The connection over an operation *)

(** [keeps_proxy m]: [m] leaves the proxy pointer as it found it. *)
Definition keeps_proxy {E A} (m : M E A) : Prop :=
  forall w, cgroup_manager (snd (m w)) = cgroup_manager w.

(** [ends_closed m]: whatever the state before, [m] ends with the proxy
    pointer NULL. *)
Definition ends_closed {E A} (m : M E A) : Prop :=
  forall w, cgroup_manager (snd (m w)) = false.

(** [balanced m]: started without a connection, [m] ends without one. *)
Definition balanced {E A} (m : M E A) : Prop :=
  forall w, cgroup_manager w = false -> cgroup_manager (snd (m w)) = false.

Definition is_set_value (c : call) : bool :=
  match c with cgmanager_set_value_sync _ _ _ _ => true | _ => false end.

(** ** More concrete runs *)
Module Sample.

(** Named controllers with a kernel controller between them, and a daemon
    without support for them. *)
Definition apart : world (gset (string * string)) :=
  Double.start ∅ ["name=systemd"; "cpu"; "name=lxc"; "memory"].

(** A daemon that holds another container's cgroup. *)
Definition clean : world (gset (string * string)) :=
  Double.start {[ ("cpu", "lxc/other") ]} ["cpu"; "memory"].

(** The connection opens and the daemon reports version 4. *)
Definition opens : list reply := [Reply 1 0 0; Reply 1 0 0; Reply 0 4 0].

(** A process before discovery whose connection cannot be opened. *)
Definition unreachable : world (list reply) :=
  World [Reply 0 0 0] [] false 0 0 None false.

(** A process before discovery whose connection opens; every later call
    succeeds, and the effective uid is 0. *)
Definition boot : world (list reply) := World opens [] false 0 0 None false.

(** Two settings for the first pass and one for the devices pass. *)
Definition limits : list Limits.lxc_cgroup :=
  [Limits.LxcCgroup "memory.limit_in_bytes" "1073741824";
   Limits.LxcCgroup "devices.deny" "a";
   Limits.LxcCgroup "cpu.shares" "512"].

(** The connection opens for one pass. *)
Definition one_pass : world (list reply) := Script.start opens ["cpu"].

(** The connection opens for the first pass, its two writes succeed, and
    the connection opens again for the second. *)
Definition two_passes : world (list reply) :=
  Script.start (opens ++ [Reply 0 0 0; Reply 0 0 0] ++ opens) ["cpu"].

(** A connection that opens and two subsystems. *)
Definition attached : world (list reply) := Script.start opens ["cpu"; "memory"].

End Sample.

(** * Proofs *)

(** ** Logs *)

Lemma calls_of_app a b : calls_of (a ++ b) = calls_of a ++ calls_of b.
Proof.
  induction a as [|[c r|l m] a IH]; cbn; [reflexivity | f_equal; exact IH | exact IH].
Qed.

Lemma replies_of_app a b : replies_of (a ++ b) = replies_of a ++ replies_of b.
Proof.
  induction a as [|[c r|l m] a IH]; cbn; [reflexivity | f_equal; exact IH | exact IH].
Qed.

(** ** Create, enter and the null handle, for any environment *)

Section Facts.
Context {E : Type} (respond : E -> call -> reply * E).
Implicit Types (w : world E) (evs : list event).

Lemma bind_eq {A B} (m : M E A) (k : A -> M E B) w :
  bind m k w = k (fst (m w)) (snd (m w)).
Proof. unfold bind. destruct (m w); reflexivity. Qed.

Lemma registry_extends w w' evs : extends w w' evs -> registry w' = registry w.
Proof. intros (_ & Hn & Hs & _). unfold registry. rewrite Hn, Hs. reflexivity. Qed.

Lemma runs_registry w w' evs : runs respond w w' evs -> registry w' = registry w.
Proof. intros [H _]. eapply registry_extends; eauto. Qed.

Lemma runs_nil w w' :
  trace w' = trace w -> nr_subsystems w' = nr_subsystems w ->
  subsystems w' = subsystems w -> api_version w' = api_version w ->
  env w' = env w -> runs respond w w' [].
Proof.
  intros. repeat split; auto. rewrite app_nil_r; auto.
Qed.

Lemma runs_trans w w1 w2 e1 e2 :
  runs respond w w1 e1 -> runs respond w1 w2 e2 -> runs respond w w2 (e1 ++ e2).
Proof.
  intros [(Ht & Hn & Hs & Ha) He] [(Ht' & Hn' & Hs' & Ha') He'].
  repeat split; try congruence.
  - rewrite Ht', Ht, app_assoc. reflexivity.
  - rewrite He', He, calls_of_app. unfold env_after. rewrite fold_left_app. reflexivity.
Qed.

Lemma do_call_runs c w :
  runs respond w (snd (do_call respond c w)) [EvCall c (fst (do_call respond c w))].
Proof.
  unfold do_call. destruct (respond (env w) c) as [r e] eqn:H.
  repeat split; cbn. unfold env_after; cbn. rewrite H. reflexivity.
Qed.

Lemma do_call_reply c w :
  fst (do_call respond c w) = fst (respond (env w) c).
Proof. unfold do_call. destruct (respond (env w) c); reflexivity. Qed.

Lemma log_runs lvl msg w : runs respond w (snd (log E lvl msg w)) [EvLog lvl msg].
Proof. repeat split. Qed.

Lemma disconnect_runs w : runs respond w (snd (cgm_dbus_disconnect w)) [].
Proof. apply runs_nil; reflexivity. Qed.


Lemma remove_runs s p w :
  exists evs, runs respond w (snd (cgm_remove_cgroup respond s p w)) evs /\
              calls_of evs = [rem p s].
Proof.
  unfold cgm_remove_cgroup. rewrite bind_eq.
  pose proof (do_call_runs (cgmanager_remove_sync s p CG_REMOVE_RECURSIVE) w) as H0.
  set (r := fst (do_call respond _ w)) in *.
  set (w0 := snd (do_call respond _ w)) in *.
  rewrite bind_eq.
  destruct (negb (rc r =? 0)).
  - rewrite !bind_eq.
    set (w1 := snd (log E ERROR _ w0)).
    pose proof (log_runs ERROR "call to cgmanager_remove_sync failed" w0) as H1.
    fold w1 in H1.
    pose proof (log_runs ERROR "Error removing" w1) as H2.
    set (w2 := snd (log E ERROR "Error removing" w1)) in *.
    destruct (out r =? -1).
    + eexists. split.
      * eapply runs_trans; [exact H0|]. eapply runs_trans; [exact H1|].
        eapply runs_trans; [exact H2|]. apply log_runs.
      * reflexivity.
    + eexists. split.
      * eapply runs_trans; [exact H0|]. eapply runs_trans; [exact H1|]. exact H2.
      * reflexivity.
  - cbn [ret fst snd].
    destruct (out r =? -1).
    + eexists. split; [eapply runs_trans; [exact H0| apply log_runs]|reflexivity].
    + eexists. split; [exact H0 | reflexivity].
Qed.

Lemma for_each_remove_runs p l w :
  exists evs, runs respond w (snd (for_each l (fun s => cgm_remove_cgroup respond s p) w)) evs /\
              calls_of evs = map (rem p) l.
Proof.
  revert w. induction l as [|s l IH]; intros w; cbn [for_each].
  - exists []. split; [apply runs_nil; reflexivity | reflexivity].
  - rewrite bind_eq.
    destruct (remove_runs s p w) as (e1 & H1 & C1).
    destruct (IH (snd (cgm_remove_cgroup respond s p w))) as (e2 & H2 & C2).
    exists (e1 ++ e2). split; [eapply runs_trans; eauto|].
    rewrite calls_of_app, C1, C2. reflexivity.
Qed.

Lemma cleanup_runs p w :
  exists evs, runs respond w (snd (cleanup_cgroups respond p w)) evs /\
              calls_of evs = map (rem p) (registry w).
Proof.
  unfold cleanup_cgroups. rewrite bind_eq. cbn [get fst snd].
  apply for_each_remove_runs.
Qed.




Lemma create_ok_no_create evs :
  existsb is_create (calls_of evs) = false -> forallb create_ok evs = true.
Proof.
  induction evs as [|[c r|l m] evs IH]; cbn; auto.
  destruct c; cbn; try discriminate; auto.
Qed.

Lemma no_create_rem p l : existsb is_create (map (rem p) l) = false.
Proof. induction l; cbn; auto. Qed.

Lemma create_runs s p w :
  let r := fst (respond (env w) (cr p s)) in
  fst (lxc_cgmanager_create respond s p w) = (rc r =? 0, out r) /\
  exists logs, runs respond w (snd (lxc_cgmanager_create respond s p w))
                 (EvCall (cr p s) r :: logs) /\ calls_of logs = [].
Proof.
  unfold lxc_cgmanager_create. rewrite bind_eq.
  pose proof (do_call_runs (cgmanager_create_sync s p) w) as H0.
  rewrite do_call_reply in *. fold (cr p s) in *.
  set (r := fst (respond (env w) (cr p s))) in *.
  set (w0 := snd (do_call respond _ w)) in *. cbn zeta.
  destruct (rc r =? 0); cbn [negb].
  - split; [reflexivity|]. exists []. split; [exact H0|reflexivity].
  - rewrite !bind_eq. split; [reflexivity|].
    exists ([EvLog ERROR "call to cgmanager_create_sync failed"] ++
            [EvLog ERROR "Failed to create"]).
    split; [|reflexivity].
    change (EvCall (cr p s) r :: ?l) with ([EvCall (cr p s) r] ++ l).
    eapply runs_trans; [exact H0|].
    eapply runs_trans; apply log_runs.
Qed.

Lemma create_for_spec l tmp w :
  exists evs,
    runs respond w (snd (cgm_create_for respond l tmp w)) evs /\
    match fst (cgm_create_for respond l tmp w) with
    | HardFailure =>
        exists pre c r post (i : nat),
          evs = pre ++ EvCall (cr tmp c) r :: post /\
          forallb create_ok pre = true /\ rc r <> 0 /\
          l !! i = Some c /\ calls_of pre = map (cr tmp) (take i l) /\
          calls_of post = map (rem tmp) (registry w)
    | _ => forallb create_ok evs = true
    end.
Proof.
  revert w. induction l as [|s l IH]; intros w; cbn [cgm_create_for].
  - exists []. split; [apply runs_nil; reflexivity | reflexivity].
  - rewrite bind_eq.
    destruct (create_runs s tmp w) as (Hres & logs & Hrun & Hlogs).
    cbn zeta in *.
    set (r := fst (respond (env w) (cr tmp s))) in *.
    set (w0 := snd (lxc_cgmanager_create respond s tmp w)) in *.
    rewrite Hres. cbn [fst snd].
    destruct (rc r =? 0) eqn:Hrc; cbn [negb].
    + destruct (out r =? 1).
      * eexists. split; [exact Hrun|]. cbn [ret fst snd forallb create_ok cr].
        rewrite Hrc. apply create_ok_no_create. rewrite Hlogs. reflexivity.
      * destruct (IH w0) as (evs & Hrun' & Hm).
        exists ((EvCall (cr tmp s) r :: logs) ++ evs).
        split; [eapply runs_trans; eauto|].
        assert (Hok : forallb create_ok (EvCall (cr tmp s) r :: logs) = true).
        { cbn. rewrite Hrc. apply create_ok_no_create. rewrite Hlogs. reflexivity. }
        destruct (fst (cgm_create_for respond l tmp w0)).
        -- rewrite forallb_app, Hok, Hm. reflexivity.
        -- rewrite forallb_app, Hok, Hm. reflexivity.
        -- destruct Hm as (pre & c & r' & post & i & -> & Hpre & Hr' & Hi & Hc & Hp).
           exists ((EvCall (cr tmp s) r :: logs) ++ pre), c, r', post, (S i).
           repeat split; auto.
           ++ rewrite <- app_assoc. reflexivity.
           ++ rewrite forallb_app, Hok, Hpre. reflexivity.
           ++ rewrite calls_of_app. cbn. rewrite Hlogs, Hc. reflexivity.
           ++ rewrite Hp. f_equal. eapply runs_registry; eauto.
    + rewrite !bind_eq. cbn [ret fst snd].
      set (w1 := snd (log E ERROR "Error creating cgroup" w0)).
      destruct (cleanup_runs tmp w1) as (ce & Hce & Hcc).
      assert (Hreg : registry w1 = registry w).
      { transitivity (registry w0).
        - eapply runs_registry. apply log_runs.
        - eapply runs_registry; eauto. }
      exists ((EvCall (cr tmp s) r :: logs) ++ [EvLog ERROR "Error creating cgroup"] ++ ce).
      split.
      * eapply runs_trans; [exact Hrun|]. eapply runs_trans; [apply log_runs|exact Hce].
      * exists [], s, r, (logs ++ [EvLog ERROR "Error creating cgroup"] ++ ce), 0%nat.
        repeat split; auto.
        -- apply Z.eqb_neq; auto.
        -- rewrite !calls_of_app, Hlogs, Hcc, Hreg. reflexivity.
Qed.


Lemma create_bad_runs d w :
  runs respond w (snd (cgm_create_bad d w)) [] /\
  fst (cgm_create_bad d w) = (false, Some d).
Proof. split; [apply runs_nil; reflexivity | reflexivity]. Qed.


Lemma again_spec fuel : forall index d base baselen off w,
  exists evs,
    runs respond w (snd (cgm_create_again respond fuel index d base baselen off w)) evs /\
    (forallb create_ok evs = true \/
     (fst (fst (cgm_create_again respond fuel index d base baselen off w)) = false /\
      rolled_back (registry w) evs)).
Proof.
  induction fuel as [|fuel IH]; intros index d base baselen off w; cbn [cgm_create_again].
  - exists []. split; [apply create_bad_runs | left; reflexivity].
  - destruct (index =? 100).
    { rewrite bind_eq. eexists. split.
      - eapply runs_trans; [apply log_runs | apply create_bad_runs].
      - left; reflexivity. }
    destruct (negb (index =? 0) && _).
    { exists []. split; [apply create_bad_runs | left; reflexivity]. }
    rewrite bind_eq. cbn [get fst snd]. rewrite bind_eq.
    set (tmp := CStr.skip off _).
    destruct (create_for_spec (registry w) tmp w) as (evs & Hrun & Hm).
    set (w0 := snd (cgm_create_for respond (registry w) tmp w)) in *.
    destruct (fst (cgm_create_for respond (registry w) tmp w)).
    + exists evs. split; [|left; exact Hm].
      rewrite bind_eq. cbn [ret fst snd].
      rewrite <- (app_nil_r evs). eapply runs_trans; [exact Hrun | apply disconnect_runs].
    + rewrite bind_eq.
      destruct (cleanup_runs tmp w0) as (ce & Hce & Hcc).
      set (w1 := snd (cleanup_cgroups respond tmp w0)) in *.
      destruct (IH (index + 1) d base baselen off w1) as (evs' & Hrun' & Hm').
      assert (Hreg : registry w1 = registry w).
      { transitivity (registry w0); eapply runs_registry; eauto. }
      assert (Hok : forallb create_ok (evs ++ ce) = true).
      { rewrite forallb_app, Hm. apply create_ok_no_create.
        rewrite Hcc. apply no_create_rem. }
      exists ((evs ++ ce) ++ evs'). split.
      { eapply runs_trans; [eapply runs_trans; eauto | exact Hrun']. }
      destruct Hm' as [Hm' | [Hf Hm']].
      * left. rewrite forallb_app, Hok, Hm'. reflexivity.
      * right. split; [exact Hf|].
        destruct Hm' as (pre & c & p & r & post & i & -> & Hpre & Hr & Hi & (pre0 & Hc) & Hp).
        rewrite Hreg in *.
        exists ((evs ++ ce) ++ pre), c, p, r, post, i.
        repeat split; auto.
        -- rewrite <- !app_assoc. reflexivity.
        -- rewrite forallb_app, Hok, Hpre. reflexivity.
        -- exists (calls_of (evs ++ ce) ++ pre0).
           rewrite calls_of_app, Hc, <- app_assoc. reflexivity.
    + exists evs. split; [rewrite <- (app_nil_r evs); eapply runs_trans;
                          [exact Hrun | apply create_bad_runs]|].
      right. split; [reflexivity|].
      destruct Hm as (pre & c & r & post & i & -> & Hpre & Hr & Hi & Hc & Hp).
      exists pre, c, tmp, r, post, i. repeat split; auto.
      exists []. exact Hc.
Qed.

Lemma first_failure_unique (P : event -> bool) pre x post pre' x' post' :
  pre ++ x :: post = pre' ++ x' :: post' ->
  forallb P pre = true -> forallb P post = true -> P x' = false ->
  pre' = pre /\ x' = x /\ post' = post.
Proof.
  revert pre'. induction pre as [|a pre IH]; intros [|a' pre'] Heq Hpre Hpost Hx'; cbn in *.
  - inversion Heq; auto.
  - inversion Heq; subst. rewrite forallb_app in Hpost. cbn in Hpost.
    rewrite Hx' in Hpost. rewrite andb_false_r in Hpost. discriminate.
  - inversion Heq; subst. rewrite Hx' in Hpre. discriminate.
  - inversion Heq; subst. apply andb_prop in Hpre as [_ Hpre].
    destruct (IH pre' H1 Hpre Hpost Hx') as (-> & -> & ->). auto.
Qed.

(** Claim C2.  When a create RPC of cgm_create fails hard, for the
    subsystem at any index i of the registry, the creates of subsystems
    0..i-1 for the same path precede it in the log, cgm_create returns
    false, and the calls that follow the failed create are the recursive
    removes of that path, one for each registered subsystem. *)
Theorem cgm_create_rollback hdata w pre c p r post :
  trace (snd (cgm_create respond hdata w)) =
    trace w ++ pre ++ EvCall (cgmanager_create_sync c p) r :: post ->
  rc r <> 0 ->
  fst (fst (cgm_create respond hdata w)) = false /\
  (exists i : nat,
      registry w !! i = Some c /\
      exists pre0, calls_of pre =
                   pre0 ++ map (fun s => cgmanager_create_sync s p) (take i (registry w))) /\
  calls_of post =
    map (fun s => cgmanager_remove_sync s p CG_REMOVE_RECURSIVE) (registry w).
Proof.
  intros Htr Hrc.
  assert (Hgen : exists evs,
             runs respond w (snd (cgm_create respond hdata w)) evs /\
             (forallb create_ok evs = true \/
              (fst (fst (cgm_create respond hdata w)) = false /\
               rolled_back (registry w) evs))).
  { unfold cgm_create. destruct hdata as [d|].
    - destruct (lxc_string_replace _ _ _) as [tmp|].
      + destruct (CStr.strlen tmp >=? MAXPATHLEN).
        * exists []. split; [apply create_bad_runs | left; reflexivity].
        * apply again_spec.
      + exists []. split; [apply create_bad_runs | left; reflexivity].
    - exists []. split; [apply runs_nil; reflexivity | left; reflexivity]. }
  destruct Hgen as (evs & [(Ht & _) _] & Hcase).
  rewrite Ht in Htr. apply app_inv_head in Htr. subst evs.
  destruct Hcase as [Hall | [Hf Hrb]].
  - rewrite forallb_app in Hall. cbn in Hall.
    apply Z.eqb_neq in Hrc. rewrite Hrc in Hall.
    rewrite andb_false_r in Hall. discriminate.
  - split; [exact Hf|].
    destruct Hrb as (pre' & c' & p' & r' & post' & i & Heq & Hpre & Hr & Hi & Hc & Hp).
    symmetry in Heq.
    apply first_failure_unique with (P := create_ok) in Heq; auto.
    + destruct Heq as (-> & Hx & ->). inversion Hx; subst. split; eauto.
    + apply create_ok_no_create. rewrite Hp. apply no_create_rem.
    + cbn. apply Z.eqb_neq. exact Hrc.
Qed.


Lemma replies_of_no_calls evs : calls_of evs = [] -> replies_of evs = [].
Proof.
  induction evs as [|[c r|l m] evs IH]; cbn; auto. discriminate.
Qed.

Lemma enter_runs pid s p abs w :
  let r := fst (respond (env w) (mv abs pid p s)) in
  fst (lxc_cgmanager_enter respond pid s p abs w) = (rc r =? 0) /\
  exists logs, runs respond w (snd (lxc_cgmanager_enter respond pid s p abs w))
                 (EvCall (mv abs pid p s) r :: logs) /\ calls_of logs = [].
Proof.
  unfold lxc_cgmanager_enter. rewrite bind_eq.
  fold (mv abs pid p s).
  pose proof (do_call_runs (mv abs pid p s) w) as H0.
  rewrite do_call_reply in *.
  set (r := fst (respond (env w) (mv abs pid p s))) in *.
  set (w0 := snd (do_call respond _ w)) in *. cbn zeta.
  destruct (rc r =? 0); cbn [negb].
  - split; [reflexivity|]. exists []. split; [exact H0|reflexivity].
  - rewrite bind_eq. split; [reflexivity|].
    exists [EvLog ERROR "call to cgmanager_move_pid_sync failed"].
    split; [|reflexivity].
    change (EvCall ?c r :: ?l) with ([EvCall c r] ++ l).
    eapply runs_trans; [exact H0 | apply log_runs].
Qed.

Lemma enter_for_spec pid p abs l : forall w,
  exists evs,
    runs respond w (snd (do_cgm_enter_for respond l pid p abs w)) evs /\
    ((fst (do_cgm_enter_for respond l pid p abs w) = true /\
      calls_of evs = map (mv abs pid p) l /\
      Forall (fun r => rc r = 0) (replies_of evs)) \/
     (fst (do_cgm_enter_for respond l pid p abs w) = false /\
      exists (i : nat) s rs r,
        l !! i = Some s /\
        calls_of evs = map (mv abs pid p) (take (S i) l) /\
        replies_of evs = rs ++ [r] /\
        Forall (fun r => rc r = 0) rs /\ rc r <> 0)).
Proof.
  induction l as [|s l IH]; intros w; cbn [do_cgm_enter_for].
  - exists []. split; [apply runs_nil; reflexivity|]. left. repeat split. constructor.
  - rewrite bind_eq.
    destruct (enter_runs pid s p abs w) as (Hres & logs & Hrun & Hlogs).
    cbn zeta in *.
    set (r := fst (respond (env w) (mv abs pid p s))) in *.
    set (w0 := snd (lxc_cgmanager_enter respond pid s p abs w)) in *.
    rewrite Hres.
    destruct (rc r =? 0) eqn:Hrc; cbn [negb].
    + destruct (IH w0) as (evs & Hrun' & Hcase).
      exists ((EvCall (mv abs pid p s) r :: logs) ++ evs).
      split; [eapply runs_trans; eauto|].
      apply Z.eqb_eq in Hrc.
      destruct Hcase as [(Hf & Hc & Hr) | (Hf & i & s' & rs & r' & Hi & Hc & Hr & Hrs & Hr')].
      * left. split; [exact Hf|]. split.
        -- rewrite calls_of_app. cbn. rewrite Hlogs, Hc. reflexivity.
        -- rewrite replies_of_app. cbn. rewrite (replies_of_no_calls _ Hlogs).
           constructor; auto.
      * right. split; [exact Hf|]. exists (S i), s', (r :: rs), r'.
        repeat split; auto.
        -- rewrite calls_of_app. cbn. rewrite Hlogs, Hc. reflexivity.
        -- rewrite replies_of_app. cbn. rewrite (replies_of_no_calls _ Hlogs), Hr.
           reflexivity.
    + exists (EvCall (mv abs pid p s) r :: logs). split; [exact Hrun|].
      right. split; [reflexivity|]. exists 0%nat, s, [], r.
      repeat split; auto.
      * cbn. rewrite Hlogs. rewrite take_0. reflexivity.
      * cbn. rewrite (replies_of_no_calls _ Hlogs). reflexivity.
      * apply Z.eqb_neq. exact Hrc.
Qed.

(** Claim C7.  do_cgm_enter moves the pid into the subsystems in registry order
    and stops at the first move that fails, returning false; the
    environment has then received the moves for subsystems 0..i and no
    other call, so nothing undoes the moves that succeeded. *)
Theorem do_cgm_enter_first_failure pid path abs w :
  exists evs,
    trace (snd (do_cgm_enter respond pid path abs w)) = trace w ++ evs /\
    env (snd (do_cgm_enter respond pid path abs w)) =
      env_after respond (env w) (calls_of evs) /\
    ((fst (do_cgm_enter respond pid path abs w) = true /\
      calls_of evs = map (mv abs pid path) (registry w) /\
      Forall (fun r => rc r = 0) (replies_of evs)) \/
     (fst (do_cgm_enter respond pid path abs w) = false /\
      exists (i : nat) s rs r,
        registry w !! i = Some s /\
        calls_of evs = map (mv abs pid path) (take (S i) (registry w)) /\
        replies_of evs = rs ++ [r] /\
        Forall (fun r => rc r = 0) rs /\ rc r <> 0)).
Proof.
  unfold do_cgm_enter. rewrite bind_eq. cbn [get fst snd].
  destruct (enter_for_spec pid path abs (registry w) w) as (evs & [(Ht & _) He] & Hcase).
  exists evs. auto.
Qed.


Ltac unfold_m :=
  unfold bind, get, log, emit, do_call, ret,
    set_dbus_threads_initialized, set_cgroup_manager, set_api_version,
    cgm_dbus_disconnect, set_subsystems in *.

Ltac run_call :=
  match goal with
  | |- context [respond ?e ?c] =>
      let r := fresh "r" in
      let e' := fresh "e" in
      let Hr := fresh "Hr" in
      destruct (respond e c) as [r e'] eqn:Hr; cbn [fst snd env trace]
  end.

Ltac close_shape :=
  eexists; rewrite <- ?app_assoc; split; [reflexivity|]; cbn;
  repeat match goal with
         | H : respond _ _ = _ |- _ => rewrite H; clear H; cbn [fst snd]
         end; auto.

(** Connecting talks to the daemon but names no cgroup. *)
Lemma connect_shape w :
  exists evs,
    trace (snd (cgm_dbus_connect respond w)) = trace w ++ evs /\
    existsb is_cgroup_rpc (calls_of evs) = false /\
    env (snd (cgm_dbus_connect respond w)) =
      env_after respond (env w) (calls_of evs).
Proof.
  unfold cgm_dbus_connect, cull_user_controllers, env_after. unfold_m.
  destruct (dbus_threads_initialized w); cbn [env trace fst snd].
  all: run_call; destruct (rc _ =? 0); cbn [env trace fst snd]; [ close_shape | ].
  all: run_call; destruct (rc _ =? 0); cbn [env trace fst snd]; [ close_shape | ].
  all: run_call; destruct (rc _ =? 0); cbn [negb env trace fst snd]; [ | close_shape ].
  all: destruct (out _ <? CGM_SUPPORTS_NAMED); cbn [env trace fst snd].
  all: try destruct (cull_user_controllers_on _ _); cbn [env trace fst snd].
  all: close_shape.
Qed.

(** Claim C10.  On a handle whose path was never set, enter returns false and
    names no cgroup to the daemon, get_cgroup returns NULL, nrtasks
    returns -1, unfreeze returns false and destroy returns, the last three
    without any call at all. *)
Theorem null_path_sentinels n pat pid sub w :
  let d := Some (CgmData n None pat) in
  fst (cgm_enter respond d pid w) = false /\
  (exists evs,
      trace (snd (cgm_enter respond d pid w)) = trace w ++ evs /\
      existsb is_cgroup_rpc (calls_of evs) = false) /\
  cgm_get_cgroup d sub = None /\
  cgm_get_nrtasks respond d w = (-1, w) /\
  cgm_unfreeze respond d w = (false, w) /\
  cgm_destroy respond d w = (tt, w).
Proof.
  cbn zeta. repeat split.
  - unfold cgm_enter. rewrite bind_eq.
    destruct (fst (cgm_dbus_connect respond w)); cbn [negb cgroup_path];
      rewrite bind_eq; reflexivity.
  - destruct (connect_shape w) as (evs & Ht & Hc & _).
    unfold cgm_enter. rewrite bind_eq.
    destruct (fst (cgm_dbus_connect respond w)); cbn [negb cgroup_path];
      rewrite bind_eq; cbn [ret log emit cgm_dbus_disconnect set_cgroup_manager trace fst snd].
    + exists evs. auto.
    + exists (evs ++ [EvLog ERROR "Error connecting to cgroup manager"]).
      rewrite Ht, <- app_assoc. split; [reflexivity|].
      rewrite calls_of_app. cbn. rewrite app_nil_r. exact Hc.
Qed.

End Facts.

(** ** The ownership transfer, for any environment *)

Section Handshake.
Context {E : Type} (respond : E -> call -> reply * E).
Implicit Types (w : world E) (evs : list event).

Lemma emits_ret {A} (a : A) (P : A -> list event -> Prop) :
  P a [] -> emits (ret (E:=E) a) P.
Proof. intros H w. exists []. rewrite app_nil_r. auto. Qed.

Lemma emits_bind {A B} (m : M E A) (k : A -> M E B) (P : B -> list event -> Prop) :
  emits m (fun a evs1 => emits (k a) (fun b evs2 => P b (evs1 ++ evs2))) ->
  emits (bind m k) P.
Proof.
  intros H w. rewrite bind_eq.
  destruct (H w) as (evs1 & Ht1 & Hk).
  destruct (Hk (snd (m w))) as (evs2 & Ht2 & HP).
  exists (evs1 ++ evs2). rewrite Ht2, Ht1, app_assoc. auto.
Qed.

Lemma emits_call c (P : reply -> list event -> Prop) :
  (forall r, P r [EvCall c r]) -> emits (do_call respond c) P.
Proof.
  intros H w. unfold do_call. destruct (respond (env w) c) as [r e].
  exists [EvCall c r]. cbn. auto.
Qed.

Lemma emits_log lvl msg (P : unit -> list event -> Prop) :
  P tt [EvLog lvl msg] -> emits (log E lvl msg) P.
Proof. intros H w. exists [EvLog lvl msg]. cbn. auto. Qed.

Lemma emits_weaken {A} (m : M E A) (Q P : A -> list event -> Prop) :
  emits m Q -> (forall a evs, Q a evs -> P a evs) -> emits m P.
Proof. intros H HQ w. destruct (H w) as (evs & Ht & Hq). eauto. Qed.

Lemma emits_if {A} (b : bool) (m1 m2 : M E A) P :
  (b = true -> emits m1 P) -> (b = false -> emits m2 P) ->
  emits (if b then m1 else m2) P.
Proof. destruct b; auto. Qed.

(** One step of symbolic execution. *)
Ltac exec :=
  lazymatch goal with
  | |- emits (bind _ _) _ => apply emits_bind
  | |- emits (do_call _ _) _ => apply emits_call; intros ?
  | |- emits (log _ _ _) _ => apply emits_log
  | |- emits (ret _) _ => apply emits_ret
  | |- emits (if _ then _ else _) _ =>
      apply emits_if;
      (let H := fresh "Hif" in
       intros H; try (exfalso; clear - H; cbn in H; discriminate H))
  | |- emits (match ?x with inl _ => _ | inr _ => _ end) _ => destruct x
  end.

Lemma rev_last2 {A} (l rest : list A) a b :
  rev l = a :: b :: rest -> l = rev rest ++ [b; a].
Proof.
  intros H. rewrite <- (rev_involutive l), H. cbn. rewrite <- app_assoc. reflexivity.
Qed.

Lemma handshake_log_of o ns sp tl rest r0 r1 sv0 sv1 :
  rev tl = EvCall (sys_close sv1) r1 :: EvCall (sys_close sv0) r0 :: rest ->
  sv0 = (if rc sp <? 0 then -1 else out sp) ->
  sv1 = (if rc sp <? 0 then -1 else out2 sp) ->
  handshake_log o (EvCall (get_ns_uid o) ns :: EvCall sys_socketpair sp :: tl).
Proof.
  intros Hrev -> ->. apply rev_last2 in Hrev. subst tl.
  exists ns, sp, (rev rest), r0, r1. reflexivity.
Qed.

Ltac use_sign :=
  match goal with
  | H : (rc ?r <? 0) = _ |- context [rc ?r <? 0] => rewrite H; reflexivity
  end.

(** A log that is not that of a successful handshake: it differs in shape,
    or its last read did not deliver the status byte 1. *)
Ltac not_success :=
  let H := fresh "H" in
  let Hrc := fresh "Hrc" in
  let Hout := fresh "Hout" in
  intros H; unfold reports_success in H;
  repeat match type of H with
         | exists _, _ => let x := fresh "x" in destruct H as [x H]
         end;
  destruct H as (H & Hrc & Hout);
  first [ discriminate H
        | injection H as H; subst;
          repeat match goal with
                 | Hi : _ :: _ = _ :: _ |- _ => injection Hi as Hi; subst
                 end;
          match goal with
          | Hf : (rc ?r =? 1) && _ = false |- _ =>
              rewrite Hrc in Hf; cbn in Hf; rewrite Hout in Hf; discriminate Hf
          end ].

Lemma do_chown_cgroup_spec controller path origuid :
  emits (do_chown_cgroup respond controller path origuid) (fun x evs =>
    handshake_log origuid evs /\
    existsb is_chmod (calls_of evs) = false /\
    (existsb stage_failed evs = true -> x = -1) /\
    (x = 0 /\ existsb status_read evs = true /\
       reports_success controller path origuid evs \/
     x = -1 /\ ~ reports_success controller path origuid evs)).
Proof.
  unfold do_chown_cgroup, do_chown_cgroup_out, select_then_read, send_creds.
  repeat exec.
  all: cbn [app].
  all: try match goal with H : (-1 =? 1) && _ = true |- _ => discriminate H end.
  all: split; [eapply handshake_log_of; [cbn; reflexivity | use_sign | use_sign] |].
  all: split; [reflexivity |].
  all: try (split; [intros _; reflexivity |
                    right; split; [reflexivity | not_success]]).
  all: try match goal with H : negb (-1 =? 0) = false |- _ => discriminate H end.
  match goal with
  | H : (rc ?r =? 1) && _ = true |- _ =>
      apply andb_prop in H as [Hrc Hbyte];
      assert (Hpos : (0 <? rc r) = true)
        by (apply Z.eqb_eq in Hrc; rewrite Hrc; reflexivity);
      rewrite Hpos in Hbyte
  end.
  split.
  - cbn [existsb stage_failed orb].
    repeat match goal with
           | H : (rc _ <? 0) = false |- _ => rewrite H; clear H
           | H : negb (rc _ =? 1) = false |- _ => rewrite H; clear H
           end.
    rewrite Hrc. cbn. discriminate.
  - left. split; [reflexivity|]. split.
    + cbn [existsb status_read orb]. rewrite Hrc, Hbyte. cbn.
      rewrite !orb_true_r. reflexivity.
    + unfold reports_success. do 19 eexists.
      split; [reflexivity|].
      split; apply Z.eqb_eq; assumption.
Qed.

Lemma transfer_log_nil c p b : transfer_log c p b [].
Proof.
  exists [], []. split; [reflexivity|]. split; [reflexivity|].
  split; [reflexivity|]. split; [exists 0%nat; reflexivity|]. split.
  - intros Hne. contradiction.
  - intros Hsf. discriminate.
Qed.

Lemma transfer_log_cons c p b e evs :
  neutral e = true -> transfer_log c p b evs -> transfer_log c p b (e :: evs).
Proof.
  intros Hn (pre & post & -> & Hc & Hs & Hk & Hok & Hfail).
  assert (Hst : stage_failed e = false) by (destruct e as [[] ?|]; auto; discriminate).
  assert (Hch : existsb is_chmod (calls_of [e]) = false)
    by (destruct e as [[] ?|]; auto; discriminate).
  exists (e :: pre), post. split; [reflexivity|]. split.
  { change (e :: pre) with ([e] ++ pre).
    rewrite calls_of_app, existsb_app, Hch, Hc. reflexivity. }
  split; [exact Hs|]. split; [exact Hk|]. split.
  - intros Hne. destruct (Hok Hne) as (H1 & H2 & h & hs & o & -> & Hrep).
    split; [cbn; rewrite H1; apply orb_true_r|].
    split; [cbn; rewrite Hst; exact H2|].
    exists (e :: h), hs, o. split; [reflexivity | exact Hrep].
  - intros Hsf. cbn in Hsf. rewrite Hst in Hsf. exact (Hfail Hsf).
Qed.

Lemma transfer_log_base c p o b x evs post :
  existsb is_chmod (calls_of evs) = false ->
  (existsb stage_failed evs = true -> x = -1) ->
  (x = 0 /\ existsb status_read evs = true /\ reports_success c p o evs \/
   x = -1 /\ ~ reports_success c p o evs) ->
  (x = 0 \/ b = false /\ calls_of post = []) ->
  existsb stage_failed post = false ->
  (exists k : nat, calls_of post = take k (chmods c p)) ->
  transfer_log c p b (evs ++ post).
Proof.
  intros Hc Hf Hres Hx Hs Hk.
  exists evs, post. split; [reflexivity|]. split; [exact Hc|].
  split; [exact Hs|]. split; [exact Hk|]. split.
  - intros Hne. destruct Hx as [-> | [_ Hp]]; [|contradiction].
    destruct Hres as [(_ & Hst & Hrep) | [H0 _]]; [|discriminate H0].
    split; [exact Hst|]. split.
    + destruct (existsb stage_failed evs); auto. discriminate (Hf eq_refl).
    + exists [], evs, o. split; [reflexivity | exact Hrep].
  - intros Hsf. destruct Hx as [-> | ?]; auto. discriminate (Hf Hsf).
Qed.

Ltac exec_chown :=
  lazymatch goal with
  | |- emits (do_chown_cgroup _ _ _ _) _ =>
      eapply emits_weaken;
      [apply do_chown_cgroup_spec | intros ? ? (_ & ? & ? & ?)]
  | _ => exec
  end.

Lemma chown_cgroup_spec controller path conf :
  emits (chown_cgroup respond controller path conf) (transfer_log controller path).
Proof.
  unfold chown_cgroup, userns_exec_1, chown_cgroup_wrapper, lxc_cgmanager_chmod.
  destruct (id_map conf); [apply emits_ret, transfer_log_nil|].
  repeat exec_chown.
  all: cbn [app].
  all: repeat (apply transfer_log_cons; [reflexivity|]).
  all: try apply transfer_log_nil.
  all: rewrite app_nil_r; eapply transfer_log_base; eauto.
  all: try reflexivity.
  all: try (first [ exists 0%nat; reflexivity | exists 1%nat; reflexivity
                  | exists 2%nat; reflexivity | exists 3%nat; reflexivity ]).
  all: match goal with
       | H : (?a =? 0) = true |- ?a = 0 \/ _ => left; apply Z.eqb_eq; exact H
       | |- _ => right; split; reflexivity
       end.
Qed.

Lemma emits_for_each l (body : string -> M E unit)
    (Q : string -> list event -> Prop) :
  (forall s, emits (body s) (fun _ evs => Q s evs)) ->
  emits (for_each l body)
        (fun _ evs => exists chunks, evs = concat chunks /\ Forall2 Q l chunks).
Proof.
  intros H. induction l as [|s l IH]; cbn [for_each].
  - apply emits_ret. exists []. split; [reflexivity | constructor].
  - apply emits_bind. eapply emits_weaken; [apply H|].
    intros u evs1 HQ. cbn beta in *.
    eapply emits_weaken; [apply IH|].
    intros u' evs2 (chunks & -> & HF).
    exists (evs1 :: chunks). split; [reflexivity | constructor; assumption].
Qed.

Lemma chown_round_emits s path conf :
  emits (bind (chown_cgroup respond s path conf)
              (fun r => if negb r
                        then log E WARN "Failed to chown to container root"
                        else ret tt))
        (fun _ evs => chown_round path s evs).
Proof.
  apply emits_bind. eapply emits_weaken; [apply chown_cgroup_spec|].
  intros b tl Hlog. cbn beta. destruct b; cbn [negb].
  - apply emits_ret. exists true, tl. split; [exact Hlog | reflexivity].
  - apply emits_log. exists false, tl. split; [exact Hlog | reflexivity].
Qed.

(** Claim C9.  With a handle that has a path and a connection that opens,
    cgm_chown returns true whatever the per-subsystem transfers do: it runs
    chown_cgroup for every registered subsystem in turn, and a transfer
    that fails only adds a warning to the log. *)
Theorem cgm_chown_ignores_failures d path conf w :
  cgroup_path d = Some path ->
  fst (cgm_dbus_connect respond w) = true ->
  fst (cgm_chown respond (Some d) conf w) = true /\
  exists chunks,
    trace (snd (cgm_chown respond (Some d) conf w)) =
      trace (snd (cgm_dbus_connect respond w)) ++ concat chunks /\
    Forall2 (chown_round path) (registry (snd (cgm_dbus_connect respond w))) chunks.
Proof.
  intros Hp Hc. unfold cgm_chown. rewrite Hp, bind_eq, Hc. cbn [negb].
  rewrite !bind_eq. cbn [get fst snd]. split; [reflexivity|].
  set (wc := snd (cgm_dbus_connect respond w)).
  destruct (emits_for_each (registry wc) _ (chown_round path)
              (fun s => chown_round_emits s path conf) wc)
    as (evs & Ht & chunks & -> & HF).
  exists chunks. split; [exact Ht | exact HF].
Qed.

(** Claim C5.  A select that fails or a read that does not deliver its
    byte, at any of the three stages, makes do_chown_cgroup return -1 after
    it has closed both ends of the socket pair, and chown_cgroup then
    returns false without a chmod call.  do_chown_cgroup returns 0 exactly
    when it has made every call of the handshake and the read of the third
    stage, the last call before the two closes, delivered the status byte
    1; otherwise it returns -1.  The chmod calls, on the path itself, tasks
    and cgroup.procs with mode 0775 and in this order, come only directly
    after such a handshake, no stage of which failed. *)
Theorem chown_handshake_failure controller path conf origuid w :
  (forall hs,
      trace (snd (do_chown_cgroup respond controller path origuid w)) = trace w ++ hs ->
      handshake_log origuid hs /\
      (existsb stage_failed hs = true ->
       fst (do_chown_cgroup respond controller path origuid w) = -1) /\
      (fst (do_chown_cgroup respond controller path origuid w) = 0 \/
       fst (do_chown_cgroup respond controller path origuid w) = -1) /\
      (fst (do_chown_cgroup respond controller path origuid w) = 0 <->
       reports_success controller path origuid hs)) /\
  (forall evs,
      trace (snd (chown_cgroup respond controller path conf w)) = trace w ++ evs ->
      transfer_log controller path (fst (chown_cgroup respond controller path conf w)) evs /\
      (existsb stage_failed evs = true ->
       fst (chown_cgroup respond controller path conf w) = false /\
       existsb is_chmod (calls_of evs) = false) /\
      (existsb is_chmod (calls_of evs) = true ->
       exists h hs post o,
         evs = (h ++ hs) ++ post /\
         reports_success controller path o hs /\
         existsb is_chmod (calls_of (h ++ hs)) = false /\
         existsb stage_failed evs = false)).
Proof.
  split.
  - intros hs Hh.
    destruct (do_chown_cgroup_spec controller path origuid w)
      as (evs & Ht & Hlog & _ & Hfail & Hres).
    rewrite Ht in Hh. apply app_inv_head in Hh. subst hs.
    split; [exact Hlog|]. split; [exact Hfail|].
    destruct Hres as [(H0 & _ & Hrep) | (H1 & Hrep)].
    + split; [left; exact H0|]. split; auto.
    + split; [right; exact H1|]. split; [|intros H; contradiction].
      rewrite H1. intros H; discriminate H.
  - intros evs' Hh.
    destruct (chown_cgroup_spec controller path conf w) as (evs & Ht & Hlog).
    rewrite Ht in Hh. apply app_inv_head in Hh. subst evs'.
    split; [exact Hlog|].
    destruct Hlog as (pre & post & -> & Hc & Hs & Hk & Hok & Hfail).
    split.
    + intros Hsf. rewrite existsb_app, Hs, orb_false_r in Hsf.
      destruct (Hfail Hsf) as [Hb Hp]. split; [exact Hb|].
      rewrite calls_of_app, existsb_app, Hc, Hp. reflexivity.
    + intros Hch. rewrite calls_of_app, existsb_app, Hc in Hch. cbn [orb] in Hch.
      assert (Hne : calls_of post <> []).
      { intros Hnil. rewrite Hnil in Hch. discriminate Hch. }
      destruct (Hok Hne) as (_ & Hst & h & hs & o & Hpre & Hrep).
      exists h, hs, post, o. rewrite <- Hpre.
      split; [reflexivity|]. split; [exact Hrep|]. split; [exact Hc|].
      rewrite existsb_app, Hst, Hs. reflexivity.
Qed.

End Handshake.

(** ** Destroy, for any environment *)

Section Destroy.
Context {E : Type} (respond : E -> call -> reply * E).
Implicit Types (w : world E).

Lemma destroy_eq d path w :
  cgroup_path d = Some path ->
  cgm_destroy respond (Some d) w =
  let wc := snd (cgm_dbus_connect respond w) in
  if fst (cgm_dbus_connect respond w) then
    (tt, snd (cgm_dbus_disconnect
                (snd (for_each (registry wc)
                        (fun s => cgm_remove_cgroup respond s path) wc))))
  else (tt, snd (log E ERROR "Error connecting to cgroup manager" wc)).
Proof.
  intros Hp. unfold cgm_destroy. rewrite Hp, bind_eq. cbn zeta.
  destruct (fst (cgm_dbus_connect respond w)); cbn [negb].
  - rewrite !bind_eq. reflexivity.
  - reflexivity.
Qed.

Lemma destroy_spec d path w :
  cgroup_path d = Some path ->
  fst (cgm_dbus_connect respond w) = true ->
  exists evs,
    runs respond (snd (cgm_dbus_connect respond w))
         (snd (cgm_destroy respond (Some d) w)) evs /\
    calls_of evs = map (rem path) (registry (snd (cgm_dbus_connect respond w))).
Proof.
  intros Hp Hc. rewrite (destroy_eq d path w Hp), Hc. cbn zeta. cbn [snd].
  destruct (for_each_remove_runs respond path
              (registry (snd (cgm_dbus_connect respond w)))
              (snd (cgm_dbus_connect respond w))) as (evs & Hrun & Hcalls).
  exists evs. split; [|exact Hcalls].
  rewrite <- (app_nil_r evs). eapply runs_trans; [exact Hrun | apply disconnect_runs].
Qed.

End Destroy.

(** ** Strings *)

Module StrFacts.

Lemma append_cons a s t : String a s +:+ t = String a (s +:+ t).
Proof. reflexivity. Qed.

Lemma append_nil_l t : "" +:+ t = t.
Proof. reflexivity. Qed.

Lemma append_nil_r s : s +:+ "" = s.
Proof.
  induction s as [|a s IH]; [reflexivity|]. rewrite append_cons, IH. reflexivity.
Qed.

Lemma append_assoc a b c : (a +:+ b) +:+ c = a +:+ (b +:+ c).
Proof.
  induction a as [|x a IH]; [reflexivity|]. rewrite !append_cons, IH. reflexivity.
Qed.

End StrFacts.

(** ** cgm_get *)

Module GetFacts.
Import Get.

Lemma int_small z : -2147483648 <= z < 2147483648 -> int z = z.
Proof.
  intros H. unfold int.
  rewrite Z.mod_small by lia. lia.
Qed.

Lemma size_t_small z : 0 <= z < 18446744073709551616 -> size_t z = z.
Proof. intros H. unfold size_t. apply Z.mod_small. exact H. Qed.

Lemma readlen_min newlen len :
  0 < newlen < 2147483648 -> 0 < len < 18446744073709551616 ->
  readlen_of newlen len = Z.min newlen len.
Proof.
  intros Hn Hl. unfold readlen_of. rewrite size_t_small by lia.
  destruct (newlen >? len) eqn:Hc.
  - apply Z.gtb_lt in Hc. rewrite int_small by lia. lia.
  - rewrite Z.gtb_ltb in Hc. apply Z.ltb_ge in Hc. rewrite int_small by lia. lia.
Qed.

(** The parent on a header read whole or not, a negative length, a value
    that fits, one that does not, and one read short. *)
Lemma cgm_get_cases io (buf : list byte) len r v rest :
  0 <= pipe_rc io -> 0 < fork_rc io ->
  0 < len < 18446744073709551616 ->
  length buf = Z.to_nat len ->
  -2147483648 <= hdr io < 2147483648 ->
  cgm_get io (Some buf) len = Some (r, v, rest) ->
  (exists k : nat,
      Z.of_nat k <= Z.max 0 (Z.min (hdr io) len) /\ rest = drop k <$> body io) /\
  (forall bs, hdr_rc io = 4 -> body io = Some bs ->
              len <= hdr io -> len <= Z.of_nat (length bs) ->
              r = len - 1 /\
              v = Some (take (Z.to_nat (len - 1)) bs ++ [x00])) /\
  (forall bs, hdr_rc io = 4 -> body io = Some bs ->
              0 < hdr io -> hdr io + 1 < len -> hdr io + 1 < 2147483648 ->
              hdr io <= Z.of_nat (length bs) ->
              r = hdr io + 1 /\
              v = Some (take (Z.to_nat (hdr io)) bs ++ [x0a] ++
                        replicate (Z.to_nat (len - hdr io - 1)) x00)) /\
  (hdr_rc io <> 4 \/ hdr io < 0 \/
   (0 < hdr io /\
    (body io = None \/
     exists bs, body io = Some bs /\ Z.of_nat (length bs) < Z.min (hdr io) len)) ->
   r = -1).
Proof.
  intros Hp Hf Hlen Hbuf Hhdr Hget.
  unfold cgm_get in Hget.
  destruct (pipe_rc io <? 0) eqn:E1; [apply Z.ltb_lt in E1; lia|].
  destruct (fork_rc io <? 0) eqn:E2; [apply Z.ltb_lt in E2; lia|].
  destruct (fork_rc io =? 0) eqn:E0; [apply Z.eqb_eq in E0; lia|].
  injection Hget as Hget. unfold cgm_get_parent in Hget.
  assert (Hnone : forall A (o : option (list A)), o = drop 0 <$> o)
    by (intros A [l|]; reflexivity).
  destruct (hdr_rc io =? 4) eqn:E3; cbn [negb] in Hget.
  2:{ inversion Hget; subst. apply Z.eqb_neq in E3.
      split; [exists 0%nat; split; [lia|apply Hnone]|].
      split; [intros; contradiction|].
      split; [intros; contradiction|]. intros _; reflexivity. }
  apply Z.eqb_eq in E3.
  destruct (len =? 0) eqn:E4; [apply Z.eqb_eq in E4; lia|].
  rewrite drop_ge, app_nil_r in Hget by lia.
  destruct (hdr io <? 0) eqn:E5.
  { inversion Hget; subst. apply Z.ltb_lt in E5.
    split; [exists 0%nat; split; [lia|apply Hnone]|].
    split; [intros; lia|].
    split; [intros; lia|]. intros _; reflexivity. }
  apply Z.ltb_ge in E5.
  destruct (hdr io =? 0) eqn:E6.
  { inversion Hget; subst. apply Z.eqb_eq in E6.
    split; [exists 0%nat; split; [lia|apply Hnone]|].
    split; [intros; lia|].
    split; [intros; lia|].
    intros [?|[?|[? _]]]; [contradiction | lia | lia]. }
  apply Z.eqb_neq in E6.
  rewrite readlen_min in Hget by lia.
  unfold read_body in Hget.
  destruct (body io) as [bs|] eqn:Hbody.
  2:{ cbn in Hget. rewrite int_small in Hget by lia.
      destruct (-1 =? Z.min (hdr io) len) eqn:E7; [apply Z.eqb_eq in E7; lia|].
      cbn in Hget. inversion Hget; subst.
      split; [exists 0%nat; split; [lia|reflexivity]|].
      split; [intros; discriminate|].
      split; [intros; discriminate|]. intros _; reflexivity. }
  cbn zeta in Hget.
  set (m := Z.min (hdr io) len) in *.
  set (got := take (Z.to_nat m) bs) in *.
  assert (Hgot : Z.of_nat (length got) <= m).
  { unfold got. rewrite length_take. lia. }
  rewrite int_small in Hget by lia.
  destruct (Z.of_nat (length got) =? m) eqn:E7; cbn [negb] in Hget.
  2:{ inversion Hget; subst. apply Z.eqb_neq in E7.
      assert (Hshort : Z.of_nat (length bs) < m).
      { unfold got in E7. rewrite length_take in E7. lia. }
      split; [exists (length got); split; [lia|reflexivity]|].
      split; [intros bs' _ Hb; inversion Hb; subst bs'; intros; lia|].
      split; [intros bs' _ Hb; inversion Hb; subst bs'; intros; lia|].
      intros _; reflexivity. }
  apply Z.eqb_eq in E7.
  assert (Hfull : m <= Z.of_nat (length bs)).
  { unfold got in E7. rewrite length_take in E7. lia. }
  rewrite size_t_small in Hget by lia.
  destruct (hdr io >=? len) eqn:E8.
  - rewrite Z.geb_leb in E8. apply Z.leb_le in E8.
    rewrite int_small in Hget by lia.
    inversion Hget; subst r v rest.
    split; [exists (length got); split; [lia|reflexivity]|].
    split.
    { intros bs' _ Hb _ _. inversion Hb; subst bs'. split; [reflexivity|]. f_equal.
      assert (Hm : m = len) by lia.
      assert (Hlg : length got = Z.to_nat len) by lia.
      rewrite Hlg, drop_replicate, Nat.sub_diag. cbn [replicate].
      rewrite app_nil_r.
      rewrite insert_take_drop by lia.
      rewrite drop_ge by lia.
      unfold got. rewrite take_take. f_equal. f_equal. lia. }
    split; [intros; lia|].
    intros [?|[?|[_ [?|(bs' & Hb & ?)]]]]; try contradiction; try lia; try discriminate.
    inversion Hb; subst bs'. lia.
  - rewrite Z.geb_leb in E8. apply Z.leb_gt in E8.
    assert (Hm : m = hdr io) by lia.
    split; [exists (length got); split; [lia|
              destruct (size_t (int (hdr io + 1)) <? len);
              inversion Hget; reflexivity]|].
    split; [intros; lia|].
    split.
    { intros bs' _ Hb _ Hlt Hint _. inversion Hb; subst bs'.
      rewrite int_small in Hget by lia. rewrite size_t_small in Hget by lia.
      destruct (hdr io + 1 <? len) eqn:E9; [|apply Z.ltb_ge in E9; lia].
      inversion Hget; subst r v rest. split; [reflexivity|]. f_equal.
      assert (Hlg : length got = Z.to_nat (hdr io)) by lia.
      rewrite drop_replicate, Hlg.
      replace (Z.to_nat len - Z.to_nat (hdr io))%nat
        with (S (S (Z.to_nat (len - hdr io - 1) - 1))) by lia.
      rewrite (insert_app_r_alt got _ (Z.to_nat (hdr io))) by lia.
      rewrite Hlg, Nat.sub_diag. cbn [replicate].
      rewrite insert_app_r_alt by lia.
      rewrite Hlg.
      replace (Z.to_nat (hdr io + 1) - Z.to_nat (hdr io))%nat with 1%nat by lia.
      cbn. unfold got. rewrite Hm.
      replace (Z.to_nat (len - hdr io - 1)) with (S (Z.to_nat (len - hdr io - 1) - 1)) at 2 by lia.
      reflexivity. }
    intros [?|[?|[_ [?|(bs' & Hb & ?)]]]]; try contradiction; try lia; try discriminate.
    inversion Hb; subst bs'. lia.
Qed.

(** The parent on a reported length of 0: the buffer zeroed, nothing taken
    out of the pipe, 0 returned. *)
Lemma cgm_get_empty io (buf : list byte) len r v rest :
  0 <= pipe_rc io -> 0 < fork_rc io ->
  0 < len ->
  length buf = Z.to_nat len ->
  cgm_get io (Some buf) len = Some (r, v, rest) ->
  hdr_rc io = 4 -> hdr io = 0 ->
  r = 0 /\ v = Some (replicate (Z.to_nat len) x00) /\ rest = body io.
Proof.
  intros Hp Hf Hlen Hbuf Hget H4 H0.
  unfold cgm_get in Hget.
  destruct (pipe_rc io <? 0) eqn:E1; [apply Z.ltb_lt in E1; lia|].
  destruct (fork_rc io <? 0) eqn:E2; [apply Z.ltb_lt in E2; lia|].
  destruct (fork_rc io =? 0) eqn:E0; [apply Z.eqb_eq in E0; lia|].
  injection Hget as Hget. unfold cgm_get_parent in Hget.
  rewrite H4, H0 in Hget. cbn in Hget.
  destruct (len =? 0) eqn:E4; [apply Z.eqb_eq in E4; lia|].
  rewrite drop_ge, app_nil_r in Hget by lia.
  inversion Hget; subst. auto.
Qed.

(** Claim C4, as the code has it.  With a destination buffer of len
    bytes, cgm_get takes at most min(reported length, len) bytes out of the
    pipe.  A value of at least len bytes is cut to len-1 bytes and a NUL,
    and len-1 is returned.  A value that is not empty, and whose length
    plus one is below len and still an int, gets one newline and a NUL
    appended, and its length plus one is returned.  A header that is not
    read whole, a negative reported length, and a value read short all
    give -1.  A reported length of 0 gives 0 and the buffer zeroed, with
    no newline, and nothing is taken out of the pipe. *)
Theorem cgm_get_framing io (buf : list byte) len r v rest :
  0 <= pipe_rc io -> 0 < fork_rc io ->
  0 < len < 18446744073709551616 ->
  length buf = Z.to_nat len ->
  -2147483648 <= hdr io < 2147483648 ->
  cgm_get io (Some buf) len = Some (r, v, rest) ->
  (exists k : nat,
      Z.of_nat k <= Z.max 0 (Z.min (hdr io) len) /\ rest = drop k <$> body io) /\
  (forall bs, hdr_rc io = 4 -> body io = Some bs ->
              len <= hdr io -> len <= Z.of_nat (length bs) ->
              r = len - 1 /\
              v = Some (take (Z.to_nat (len - 1)) bs ++ [x00])) /\
  (forall bs, hdr_rc io = 4 -> body io = Some bs ->
              0 < hdr io -> hdr io + 1 < len -> hdr io + 1 < 2147483648 ->
              hdr io <= Z.of_nat (length bs) ->
              r = hdr io + 1 /\
              v = Some (take (Z.to_nat (hdr io)) bs ++ [x0a] ++
                        replicate (Z.to_nat (len - hdr io - 1)) x00)) /\
  (hdr_rc io <> 4 \/ hdr io < 0 \/
   (0 < hdr io /\
    (body io = None \/
     exists bs, body io = Some bs /\ Z.of_nat (length bs) < Z.min (hdr io) len)) ->
   r = -1) /\
  (hdr_rc io = 4 -> hdr io = 0 ->
   r = 0 /\ v = Some (replicate (Z.to_nat len) x00) /\ rest = body io).
Proof.
  intros Hp Hf Hlen Hbuf Hhdr Hget.
  destruct (cgm_get_cases io buf len r v rest Hp Hf Hlen Hbuf Hhdr Hget)
    as (Hmost & Hcut & Hfits & Hfail).
  split; [exact Hmost|]. split; [exact Hcut|]. split; [exact Hfits|].
  split; [exact Hfail|].
  intros H4 H0.
  apply (cgm_get_empty io buf len r v rest Hp Hf); auto; lia.
Qed.
End GetFacts.

(** ** Discovery *)

Module ParseFacts.
Import CStr ProcRecord StrFacts.

Lemma split_on_nonempty c s : split_on c s <> [].
Proof.
  destruct s as [|x s]; cbn; [discriminate|].
  destruct (Ascii.eqb x c); [discriminate|].
  destruct (split_on c s); discriminate.
Qed.

Lemma split_on_chr c s :
  split_on c s =
  before_chr c s :: match after_chr c s with
                    | None => []
                    | Some r => split_on c r
                    end.
Proof.
  induction s as [|x s IH]; cbn; [reflexivity|].
  destruct (Ascii.eqb x c); [reflexivity|].
  rewrite IH. reflexivity.
Qed.

Lemma strtok_split c cur s :
  strtok_all c cur s = List.filter nonempty (onto_head cur (split_on c s)).
Proof.
  revert cur. induction s as [|x s IH]; intros cur; cbn.
  - rewrite append_nil_r. unfold nonempty. destruct (String.eqb cur ""); reflexivity.
  - destruct (Ascii.eqb x c) eqn:Hx.
    + cbn. rewrite append_nil_r. unfold nonempty at 1.
      destruct (String.eqb cur "") eqn:Hc; cbn [negb]; rewrite IH.
      * destruct (split_on c s) eqn:Hs; [destruct (split_on_nonempty _ _ Hs)|].
        reflexivity.
      * destruct (split_on c s) eqn:Hs; [destruct (split_on_nonempty _ _ Hs)|].
        reflexivity.
    + rewrite IH.
      destruct (split_on c s) eqn:Hs; [destruct (split_on_nonempty _ _ Hs)|].
      cbn. rewrite append_assoc, append_cons, append_nil_l. reflexivity.
Qed.

Lemma no_nul_before s : no_nul s -> before_chr NUL s = s.
Proof.
  unfold no_nul. induction s as [|x s IH]; cbn; [reflexivity|].
  destruct (Ascii.eqb x NUL); [discriminate|]. intros H. rewrite IH; auto.
Qed.

(** A line without NUL: the code's tokens are the specification's. *)
Lemma line_tokens_spec line :
  no_nul line -> line_tokens line = controllers_of_line line.
Proof.
  intros Hn. unfold line_tokens, controllers_of_line. cbn zeta.
  rewrite (no_nul_before _ Hn).
  rewrite (split_on_chr ":" line).
  destruct (String.eqb line "") eqn:He.
  { apply String.eqb_eq in He. subst. reflexivity. }
  destruct (after_chr ":" line) as [slist|]; [|reflexivity].
  rewrite (split_on_chr ":" slist).
  destruct (after_chr ":" slist) as [r|]; [|reflexivity].
  rewrite (split_on_chr ":" r).
  rewrite strtok_split.
  destruct (split_on "," (before_chr ":" slist)) eqn:Hs;
    [destruct (split_on_nonempty _ _ Hs)|].
  reflexivity.
Qed.


Lemma after_chr_app c p s :
  after_chr c (p +:+ s) =
  match after_chr c p with
  | Some r => Some (r +:+ s)
  | None => after_chr c s
  end.
Proof.
  induction p as [|x p IH]; [reflexivity|].
  rewrite append_cons. cbn. destruct (Ascii.eqb x c); [reflexivity | exact IH].
Qed.

Lemma before_chr_app c p s :
  before_chr c (p +:+ s) =
  match after_chr c p with
  | Some _ => before_chr c p
  | None => p +:+ before_chr c s
  end.
Proof.
  induction p as [|x p IH]; [reflexivity|].
  rewrite append_cons. cbn. destruct (Ascii.eqb x c); [reflexivity|].
  rewrite IH. destruct (after_chr c p); [reflexivity|].
  rewrite append_cons. reflexivity.
Qed.

Lemma no_nul_cons x s : no_nul (String x s) <-> x <> NUL /\ no_nul s.
Proof.
  unfold no_nul. cbn. destruct (Ascii.eqb_spec x NUL) as [->|Hne].
  - split; [discriminate | intros [H _]; contradiction].
  - split; auto. intros [_ H]; exact H.
Qed.

Lemma no_nul_app a b : no_nul a -> no_nul b -> no_nul (a +:+ b).
Proof.
  unfold no_nul. intros Ha Hb. rewrite after_chr_app, Ha. exact Hb.
Qed.

Lemma controllers_of_line_lf p :
  controllers_of_line (p +:+ String LF "") = controllers_of_line p.
Proof.
  unfold controllers_of_line.
  rewrite (split_on_chr ":" (p +:+ _)), (split_on_chr ":" p).
  rewrite after_chr_app.
  destruct (after_chr ":" p) as [sl|]; [|reflexivity].
  rewrite (split_on_chr ":" (sl +:+ _)), (split_on_chr ":" sl).
  rewrite after_chr_app, before_chr_app.
  destruct (after_chr ":" sl) as [r|]; [|reflexivity].
  destruct (split_on ":" (r +:+ String LF "")) eqn:H1;
    [destruct (split_on_nonempty _ _ H1)|].
  destruct (split_on ":" r) eqn:H2; [destruct (split_on_nonempty _ _ H2)|].
  reflexivity.
Qed.

Lemma onto_head_nil l : l <> [] -> onto_head "" l = l.
Proof. destruct l; [contradiction | reflexivity]. Qed.

(** The lines getline returns carry the controllers of the fields between
    newlines. *)
Lemma getlines_split cur s :
  no_nul cur -> no_nul s ->
  flat_map line_tokens (getlines cur s) =
  flat_map controllers_of_line (onto_head cur (split_on LF s)).
Proof.
  revert cur. induction s as [|x s IH]; intros cur Hc Hs.
  - cbn. rewrite append_nil_r, app_nil_r.
    destruct (String.eqb cur "") eqn:He.
    + apply String.eqb_eq in He. subst. reflexivity.
    + cbn. rewrite app_nil_r. apply line_tokens_spec. exact Hc.
  - apply no_nul_cons in Hs as [Hx Hs]. cbn [getlines split_on].
    destruct (Ascii.eqb x LF) eqn:Hlf.
    + apply Ascii.eqb_eq in Hlf. subst x.
      cbn [flat_map onto_head]. rewrite append_nil_r.
      rewrite IH by (auto; reflexivity).
      rewrite onto_head_nil by apply split_on_nonempty.
      f_equal. rewrite line_tokens_spec.
      * apply controllers_of_line_lf.
      * apply no_nul_app; [exact Hc | reflexivity].
    + destruct (split_on LF s) as [|h t] eqn:Hsp;
        [destruct (split_on_nonempty _ _ Hsp)|].
      rewrite IH.
      * cbn [onto_head]. rewrite append_assoc, append_cons, append_nil_l. reflexivity.
      * apply no_nul_app; [exact Hc|]. apply no_nul_cons. split; [exact Hx | reflexivity].
      * exact Hs.
Qed.

Lemma code_controllers content :
  no_nul content ->
  flat_map line_tokens (getlines "" content) = controllers content.
Proof.
  intros H. rewrite getlines_split by (auto; reflexivity).
  rewrite onto_head_nil by apply split_on_nonempty. reflexivity.
Qed.

End ParseFacts.

Section Discovery.
Context {E : Type}.
Implicit Types (w : world E).

Lemma collect_line_eq line w :
  collect_line line w = for_each (line_tokens line) add_subsystem w.
Proof.
  unfold collect_line, line_tokens. cbn zeta.
  destruct (String.eqb _ ""); [reflexivity|].
  destruct (CStr.after_chr ":" _) as [slist|]; [|reflexivity].
  destruct (CStr.after_chr ":" slist); reflexivity.
Qed.

Lemma for_each_unit l (f : string -> M E unit) w : fst (for_each l f w) = tt.
Proof. destruct (fst (for_each l f w)). reflexivity. Qed.

Lemma for_each_app a b (f : string -> M E unit) w :
  snd (for_each (a ++ b) f w) = snd (for_each b f (snd (for_each a f w))).
Proof.
  revert w. induction a as [|x a IH]; intros w; [reflexivity|].
  cbn [app for_each]. rewrite !bind_eq. apply IH.
Qed.

Lemma for_each_lines lines w :
  snd (for_each lines collect_line w) =
  snd (for_each (flat_map line_tokens lines) add_subsystem w).
Proof.
  revert w. induction lines as [|l lines IH]; intros w; [reflexivity|].
  cbn [for_each flat_map]. rewrite bind_eq, for_each_app, IH, collect_line_eq.
  reflexivity.
Qed.

Lemma add_subsystem_spec p w :
  counted w ->
  let w' := snd (add_subsystem p w) in
  counted w' /\ registry w' = registry w ++ [p] /\
  nr_subsystems w' = S (nr_subsystems w) /\
  subsystems w' <> None /\ trace w' = trace w /\ env w' = env w.
Proof.
  intros Hc. unfold add_subsystem, counted in *. cbn.
  unfold registry in *. cbn.
  set (reg := take (nr_subsystems w) (default [] (subsystems w))) in *.
  assert (Ht : take (S (nr_subsystems w)) (reg ++ [p]) = reg ++ [p]).
  { apply take_ge. rewrite length_app. cbn. lia. }
  rewrite Ht, length_app. cbn.
  split; [lia|]. split; [reflexivity|]. split; [reflexivity|].
  split; [discriminate|]. split; reflexivity.
Qed.

Lemma add_all_spec toks : forall w,
  counted w ->
  let w' := snd (for_each toks add_subsystem w) in
  counted w' /\ registry w' = registry w ++ toks /\
  nr_subsystems w' = (nr_subsystems w + length toks)%nat /\
  (toks <> [] -> subsystems w' <> None) /\
  (toks = [] -> w' = w) /\
  trace w' = trace w /\ env w' = env w.
Proof.
  induction toks as [|p toks IH]; intros w Hc; cbn [for_each].
  - cbn. rewrite app_nil_r.
    split; [exact Hc|]. split; [reflexivity|]. split; [lia|].
    split; [intros H; contradiction|]. split; [reflexivity|]. split; reflexivity.
  - rewrite bind_eq.
    destruct (add_subsystem_spec p w Hc) as (Hc1 & Hr1 & Hn1 & Hs1 & Ht1 & He1).
    cbn zeta in *.
    destruct (IH _ Hc1) as (Hc2 & Hr2 & Hn2 & Hs2 & Hnil & Ht2 & He2).
    cbn zeta in *.
    split; [exact Hc2|].
    split; [rewrite Hr2, Hr1, <- app_assoc; reflexivity|].
    split; [rewrite Hn2, Hn1; cbn; lia|].
    split.
    { intros _. destruct toks as [|q toks]; [rewrite Hnil by reflexivity; exact Hs1|].
      apply Hs2. discriminate. }
    split; [discriminate|].
    split; congruence.
Qed.


Lemma collect_memo self one w :
  subsystems w <> None -> collect_subsytems self one w = (true, w).
Proof.
  intros H. unfold collect_subsytems. rewrite bind_eq. cbn [get fst snd].
  destruct (subsystems w); [reflexivity | contradiction].
Qed.

Lemma collect_eq self one w :
  subsystems w = None ->
  collect_subsytems self one w =
  match (match self with Some f => Some f | None => one end) with
  | None => (false, w)
  | Some f =>
      let w1 := snd (for_each (CStr.getlines "" f) collect_line w) in
      if (nr_subsystems w1 =? 0)%nat
      then (false, snd (log E ERROR "No cgroup subsystems found" w1))
      else (true, w1)
  end.
Proof.
  intros Hs. unfold collect_subsytems. rewrite bind_eq. cbn [get fst snd]. rewrite Hs.
  destruct (match self with Some f => Some f | None => one end) as [content|];
    [|reflexivity].
  rewrite !bind_eq. cbn [get fst snd].
  destruct (nr_subsystems _ =? 0)%nat; [rewrite bind_eq|]; reflexivity.
Qed.

(** Claim C8, as the code has it.  The discovery reads the record of the current
    process or else that of process 1, and registers the names of the
    middle field of every line with at least three colon-separated fields,
    in their order of appearance and with repetitions kept; it fails when
    neither record can be read or no name is found, and once it has
    succeeded every later call returns true and changes nothing. *)
Theorem collect_subsytems_in_order self one w :
  (forall arr, subsystems w = Some arr ->
               collect_subsytems self one w = (true, w)) /\
  (subsystems w = None -> nr_subsystems w = 0%nat ->
   match (match self with Some f => Some f | None => one end) with
   | None => collect_subsytems self one w = (false, w)
   | Some content =>
       no_nul content ->
       registry (snd (collect_subsytems self one w)) = ProcRecord.controllers content /\
       (fst (collect_subsytems self one w) = true <->
        ProcRecord.controllers content <> []) /\
       (fst (collect_subsytems self one w) = true ->
        forall self' one',
          collect_subsytems self' one' (snd (collect_subsytems self one w)) =
          (true, snd (collect_subsytems self one w)))
   end).
Proof.
  split.
  { intros arr H. apply collect_memo. rewrite H. discriminate. }
  intros Hs Hn. rewrite (collect_eq self one w Hs).
  destruct (match self with Some f => Some f | None => one end) as [content|];
    [|reflexivity].
  intros Hnul. cbn zeta.
  set (w1 := snd (for_each (CStr.getlines "" content) collect_line w)).
  assert (Hc : counted w).
  { unfold counted, registry. rewrite Hn. rewrite take_0. reflexivity. }
  destruct (add_all_spec (flat_map line_tokens (CStr.getlines "" content)) w Hc)
    as (_ & Hr & Hnr & Hsome & _ & _ & _).
  cbn zeta in Hr, Hnr, Hsome.
  rewrite <- for_each_lines in Hr, Hnr, Hsome. fold w1 in Hr, Hnr, Hsome.
  rewrite ParseFacts.code_controllers in Hr, Hnr, Hsome by exact Hnul.
  assert (Hreg0 : registry w = []).
  { unfold registry. rewrite Hn. apply take_0. }
  rewrite Hreg0, Hn in *. cbn in Hr, Hnr.
  destruct (ProcRecord.controllers content) as [|t toks] eqn:Ht.
  - cbn in Hnr. rewrite Hnr. cbn.
    split; [exact Hr|]. split; [split; [discriminate | intros H; contradiction]|].
    discriminate.
  - cbn in Hnr. rewrite Hnr. cbn.
    split; [exact Hr|]. split; [split; [discriminate | reflexivity]|].
    intros _ self' one'. apply collect_memo. apply Hsome. discriminate.
Qed.

End Discovery.

(** ** The test double *)

Module CullFacts.

Lemma cull_shift_length n : forall j (subs : list string),
  length (cull_shift n j subs) = length subs.
Proof.
  induction n as [|n IH]; intros j subs; cbn [cull_shift]; [reflexivity|].
  rewrite IH, length_insert. reflexivity.
Qed.

Lemma cull_shift_lookup n : forall j (subs : list string) k,
  (j + n < length subs)%nat ->
  cull_shift n j subs !! k =
  if decide (j <= k < j + n)%nat then subs !! S k else subs !! k.
Proof.
  induction n as [|n IH]; intros j subs k Hlen; cbn [cull_shift].
  - destruct (decide _); [lia | reflexivity].
  - destruct (lookup_lt_is_Some_2 subs (S j)) as [y Hy]; [lia|].
    rewrite Hy. cbn [default].
    rewrite IH by (rewrite length_insert; lia).
    destruct (decide (S j <= k < S j + n)%nat) as [H1|H1].
    + rewrite list_lookup_insert_ne by lia.
      destruct (decide _); [reflexivity | lia].
    + destruct (decide (k = j)) as [->|Hne].
      * rewrite list_lookup_insert_eq by lia.
        destruct (decide _); [symmetry; exact Hy | lia].
      * rewrite list_lookup_insert_ne by lia.
        destruct (decide _); [lia | reflexivity].
Qed.

(** On the counted part, the shift deletes entry [i]. *)
Lemma cull_shift_delete i nr (subs : list string) :
  (i < nr <= length subs)%nat ->
  take (nr - 1) (cull_shift (nr - 1 - i) i subs) = delete i (take nr subs).
Proof.
  intros H. apply list_eq. intros k.
  destruct (decide (k < nr - 1)%nat) as [Hk|Hk].
  - rewrite lookup_take_lt by lia.
    rewrite cull_shift_lookup by lia.
    destruct (decide (k < i)%nat) as [Hki|Hki].
    + rewrite list_lookup_delete_lt by lia.
      rewrite lookup_take_lt by lia.
      destruct (decide _); [lia | reflexivity].
    + rewrite list_lookup_delete_ge by lia.
      rewrite lookup_take_lt by lia.
      destruct (decide _); [reflexivity | lia].
  - rewrite lookup_take_ge by lia.
    symmetry. apply lookup_ge_None_2.
    rewrite length_delete by (apply lookup_lt_is_Some_2; rewrite length_take; lia).
    rewrite length_take. lia.
Qed.

Lemma cull_loop_list fuel : forall i (subs : list string) nr,
  (nr <= length subs)%nat ->
  take (snd (cull_loop fuel i subs nr)) (fst (cull_loop fuel i subs nr)) =
    cull_list fuel i (take nr subs) /\
  (snd (cull_loop fuel i subs nr) <= length (fst (cull_loop fuel i subs nr)))%nat.
Proof.
  induction fuel as [|fuel IH]; intros i subs nr Hlen; cbn [cull_loop cull_list].
  - cbn. auto.
  - rewrite length_take_le by lia.
    destruct (i <? nr)%nat eqn:Hi; [|cbn; auto].
    apply Nat.ltb_lt in Hi.
    rewrite (lookup_take_lt subs nr i) by lia.
    destruct (negb _).
    + apply IH. exact Hlen.
    + rewrite <- cull_shift_delete by lia.
      apply IH. rewrite cull_shift_length. lia.
Qed.

Lemma cull_list_elem fuel : forall i (l : list string) x,
  x ∈ cull_list fuel i l -> x ∈ l.
Proof.
  induction fuel as [|fuel IH]; intros i l x; cbn [cull_list]; [auto|].
  destruct (i <? length l)%nat; [|auto].
  destruct (negb _); [apply IH|].
  intros H. apply IH in H. eapply list_elem_of_delete_inv; eauto.
Qed.

End CullFacts.

Module DoubleFacts.
Import Double.

Implicit Types (S : gset (string * string)) (w : world (gset (string * string))).

Lemma under_refl p : under p p = true.
Proof. unfold under. rewrite String.eqb_refl. reflexivity. Qed.

Lemma elem_after_remove ver S s p x :
  x ∈ snd (respond ver S (rem p s)) <->
  x ∈ S /\ ~ (fst x = s /\ under p (snd x) = true).
Proof.
  cbn. rewrite elem_of_filter.
  destruct (String.eqb_spec (fst x) s) as [->|Hne]; cbn.
  - destruct (under p (snd x)); cbn; split.
    + intros [? _]; discriminate.
    + intros [_ H]. destruct H; auto.
    + intros [_ ?]. split; auto. intros [_ ?]; discriminate.
    + intros [? _]. auto.
  - split.
    + intros [_ ?]. split; auto. intros [? _]; contradiction.
    + intros [? _]. auto.
Qed.

Lemma removes_elem ver p l : forall S x,
  x ∈ env_after (respond ver) S (map (rem p) l) <->
  x ∈ S /\ ~ (fst x ∈ l /\ under p (snd x) = true).
Proof.
  induction l as [|s l IH]; intros S x; cbn [map env_after fold_left].
  - split; [intros H; split; [exact H | intros [H' _]; inversion H'] | intros [H _]; exact H].
  - change (fold_left _ _ ?e) with (env_after (respond ver) e (map (rem p) l)).
    rewrite IH, elem_after_remove. rewrite elem_of_cons. tauto.
Qed.

Lemma removes_noop ver p l S :
  (forall s q, s ∈ l -> under p q = true -> (s, q) ∉ S) ->
  env_after (respond ver) S (map (rem p) l) = S.
Proof.
  intros H. apply set_eq. intros [s q]. rewrite removes_elem. cbn.
  split; [intros [? _]; auto|]. intros Hin. split; [exact Hin|].
  intros [Hs Hu]. exact (H s q Hs Hu Hin).
Qed.

Lemma connect_on_double ver w :
  fst (cgm_dbus_connect (respond ver) w) = true /\
  env (snd (cgm_dbus_connect (respond ver) w)) = env w /\
  (exists evs, trace (snd (cgm_dbus_connect (respond ver) w)) = trace w ++ evs /\
               existsb is_remove (calls_of evs) = false) /\
  (in_bounds w ->
   in_bounds (snd (cgm_dbus_connect (respond ver) w)) /\
   registry (snd (cgm_dbus_connect (respond ver) w)) =
     if ver <? CGM_SUPPORTS_NAMED
     then cull_list (nr_subsystems w) 0 (registry w)
     else registry w).
Proof.
  unfold cgm_dbus_connect, cull_user_controllers, cull_user_controllers_on.
  unfold bind, get, log, emit, do_call, ret,
    set_dbus_threads_initialized, set_cgroup_manager, set_api_version,
    cgm_dbus_disconnect, set_subsystems.
  assert (Hcull : in_bounds w ->
            forall subs nr,
              cull_loop (nr_subsystems w) 0 (default [] (subsystems w)) (nr_subsystems w)
                = (subs, nr) ->
              (nr <= length (default [] (match subsystems w with
                                         | Some _ => Some subs
                                         | None => None
                                         end)))%nat /\
              take nr (default [] (match subsystems w with
                                   | Some _ => Some subs
                                   | None => None
                                   end)) =
                cull_list (nr_subsystems w) 0 (registry w)).
  { unfold in_bounds, registry. intros Hb subs nr Heq.
    destruct (CullFacts.cull_loop_list (nr_subsystems w) 0%nat
                (default [] (subsystems w)) (nr_subsystems w) Hb) as [H1 H2].
    rewrite Heq in H1, H2. cbn [fst snd] in H1, H2.
    destruct (subsystems w) as [arr|]; cbn [default] in *; [auto|].
    assert (nr_subsystems w = 0%nat) as Hz by (cbn in Hb; lia).
    rewrite Hz in *. cbn in Heq. inversion Heq; subst. cbn. auto. }
  destruct (dbus_threads_initialized w); cbn -[cull_loop cull_list CGM_SUPPORTS_NAMED].
  all: destruct (ver <? CGM_SUPPORTS_NAMED);
    [destruct (cull_loop _ _ _ _) as [subs nr] eqn:Heq|];
    cbn -[cull_loop cull_list].
  all: split; [reflexivity|]; split; [reflexivity|]; split;
    [eexists; rewrite <- !app_assoc; split; reflexivity|].
  all: intros Hb; unfold in_bounds, registry; cbn -[cull_loop cull_list].
  all: try (apply Hcull; [assumption | reflexivity]).
  all: split; [exact Hb | reflexivity].
Qed.

Lemma remove_absent ver p s w :
  (forall q, under p q = true -> (s, q) ∉ env w) ->
  exists w', cgm_remove_cgroup (respond ver) s p w = (tt, w') /\
             runs (respond ver) w w' (not_there p s) /\ env w' = env w.
Proof.
  intros H.
  assert (Hhas : has (env w) s p = false).
  { unfold has. apply bool_decide_eq_false. apply H. apply under_refl. }
  assert (Henv : env_after (respond ver) (env w) [rem p s] = env w).
  { apply (removes_noop ver p [s]). intros s' q Hs' Hu.
    apply list_elem_of_singleton in Hs'. subst. auto. }
  unfold cgm_remove_cgroup, bind, do_call, log, emit, ret.
  cbn -[filter]. rewrite Hhas. cbn -[filter].
  eexists. split; [reflexivity|]. split; [|exact Henv].
  split; [|reflexivity].
  split; [cbn; rewrite <- app_assoc; reflexivity|]. repeat split.
Qed.

Lemma removes_absent ver p l : forall w,
  (forall s q, s ∈ l -> under p q = true -> (s, q) ∉ env w) ->
  runs (respond ver) w
       (snd (for_each l (fun s => cgm_remove_cgroup (respond ver) s p) w))
       (flat_map (not_there p) l) /\
  env (snd (for_each l (fun s => cgm_remove_cgroup (respond ver) s p) w)) = env w.
Proof.
  induction l as [|s l IH]; intros w H; cbn [for_each flat_map].
  - split; [apply runs_nil; reflexivity | reflexivity].
  - rewrite bind_eq.
    destruct (remove_absent ver p s w) as (w' & Heq & Hrun & Henv).
    { intros q Hu. apply H; [left | exact Hu]. }
    rewrite Heq. cbn [fst snd].
    destruct (IH w') as [Hrun' Henv'].
    { intros s' q Hs' Hu. rewrite Henv. apply H; [right; exact Hs' | exact Hu]. }
    split; [eapply runs_trans; eauto | congruence].
Qed.

End DoubleFacts.

Module CullMore.

(** Where no two named controllers are neighbours, the loop removes
    every one of them. *)
Lemma cull_list_filter fuel : forall i (l : list string),
  (length l - i <= fuel)%nat ->
  no_adjacent_named (drop i l) = true ->
  cull_list fuel i l =
  take i l ++ List.filter (fun s => negb (is_named s)) (drop i l).
Proof.
  induction fuel as [|fuel IH]; intros i l Hf Hadj; cbn [cull_list].
  - rewrite drop_ge by lia. cbn. rewrite app_nil_r, take_ge by lia. reflexivity.
  - destruct (i <? length l)%nat eqn:Hi.
    2:{ apply Nat.ltb_ge in Hi. rewrite drop_ge by lia. cbn.
        rewrite app_nil_r, take_ge by lia. reflexivity. }
    apply Nat.ltb_lt in Hi.
    destruct (lookup_lt_is_Some_2 l i Hi) as [x Hx].
    rewrite Hx. change (default "" (Some x)) with x.
    change (CStr.strncmp x "name=" 5 =? 0) with (is_named x).
    rewrite (drop_S l x i Hx) in *.
    destruct (is_named x) eqn:Hnx; cbn [negb].
    + (* the entry is deleted; its successor is passed over *)
      rewrite delete_take_drop.
      assert (Hlen : length (take i l) = i) by (rewrite length_take; lia).
      destruct (drop (S i) l) as [|y rest] eqn:Hd.
      * rewrite app_nil_r. cbn. rewrite Hnx. cbn.
        destruct fuel as [|fuel']; cbn [cull_list]; [rewrite app_nil_r; reflexivity|].
        replace (S i <? length (take i l))%nat with false
          by (symmetry; apply Nat.ltb_ge; lia).
        rewrite app_nil_r. reflexivity.
      * cbn [no_adjacent_named] in Hadj. rewrite Hnx in Hadj. cbn in Hadj.
        apply andb_prop in Hadj as [Hy Hadj]. apply negb_true_iff in Hy.
        assert (Hl : length l = (i + S (S (length rest)))%nat).
        { rewrite <- (take_drop (S i) l) at 1. rewrite Hd, length_app, length_take.
          cbn [length]. lia. }
        rewrite IH.
        -- change (take i l ++ y :: rest) with (take i l ++ [y] ++ rest).
           rewrite app_assoc.
           rewrite take_app_length' by (rewrite length_app; cbn; lia).
           rewrite drop_app_length' by (rewrite length_app; cbn; lia).
           cbn [List.filter]. rewrite Hnx, Hy. cbn. rewrite <- app_assoc. reflexivity.
        -- rewrite length_app, Hlen. cbn. lia.
        -- change (take i l ++ y :: rest) with (take i l ++ [y] ++ rest).
           rewrite app_assoc.
           rewrite drop_app_length' by (rewrite length_app; cbn; lia).
           destruct rest; [reflexivity|]. cbn in Hadj.
           apply andb_prop in Hadj as [_ Hadj]. exact Hadj.
    + rewrite IH.
      * rewrite (take_S_r l i x Hx). cbn [List.filter].
        rewrite Hnx. cbn. rewrite <- app_assoc. reflexivity.
      * lia.
      * destruct (drop (S i) l) as [|y rest] eqn:Hd; [reflexivity|].
        cbn [no_adjacent_named] in Hadj. apply andb_prop in Hadj as [_ Hadj].
        exact Hadj.
Qed.

(** On the process state: with the array in bounds and no two named
    controllers side by side, culling leaves the other controllers, in
    order. *)
Lemma cull_removes_named {E} (w : world E) :
  in_bounds w ->
  no_adjacent_named (registry w) = true ->
  registry (snd (cull_user_controllers w)) =
    List.filter (fun s => negb (is_named s)) (registry w).
Proof.
  intros Hb Hadj. unfold cull_user_controllers, cull_user_controllers_on.
  rewrite bind_eq. cbn [get fst snd].
  destruct (CullFacts.cull_loop_list (nr_subsystems w) 0%nat
              (default [] (subsystems w)) (nr_subsystems w) Hb) as [H1 _].
  destruct (cull_loop _ _ _ _) as [subs nr] eqn:Heq. cbn [fst snd] in H1.
  assert (Hlen : length (registry w) = nr_subsystems w).
  { unfold registry. apply length_take_le. exact Hb. }
  assert (Hres : take nr subs = List.filter (fun s => negb (is_named s)) (registry w)).
  { rewrite H1. fold (registry w).
    rewrite cull_list_filter; [reflexivity | lia | exact Hadj]. }
  unfold registry at 1. cbn.
  destruct (subsystems w) as [arr|] eqn:Hs; cbn [default]; [exact Hres|].
  rewrite take_nil. unfold registry. rewrite Hs. cbn. rewrite take_nil. reflexivity.
Qed.

End CullMore.

Lemma in_bounds_extends {E} (w w' : world E) evs :
  extends w w' evs -> in_bounds w -> in_bounds w'.
Proof. intros (_ & Hn & Hs & _). unfold in_bounds. rewrite Hn, Hs. auto. Qed.

(** Claim C6.  cgm_destroy returns nothing that could signal a failure.  Once the
    connection is open it asks every registered subsystem for the recursive
    removal of the stored path, whatever the daemon answers to each remove.
    On the test double a second destroy of the same path finds nothing left
    under the path, is answered "did not exist" by every subsystem, which is
    logged, and leaves the daemon as the first destroy left it.  On a handle
    that is NULL or has no path, as a failed setup leaves it, destroy returns
    at once. *)
Theorem cgm_destroy_best_effort :
  (forall E (respond : E -> call -> reply * E) d path (w : world E),
      cgroup_path d = Some path ->
      fst (cgm_dbus_connect respond w) = true ->
      exists evs,
        trace (snd (cgm_destroy respond (Some d) w)) =
          trace (snd (cgm_dbus_connect respond w)) ++ evs /\
        calls_of evs =
          map (fun s => cgmanager_remove_sync s path CG_REMOVE_RECURSIVE)
              (registry (snd (cgm_dbus_connect respond w))) /\
        env (snd (cgm_destroy respond (Some d) w)) =
          env_after respond (env (snd (cgm_dbus_connect respond w))) (calls_of evs)) /\
  (forall ver d path (w : world (gset (string * string))),
      cgroup_path d = Some path -> in_bounds w ->
      let w1 := snd (cgm_destroy (Double.respond ver) (Some d) w) in
      let w2 := snd (cgm_destroy (Double.respond ver) (Some d) w1) in
      (forall s q, s ∈ registry w1 -> Double.under path q = true -> (s, q) ∉ env w1) /\
      env w2 = env w1 /\
      exists pre,
        trace w2 = trace w1 ++ pre ++ flat_map (not_there path) (registry w2) /\
        existsb is_remove (calls_of pre) = false) /\
  (forall E (respond : E -> call -> reply * E) n pat (w : world E),
      cgm_destroy respond None w = (tt, w) /\
      cgm_destroy respond (Some (CgmData n None pat)) w = (tt, w)).
Proof.
  split; [|split].
  3:{ intros E respond n pat w. split; reflexivity. }
  - intros E respond d path w Hp Hc.
    destruct (destroy_spec respond d path w Hp Hc) as (evs & [(Ht & _) He] & Hcalls).
    exists evs. auto.
  - intros ver d path w Hp Hb. cbn zeta.
    set (R := Double.respond ver).
    (* the first destroy *)
    destruct (DoubleFacts.connect_on_double ver w) as (Hc & Hce & _ & Hcb).
    destruct (Hcb Hb) as [Hb1 _]. clear Hcb.
    destruct (destroy_spec R d path w Hp Hc) as (evs & Hrun & Hcalls).
    set (wc := snd (cgm_dbus_connect R w)) in *.
    set (w1 := snd (cgm_destroy R (Some d) w)) in *.
    assert (Hreg1 : registry w1 = registry wc) by (eapply runs_registry; eauto).
    assert (Hb1' : in_bounds w1) by (eapply in_bounds_extends; [apply Hrun | exact Hb1]).
    assert (Hgone : forall s q, s ∈ registry w1 -> Double.under path q = true ->
                                (s, q) ∉ env w1).
    { intros s q Hs Hu Hin. destruct Hrun as [_ He]. rewrite He, Hcalls in Hin.
      apply DoubleFacts.removes_elem in Hin as [_ Hn]. apply Hn. cbn.
      rewrite <- Hreg1. auto. }
    split; [exact Hgone|].
    (* the second destroy *)
    destruct (DoubleFacts.connect_on_double ver w1) as (Hc2 & Hce2 & (pre & Hpre & Hnr) & Hcb2).
    destruct (Hcb2 Hb1') as [_ Hreg2]. clear Hcb2.
    rewrite (destroy_eq R d path w1 Hp). fold R in Hc2. rewrite Hc2. cbn zeta. cbn [snd].
    fold R in Hce2, Hpre, Hreg2.
    set (wc2 := snd (cgm_dbus_connect R w1)) in *.
    assert (Hsub : forall s, s ∈ registry wc2 -> s ∈ registry w1).
    { intros s Hs. rewrite Hreg2 in Hs. destruct (ver <? CGM_SUPPORTS_NAMED); [|exact Hs].
      eapply CullFacts.cull_list_elem; eauto. }
    destruct (DoubleFacts.removes_absent ver path (registry wc2) wc2) as [[(Ht2 & Hn2 & Hs2 & _) _] He2].
    { intros s q Hs Hu. rewrite Hce2. apply Hgone; auto. }
    fold R in Ht2, Hn2, Hs2, He2.
    set (wr := snd (for_each (registry wc2) _ wc2)) in *.
    split; [cbn; rewrite He2; exact Hce2|].
    exists pre. split; [|exact Hnr].
    cbn [cgm_dbus_disconnect set_cgroup_manager snd trace].
    rewrite Ht2, Hpre, <- app_assoc. f_equal. f_equal. f_equal.
    unfold registry. cbn. rewrite Hn2, Hs2. reflexivity.
Qed.


(** ** Retry on collision *)

Module CandFacts.
Import CStr StrFacts.

Lemma eqb_app_l b x y : String.eqb (b +:+ x) (b +:+ y) = String.eqb x y.
Proof.
  induction b as [|c b IH]; [reflexivity|].
  rewrite !append_cons. cbn. rewrite Ascii.eqb_refl. exact IH.
Qed.

Lemma prefix_app_l b x y : String.prefix (b +:+ x) (b +:+ y) = String.prefix x y.
Proof.
  induction b as [|c b IH]; [reflexivity|].
  rewrite !append_cons. cbn. destruct (ascii_dec c c); [exact IH | contradiction].
Qed.

Lemma skip_app n s t :
  (n <= String.length s)%nat -> skip n (s +:+ t) = skip n s +:+ t.
Proof.
  revert s. induction n as [|n IH]; intros s H.
  - destruct s; reflexivity.
  - destruct s as [|c s]; [cbn in H; lia|].
    rewrite append_cons. cbn. apply IH. cbn in H. lia.
Qed.

Lemma leading_slashes_le s : (leading_slashes s <= String.length s)%nat.
Proof.
  induction s as [|c s IH]; cbn; [lia|].
  destruct c as [[] [] [] [] [] [] [] []]; cbn; lia.
Qed.

Lemma candidate_suffix base index :
  candidate base index = skip (leading_slashes base) base +:+ suffix index.
Proof.
  unfold candidate, suffix. destruct (index =? 0).
  - rewrite append_nil_r. reflexivity.
  - apply skip_app, leading_slashes_le.
Qed.

Lemma suffix_table_ok : suffix_table = true.
Proof. vm_compute. reflexivity. Qed.

Lemma suffix_facts i j :
  0 <= i < 100 -> 0 <= j < 100 ->
  (i <> j -> String.eqb (suffix j) (suffix i) = false /\
             String.prefix (suffix i +:+ "/") (suffix j) = false) /\
  (i <= j -> (String.length (suffix i) <= String.length (suffix j))%nat).
Proof.
  intros Hi Hj.
  pose proof suffix_table_ok as H. unfold suffix_table in H.
  rewrite forallb_forall in H.
  specialize (H (Z.to_nat i)). rewrite forallb_forall in H.
  assert (Hini : In (Z.to_nat i) (seq 0 100)) by (apply in_seq; lia).
  assert (Hinj : In (Z.to_nat j) (seq 0 100)) by (apply in_seq; lia).
  specialize (H Hini (Z.to_nat j) Hinj). cbn zeta in H.
  rewrite !Z2Nat.id in H by lia.
  apply andb_prop in H as [H1 H2]. split.
  - intros Hne. apply orb_prop in H1 as [H1|H1].
    + apply Nat.eqb_eq in H1. lia.
    + apply andb_prop in H1 as [Ha Hb].
      apply negb_true_iff in Ha, Hb. auto.
  - intros Hle. apply orb_prop in H2 as [H2|H2].
    + apply Nat.ltb_lt in H2. lia.
    + apply Nat.leb_le in H2. exact H2.
Qed.

(** Two candidates with different indices name unrelated cgroups. *)
Lemma candidates_apart base i j :
  0 <= i < 100 -> 0 <= j < 100 -> i <> j ->
  Double.under (candidate base i) (candidate base j) = false.
Proof.
  intros Hi Hj Hne. unfold Double.under.
  rewrite !candidate_suffix, append_assoc, eqb_app_l, prefix_app_l.
  destruct (suffix_facts i j Hi Hj) as [H _].
  destruct (H Hne) as [-> ->]. reflexivity.
Qed.

Lemma fits_le base i n :
  0 <= i <= n -> n < 100 -> fits base n -> fits base i.
Proof.
  intros Hi Hn [->|H]; [left; lia|].
  destruct (Z.eq_dec i 0) as [->|Hi0]; [left; reflexivity|]. right.
  destruct (suffix_facts i n) as [_ Hlen]; [lia | lia |].
  specialize (Hlen ltac:(lia)).
  unfold suffix in Hlen.
  destruct (i =? 0) eqn:E1; [apply Z.eqb_eq in E1; lia|].
  destruct (n =? 0) eqn:E2; [apply Z.eqb_eq in E2; lia|].
  unfold strlen in *. lia.
Qed.

End CandFacts.

Module CreateFacts.
Import Double.

Implicit Types (w : world (gset (string * string))).

Lemma create_on_double ver s tmp w :
  fst (lxc_cgmanager_create (respond ver) s tmp w) =
    (true, if has (env w) s tmp then 1 else -1) /\
  env (snd (lxc_cgmanager_create (respond ver) s tmp w)) =
    (if has (env w) s tmp then env w else env w ∪ {[ (s, tmp) ]}).
Proof.
  unfold lxc_cgmanager_create, bind, do_call, ret. cbn.
  destruct (has (env w) s tmp); cbn; auto.
Qed.

Lemma create_for_double ver tmp l : forall w,
  NoDup l ->
  let res := cgm_create_for (respond ver) l tmp w in
  (forall x, x ∈ env (snd res) -> x ∈ env w \/ (fst x ∈ l /\ snd x = tmp)) /\
  (forall x, x ∈ env w -> x ∈ env (snd res)) /\
  ((exists s, s ∈ l /\ (s, tmp) ∈ env w) -> fst res = Collision) /\
  ((forall s, s ∈ l -> (s, tmp) ∉ env w) ->
   fst res = AllCreated /\ forall s, s ∈ l -> (s, tmp) ∈ env (snd res)).
Proof.
  induction l as [|s l IH]; intros w Hnd; cbn zeta; cbn [cgm_create_for].
  - split; [auto|]. split; [auto|]. split.
    + intros (s & Hs & _). inversion Hs.
    + intros _. split; [reflexivity|]. intros s Hs. inversion Hs.
  - rewrite bind_eq.
    destruct (create_on_double ver s tmp w) as [Hres Henv].
    set (w0 := snd (lxc_cgmanager_create (respond ver) s tmp w)) in *.
    rewrite Hres. cbn [fst snd negb].
    apply NoDup_cons in Hnd as [Hnin Hnd].
    destruct (has (env w) s tmp) eqn:Hhas.
    + cbn. rewrite Henv.
      apply bool_decide_eq_true in Hhas.
      split; [auto|]. split; [auto|]. split; [auto|].
      intros Hnone. exfalso. apply (Hnone s); [left | exact Hhas].
    + cbn [Z.eqb]. change (-1 =? 1) with false. cbn iota.
      apply bool_decide_eq_false in Hhas.
      destruct (IH w0 Hnd) as (H1 & H2 & H3 & H4). cbn zeta in *.
      split; [|split; [|split]].
      * intros x Hx. destruct (H1 x Hx) as [Hin | [Hl Ht]].
        -- rewrite Henv in Hin. apply elem_of_union in Hin as [Hin|Hin]; [auto|].
           apply elem_of_singleton in Hin. subst x. right. split; [left | reflexivity].
        -- right. split; [right; exact Hl | exact Ht].
      * intros x Hx. apply H2. rewrite Henv. apply elem_of_union. auto.
      * intros (s' & Hs' & Hin). apply H3.
        apply elem_of_cons in Hs' as [->|Hs']; [contradiction|].
        exists s'. split; [exact Hs'|]. rewrite Henv. apply elem_of_union. auto.
      * intros Hnone.
        assert (Hnone' : forall s', s' ∈ l -> (s', tmp) ∉ env w0).
        { intros s' Hs' Hin. rewrite Henv in Hin.
          apply elem_of_union in Hin as [Hin|Hin].
          - apply (Hnone s'); [right; exact Hs' | exact Hin].
          - apply elem_of_singleton in Hin. inversion Hin; subst. contradiction. }
        destruct (H4 Hnone') as [Ho Hall]. split; [exact Ho|].
        intros s' Hs'. apply elem_of_cons in Hs' as [->|Hs']; [|auto].
        apply H2. rewrite Henv. apply elem_of_union. right.
        apply elem_of_singleton. reflexivity.
Qed.

(** A round that collides: the candidate is gone from every registered
    subsystem afterwards, and nothing outside it has changed. *)
Lemma collision_round ver tmp w :
  NoDup (registry w) ->
  (exists s, s ∈ registry w /\ (s, tmp) ∈ env w) ->
  let w1 := snd (cgm_create_for (respond ver) (registry w) tmp w) in
  let w2 := snd (cleanup_cgroups (respond ver) tmp w1) in
  fst (cgm_create_for (respond ver) (registry w) tmp w) = Collision /\
  registry w2 = registry w /\
  (forall s, s ∈ registry w -> (s, tmp) ∉ env w2) /\
  (forall s q, under tmp q = false -> (s, q) ∈ env w2 <-> (s, q) ∈ env w).
Proof.
  intros Hnd Hex. cbn zeta.
  destruct (create_for_double ver tmp (registry w) w Hnd) as (H1 & H2 & H3 & _).
  cbn zeta in *.
  destruct (create_for_spec (respond ver) (registry w) tmp w) as (evs & Hrun & _).
  set (w1 := snd (cgm_create_for (respond ver) (registry w) tmp w)) in *.
  destruct (cleanup_runs (respond ver) tmp w1) as (ce & Hce & Hcc).
  set (w2 := snd (cleanup_cgroups (respond ver) tmp w1)) in *.
  assert (Hr1 : registry w1 = registry w) by (eapply runs_registry; eauto).
  assert (Hr2 : registry w2 = registry w1) by (eapply runs_registry; eauto).
  destruct Hce as [_ He]. rewrite Hcc, Hr1 in He.
  split; [apply H3; exact Hex|]. split; [congruence|]. split.
  - intros s Hs Hin. rewrite He in Hin.
    apply DoubleFacts.removes_elem in Hin as [_ Hn]. apply Hn. cbn.
    split; [exact Hs | apply DoubleFacts.under_refl].
  - intros s q Hu. rewrite He, DoubleFacts.removes_elem. cbn. split.
    + intros [Hin _]. destruct (H1 _ Hin) as [?|[_ Ht]]; [assumption|].
      cbn in Ht. subst q. rewrite DoubleFacts.under_refl in Hu. discriminate.
    + intros Hin. split; [apply H2; exact Hin|]. intros [_ Hu']. congruence.
Qed.

End CreateFacts.

Module RetryFacts.
Import Double CStr.

Implicit Types (w : world (gset (string * string))).

(** One round from the label again, when the index is below 100 and the
    suffix fits. *)
Lemma again_unfold {E} (R : E -> call -> reply * E) fuel index d base (w : world E) :
  (index =? 100) = false ->
  negb (index =? 0) &&
    (strlen ("-" +:+ fmt_d index) >=? MAXPATHLEN - strlen base) = false ->
  cgm_create_again R (S fuel) index d base (strlen base) (leading_slashes base) w =
  let tmp := candidate base index in
  let w1 := snd (cgm_create_for R (registry w) tmp w) in
  match fst (cgm_create_for R (registry w) tmp w) with
  | HardFailure => cgm_create_bad d w1
  | Collision =>
      cgm_create_again R fuel (index + 1) d base (strlen base) (leading_slashes base)
                       (snd (cleanup_cgroups R tmp w1))
  | AllCreated =>
      ((true, Some (CgmData (name d) (Some tmp) (cgroup_pattern d))),
       snd (cgm_dbus_disconnect w1))
  end.
Proof.
  intros H100 Hg. cbn [cgm_create_again]. rewrite H100, Hg.
  rewrite bind_eq. cbn [get fst snd]. rewrite bind_eq.
  fold (candidate base index). cbn zeta.
  destruct (fst (cgm_create_for R (registry w) (candidate base index) w));
    rewrite ?bind_eq; reflexivity.
Qed.

Lemma fits_guard base index :
  fits base index ->
  negb (index =? 0) &&
    (strlen ("-" +:+ fmt_d index) >=? MAXPATHLEN - strlen base) = false.
Proof.
  intros [->|H]; [reflexivity|].
  rewrite Z.geb_leb. apply andb_false_intro2. apply Z.leb_gt. exact H.
Qed.

Lemma again_success ver d base n (k : nat) : forall index fuel w,
  (k < fuel)%nat -> 0 <= index -> index + Z.of_nat k = n -> n < 100 ->
  fits base n -> NoDup (registry w) ->
  (forall i, index <= i < n ->
             exists s, s ∈ registry w /\ (s, candidate base i) ∈ env w) ->
  (forall s, s ∈ registry w -> (s, candidate base n) ∉ env w) ->
  let res := cgm_create_again (respond ver) fuel index d base (strlen base)
                              (leading_slashes base) w in
  fst res = (true, Some (CgmData (name d) (Some (candidate base n)) (cgroup_pattern d))) /\
  registry (snd res) = registry w /\
  (forall s, s ∈ registry w -> (s, candidate base n) ∈ env (snd res)) /\
  (forall i s, index <= i < n -> s ∈ registry w ->
               (s, candidate base i) ∉ env (snd res)) /\
  (forall s q, (forall j, index <= j <= n -> under (candidate base j) q = false) ->
               (s, q) ∈ env (snd res) <-> (s, q) ∈ env w).
Proof.
  induction k as [|k IH]; intros index fuel w Hf Hi Hn Hlt Hfit Hnd Hex Hfree;
    (destruct fuel as [|fuel]; [lia|]); cbn zeta.
  - assert (index = n) by lia. subst index.
    rewrite again_unfold; [| apply Z.eqb_neq; lia | apply fits_guard; exact Hfit].
    cbn zeta.
    destruct (create_for_spec (respond ver) (registry w) (candidate base n) w)
      as (evs & Hrun & _).
    destruct (CreateFacts.create_for_double ver (candidate base n) (registry w) w Hnd)
      as (H1 & H2 & _ & H4). cbn zeta in *.
    destruct (H4 Hfree) as [Ho Hall]. rewrite Ho. cbn [fst snd].
    split; [reflexivity|]. split; [eapply runs_registry; eauto|].
    split; [exact Hall|]. split; [intros; lia|].
    intros s q Hq. cbn. split.
    + intros Hin. destruct (H1 _ Hin) as [?|[_ Ht]]; [assumption|].
      cbn in Ht. subst q. specialize (Hq n ltac:(lia)).
      rewrite DoubleFacts.under_refl in Hq. discriminate.
    + apply H2.
  - assert (Hlt' : index < n) by lia.
    rewrite again_unfold;
      [| apply Z.eqb_neq; lia
       | apply fits_guard; eapply CandFacts.fits_le; [| |exact Hfit]; lia].
    cbn zeta.
    destruct (CreateFacts.collision_round ver (candidate base index) w Hnd)
      as (Ho & Hreg & Hgone & Hframe); [apply Hex; lia|].
    cbn zeta in *. rewrite Ho.
    set (w2 := snd (cleanup_cgroups (respond ver) (candidate base index) _)) in *.
    assert (Hapart : forall j, index < j <= n ->
              under (candidate base index) (candidate base j) = false).
    { intros j Hj. apply CandFacts.candidates_apart; lia. }
    destruct (IH (index + 1) fuel w2) as (R1 & R2 & R3 & R4 & R5);
      try lia; try assumption.
    { rewrite Hreg. exact Hnd. }
    { intros i Hir. destruct (Hex i) as (s & Hs & Hin); [lia|].
      exists s. rewrite Hreg. split; [exact Hs|]. apply Hframe; [apply Hapart; lia|exact Hin]. }
    { intros s Hs Hin. rewrite Hreg in Hs. apply (Hfree s Hs).
      apply Hframe in Hin; [exact Hin | apply Hapart; lia]. }
    cbn zeta in *. rewrite Hreg in *.
    split; [exact R1|]. split; [exact R2|]. split; [exact R3|]. split.
    + intros i s Hir Hs. destruct (Z.eq_dec i index) as [->|Hne].
      * intros Hin. apply R5 in Hin; [exact (Hgone s Hs Hin)|].
        intros j Hj. apply CandFacts.candidates_apart; lia.
      * apply R4; [lia | exact Hs].
    + intros s q Hq. rewrite R5 by (intros j Hj; apply Hq; lia).
      apply Hframe. apply Hq. lia.
Qed.

Lemma again_exhaust ver d base (k : nat) : forall index fuel w,
  (k < fuel)%nat -> 0 <= index -> index + Z.of_nat k = 100 ->
  NoDup (registry w) ->
  (forall i, index <= i < 100 ->
             exists s, s ∈ registry w /\ (s, candidate base i) ∈ env w) ->
  fst (fst (cgm_create_again (respond ver) fuel index d base (strlen base)
                             (leading_slashes base) w)) = false.
Proof.
  induction k as [|k IH]; intros index fuel w Hf Hi Hn Hnd Hex;
    (destruct fuel as [|fuel]; [lia|]).
  - assert (index = 100) by lia. subst index. cbn [cgm_create_again].
    cbn [Z.eqb Pos.eqb]. rewrite bind_eq. reflexivity.
  - destruct (negb (index =? 0) &&
              (strlen ("-" +:+ fmt_d index) >=? MAXPATHLEN - strlen base)) eqn:Hg.
    + cbn [cgm_create_again].
      replace (index =? 100) with false by (symmetry; apply Z.eqb_neq; lia).
      rewrite Hg. reflexivity.
    + rewrite again_unfold; [| apply Z.eqb_neq; lia | exact Hg]. cbn zeta.
      destruct (CreateFacts.collision_round ver (candidate base index) w Hnd)
        as (Ho & Hreg & _ & Hframe); [apply Hex; lia|].
      cbn zeta in *. rewrite Ho.
      apply IH; try lia.
      * rewrite Hreg. exact Hnd.
      * intros i Hir. destruct (Hex i) as (s & Hs & Hin); [lia|].
        exists s. rewrite Hreg. split; [exact Hs|].
        apply Hframe; [apply CandFacts.candidates_apart; lia | exact Hin].
Qed.

(** Claim C1, as the code has it, on the test double.  The registry
    holds no name twice and the expanded pattern fits into result.  If
    the candidates of the indices below n, for n below 100, each exist in
    some registered subsystem, the candidate of index n exists in none and
    its suffix still fits, then cgm_create returns true with the handle's
    path set to that candidate, which now exists in every registered
    subsystem, while what was created for a candidate that collided is
    rolled back: a subsystem that did not have the candidate before does
    not have it afterwards.  If the candidates of all indices below 100
    exist, cgm_create returns false. *)
Theorem cgm_create_collision_retry ver d full w :
  lxc_string_replace "%n" (name d) (cgroup_pattern d) = Some full ->
  strlen full < MAXPATHLEN ->
  NoDup (registry w) ->
  (forall n,
      0 <= n < 100 -> fits full n ->
      (forall i, 0 <= i < n ->
                 exists s, s ∈ registry w /\ (s, candidate full i) ∈ env w) ->
      (forall s, s ∈ registry w -> (s, candidate full n) ∉ env w) ->
      let res := cgm_create (respond ver) (Some d) w in
      fst res = (true, Some (CgmData (name d) (Some (candidate full n))
                                     (cgroup_pattern d))) /\
      (forall s, s ∈ registry w -> (s, candidate full n) ∈ env (snd res)) /\
      (forall i s, 0 <= i < n -> s ∈ registry w ->
                   (s, candidate full i) ∉ env w ->
                   (s, candidate full i) ∉ env (snd res))) /\
  ((forall i, 0 <= i < 100 ->
              exists s, s ∈ registry w /\ (s, candidate full i) ∈ env w) ->
   fst (fst (cgm_create (respond ver) (Some d) w)) = false).
Proof.
  intros Hrep Hlen Hnd.
  assert (Heq : cgm_create (respond ver) (Some d) w =
                cgm_create_again (respond ver) 101 0 d full (strlen full)
                                 (leading_slashes full) w).
  { unfold cgm_create. rewrite Hrep.
    replace (strlen full >=? MAXPATHLEN) with false; [reflexivity|].
    symmetry. rewrite Z.geb_leb. apply Z.leb_gt. exact Hlen. }
  rewrite Heq. split.
  - intros n Hn Hfit Hex Hfree.
    destruct (again_success ver d full n (Z.to_nat n) 0 101%nat w)
      as (R1 & _ & R3 & R4 & _); try lia; try assumption.
    cbn zeta in *. split; [exact R1|]. split; [exact R3|].
    intros i s Hi Hs _. exact (R4 i s Hi Hs).
  - intros Hex. apply (again_exhaust ver d full 100 0 101%nat w); try lia; assumption.
Qed.

End RetryFacts.

(** ** Fuel

    The two loops modelled with fuel never use it up: more fuel than the
    loop can run rounds changes nothing. *)

Lemma cull_loop_fuel fuel : forall i (subs : list string) nr,
  (nr - i <= fuel)%nat ->
  cull_loop fuel i subs nr = cull_loop (S fuel) i subs nr.
Proof.
  induction fuel as [|fuel IH]; intros i subs nr H.
  - cbn [cull_loop]. destruct (i <? nr)%nat eqn:Hi; [apply Nat.ltb_lt in Hi; lia | reflexivity].
  - cbn [cull_loop]. destruct (i <? nr)%nat; [|reflexivity].
    destruct (negb _); apply IH; lia.
Qed.

Section Fuel.
Context {E : Type} (respond : E -> call -> reply * E).

Lemma cgm_create_again_fuel d base baselen off (k : nat) :
  forall index fuel (w : world E),
    0 <= index -> index + Z.of_nat k = 100 -> (k < fuel)%nat ->
    cgm_create_again respond fuel index d base baselen off w =
    cgm_create_again respond (S fuel) index d base baselen off w.
Proof.
  induction k as [|k IH]; intros index fuel w Hi Hk Hf;
    (destruct fuel as [|fuel]; [lia|]).
  - assert (index = 100) by lia. subst index. reflexivity.
  - cbn [cgm_create_again].
    destruct (index =? 100); [reflexivity|].
    destruct (negb (index =? 0) && _); [reflexivity|].
    rewrite !bind_eq. cbn [get fst snd]. rewrite ?bind_eq.
    destruct (fst (cgm_create_for respond (registry w) _ w)); [reflexivity| |reflexivity].
    rewrite ?bind_eq. apply IH; lia.
Qed.

End Fuel.

(** ** The claims at concrete inputs *)

(** Decides a closed proposition by evaluation. *)
Ltac by_decide :=
  match goal with
  | |- ?P => exact (bool_decide_unpack P ltac:(vm_compute; exact I))
  end.

(** Claim C3.  The discovered list holds two named controllers in a row and
    the daemon reports api version 3, below CGM_SUPPORTS_NAMED.  The
    connection opens and culls, and the second named controller is still
    registered: after the first is shifted out, the loop index moves past the
    entry that took its place.  The enter that follows asks the daemon to
    move the pid in that named controller. *)
Theorem cull_leaves_consecutive_named :
  fst (cgm_dbus_connect (Double.respond 3) Example.named) = true /\
  api_version (snd (cgm_dbus_connect (Double.respond 3) Example.named)) = 3 /\
  registry (snd (cgm_dbus_connect (Double.respond 3) Example.named)) =
    ["name=lxc"; "cpu"] /\
  is_named "name=lxc" = true /\
  In (cgmanager_move_pid_sync "name=lxc" "lxc/c1" 7)
     (calls_of (trace (snd (cgm_enter (Double.respond 3) (Some Example.created) 7
                              Example.named)))).
Proof.
  split; [reflexivity|]. split; [reflexivity|]. split; [reflexivity|].
  split; [reflexivity|]. vm_compute. right. right. right. left. reflexivity.
Qed.

Lemma cgm_create_collision_retry_witness :
  fst (cgm_create (Double.respond 4) (Some Example.fresh) Example.crowded) =
    (true, Some (CgmData "c1" (Some "lxc/c1-2") (Some "/lxc/%n"))) /\
  (forall s, s ∈ registry Example.crowded ->
             (s, "lxc/c1-2") ∈ env (snd (cgm_create (Double.respond 4)
                                           (Some Example.fresh) Example.crowded))) /\
  (forall i s, 0 <= i < 2 -> s ∈ registry Example.crowded ->
               (s, candidate "/lxc/c1" i) ∉ env Example.crowded ->
               (s, candidate "/lxc/c1" i) ∉
                 env (snd (cgm_create (Double.respond 4)
                             (Some Example.fresh) Example.crowded))).
Proof.
  refine (proj1 (RetryFacts.cgm_create_collision_retry 4 Example.fresh "/lxc/c1"
                   Example.crowded _ _ _) 2 _ _ _ _).
  - reflexivity.
  - reflexivity.
  - by_decide.
  - lia.
  - right. reflexivity.
  - intros i Hi. assert (i = 0 \/ i = 1) as [-> | ->] by lia.
    + exists "cpu". split; by_decide.
    + exists "memory". split; by_decide.
  - intros s Hs.
    apply elem_of_cons in Hs as [-> | Hs]; [by_decide|].
    apply elem_of_cons in Hs as [-> | Hs]; [by_decide|].
    inversion Hs.
Defined.

(** The name fills result up to its last byte.  The first candidate is
    taken and the second is free, yet create fails: the suffix -1 does not
    fit, and the guard on snprintf's return value jumps to bad. *)
Lemma cgm_create_long_name_counterexample :
  lxc_string_replace "%n" (name Example.long) (cgroup_pattern Example.long) =
    Some Example.long_name /\
  CStr.strlen Example.long_name < MAXPATHLEN /\
  (("cpu", candidate Example.long_name 0) ∈ env Example.long_taken) /\
  (("cpu", candidate Example.long_name 1) ∉ env Example.long_taken) /\
  fst (fst (cgm_create (Double.respond 4) (Some Example.long) Example.long_taken)) = false.
Proof.
  split; [vm_compute; reflexivity|].
  split; [vm_compute; reflexivity|].
  split; [by_decide|].
  split; [by_decide|].
  vm_compute. reflexivity.
Qed.

Lemma cgm_create_rollback_witness :
  fst (fst (cgm_create Script.respond (Some Example.fresh)
              Example.second_create_fails)) = false /\
  (exists i : nat,
      registry Example.second_create_fails !! i = Some "memory" /\
      exists pre0,
        calls_of [EvCall (cgmanager_create_sync "cpu" "lxc/c1") (Reply 0 (-1) 0)] =
        pre0 ++ map (fun s => cgmanager_create_sync s "lxc/c1")
                    (take i (registry Example.second_create_fails))) /\
  calls_of [EvLog ERROR "call to cgmanager_create_sync failed";
            EvLog ERROR "Failed to create";
            EvLog ERROR "Error creating cgroup";
            EvCall (cgmanager_remove_sync "cpu" "lxc/c1" 1) (Reply 0 0 0);
            EvCall (cgmanager_remove_sync "memory" "lxc/c1" 1) (Reply 0 0 0)] =
    map (fun s => cgmanager_remove_sync s "lxc/c1" CG_REMOVE_RECURSIVE)
        (registry Example.second_create_fails).
Proof.
  apply (cgm_create_rollback Script.respond (Some Example.fresh)
           Example.second_create_fails
           [EvCall (cgmanager_create_sync "cpu" "lxc/c1") (Reply 0 (-1) 0)]
           "memory" "lxc/c1" (Reply 1 0 0)).
  - reflexivity.
  - discriminate.
Defined.

Lemma cgm_get_framing_witness :
  4 = Get.hdr Example.abc + 1 /\
  Some [x61; x62; x63; x0a; x00; x00; x00; x00] =
    Some (take (Z.to_nat (Get.hdr Example.abc)) [x61; x62; x63] ++ [x0a] ++
          replicate (Z.to_nat (8 - Get.hdr Example.abc - 1)) x00).
Proof.
  refine (proj1 (proj2 (proj2
            (GetFacts.cgm_get_framing Example.abc (replicate 8 x00) 8 4
               (Some [x61; x62; x63; x0a; x00; x00; x00; x00]) (Some [])
               _ _ _ _ _ _))) [x61; x62; x63] _ _ _ _ _ _).
  all: try reflexivity.
  all: cbn; lia.
Defined.

(** The child reports an empty value and the buffer has room for four
    bytes: the length plus one is below the capacity, yet cgm_get returns 0,
    not 1, and the buffer holds no newline. *)
Lemma cgm_get_empty_value_counterexample :
  Get.hdr Example.empty + 1 < 4 /\
  Get.cgm_get Example.empty (Some [x00; x00; x00; x00]) 4 =
    Some (0, Some [x00; x00; x00; x00], Some []) /\
  0 <> Get.hdr Example.empty + 1.
Proof. split; [reflexivity|]. split; [reflexivity|]. discriminate. Qed.

Lemma chown_handshake_failure_witness :
  fst (do_chown_cgroup Script.respond "cpu" "lxc/c1" 1000 Example.first_read_short) = -1 /\
  fst (chown_cgroup Script.respond "cpu" "lxc/c1" Example.idmap
         Example.second_select_fails) = false /\
  existsb is_chmod
    (calls_of (trace (snd (chown_cgroup Script.respond "cpu" "lxc/c1" Example.idmap
                             Example.second_select_fails)))) = false.
Proof.
  split.
  - refine (proj1 (proj2 (proj1 (chown_handshake_failure Script.respond "cpu" "lxc/c1"
                                   Example.idmap 1000 Example.first_read_short)
                            (trace (snd (do_chown_cgroup Script.respond "cpu" "lxc/c1" 1000
                                           Example.first_read_short))) _)) _);
      reflexivity.
  - refine (proj1 (proj2 (proj2 (chown_handshake_failure Script.respond "cpu" "lxc/c1"
                                   Example.idmap 1000 Example.second_select_fails)
                            (trace (snd (chown_cgroup Script.respond "cpu" "lxc/c1" Example.idmap
                                           Example.second_select_fails))) _)) _);
      reflexivity.
Defined.

Lemma cgm_destroy_best_effort_witness :
  env (snd (cgm_destroy (Double.respond 4) (Some Example.created)
              (snd (cgm_destroy (Double.respond 4) (Some Example.created)
                      Example.populated)))) =
  env (snd (cgm_destroy (Double.respond 4) (Some Example.created) Example.populated)).
Proof.
  refine (proj1 (proj2 (proj1 (proj2 cgm_destroy_best_effort) 4 Example.created
                          "lxc/c1" Example.populated _ _))).
  - reflexivity.
  - unfold in_bounds. cbn. lia.
Defined.

Lemma collect_subsytems_in_order_witness :
  registry (snd (collect_subsytems (Some Example.proc_cgroup) None Example.undiscovered)) =
    ProcRecord.controllers Example.proc_cgroup /\
  (fst (collect_subsytems (Some Example.proc_cgroup) None Example.undiscovered) = true <->
   ProcRecord.controllers Example.proc_cgroup <> []).
Proof.
  pose proof (proj2 (collect_subsytems_in_order (Some Example.proc_cgroup) None
                       Example.undiscovered) eq_refl eq_refl eq_refl) as H.
  exact (conj (proj1 H) (proj1 (proj2 H))).
Defined.

(** Two hierarchies list the controller cpu: it is registered twice, so the
    list is not the deduplicated one. *)
Lemma collect_subsytems_keeps_duplicates :
  fst (collect_subsytems (Some Example.proc_cgroup_twice) None Example.undiscovered) = true /\
  registry (snd (collect_subsytems (Some Example.proc_cgroup_twice) None
                   Example.undiscovered)) = ["cpu"; "cpu"] /\
  ProcRecord.dedup [] (ProcRecord.controllers Example.proc_cgroup_twice) = ["cpu"] /\
  registry (snd (collect_subsytems (Some Example.proc_cgroup_twice) None
                   Example.undiscovered)) <>
    ProcRecord.dedup [] (ProcRecord.controllers Example.proc_cgroup_twice).
Proof.
  split; [reflexivity|]. split; [reflexivity|]. split; [reflexivity|].
  vm_compute. discriminate.
Qed.

Lemma cgm_chown_ignores_failures_witness :
  fst (cgm_chown Script.respond (Some Example.created) Example.idmap
         Example.chown_fails) = true /\
  In (EvLog WARN "Failed to chown to container root")
     (trace (snd (cgm_chown Script.respond (Some Example.created) Example.idmap
                    Example.chown_fails))).
Proof.
  split.
  - apply (proj1 (cgm_chown_ignores_failures Script.respond Example.created "lxc/c1"
                    Example.idmap Example.chown_fails eq_refl eq_refl)).
  - vm_compute. right. right. right. right. right. right. left. reflexivity.
Defined.

(** * Further properties *)

(** ** More on the connection and the registry *)

Section ConnectFacts.

Context {E : Type} (respond : E -> call -> reply * E).

(** What cgm_dbus_connect does to the static variables and the log. *)
Lemma connect_facts (w : world E) :
  let b := fst (cgm_dbus_connect respond w) in
  let w' := snd (cgm_dbus_connect respond w) in
  (cgroup_manager w = false -> cgroup_manager w' = b) /\
  (b = true -> cgroup_manager w' = true) /\
  (b = false -> subsystems w' = subsystems w /\ nr_subsystems w' = nr_subsystems w) /\
  (subsystems w' = None <-> subsystems w = None) /\
  (in_bounds w ->
   in_bounds w' /\
   registry w' = if b && (api_version w' <? CGM_SUPPORTS_NAMED)
                 then cull_list (nr_subsystems w) 0 (registry w)
                 else registry w) /\
  (exists evs (k : nat),
     trace w' = trace w ++ evs /\
     calls_of evs = take k [dbus_connection_open_private; nih_dbus_proxy_new;
                            cgmanager_get_api_version_sync] /\
     env w' = env_after respond (env w) (calls_of evs) /\
     (b = true -> k = 3%nat)).
Proof.
  assert (Hcull : in_bounds w ->
            forall subs nr,
              cull_loop (nr_subsystems w) 0 (default [] (subsystems w)) (nr_subsystems w)
                = (subs, nr) ->
              (nr <= length (default [] (match subsystems w with
                                         | Some _ => Some subs
                                         | None => None
                                         end)))%nat /\
              take nr (default [] (match subsystems w with
                                   | Some _ => Some subs
                                   | None => None
                                   end)) =
                cull_list (nr_subsystems w) 0 (registry w)).
  { unfold in_bounds, registry. intros Hb subs nr Heq.
    destruct (CullFacts.cull_loop_list (nr_subsystems w) 0%nat
                (default [] (subsystems w)) (nr_subsystems w) Hb) as [H1 H2].
    rewrite Heq in H1, H2. cbn [fst snd] in H1, H2.
    destruct (subsystems w) as [arr|]; cbn [default] in *; [auto|].
    assert (nr_subsystems w = 0%nat) as Hz by (cbn in Hb; lia).
    rewrite Hz in *. cbn in Heq. inversion Heq; subst. cbn. auto. }
  assert (Hnone : forall subs : list string,
            match subsystems w with Some _ => Some subs | None => None end = None
            <-> subsystems w = None).
  { intros subs. destruct (subsystems w); split; congruence. }
  unfold cgm_dbus_connect. rewrite bind_eq. cbn [get fst snd]. rewrite bind_eq.
  cbn beta.
  set (w1 := snd ((if dbus_threads_initialized w then ret tt
                   else set_dbus_threads_initialized E true) w)).
  assert (Hw1 : env w1 = env w /\ trace w1 = trace w /\
                cgroup_manager w1 = cgroup_manager w /\
                nr_subsystems w1 = nr_subsystems w /\
                subsystems w1 = subsystems w /\
                api_version w1 = api_version w).
  { subst w1. destruct (dbus_threads_initialized w); cbn; auto 10. }
  clearbody w1. destruct Hw1 as (He & Ht & Hc & Hn & Hs & Ha).
  destruct w1 as [e t c a n s d]. cbn in He, Ht, Hc, Hn, Hs, Ha. subst.
  unfold cull_user_controllers, cull_user_controllers_on.
  unfold bind, get, log, emit, do_call, ret, set_cgroup_manager, set_api_version,
    cgm_dbus_disconnect, set_subsystems.
  cbn -[cull_loop cull_list CGM_SUPPORTS_NAMED take].
  destruct (respond (env w) dbus_connection_open_private) as [r1 e1] eqn:H1.
  cbn -[cull_loop cull_list CGM_SUPPORTS_NAMED take].
  destruct (rc r1 =? 0) eqn:Hr1; cbn -[cull_loop cull_list CGM_SUPPORTS_NAMED take].
  { repeat split; try tauto; try congruence.
    exists [EvCall dbus_connection_open_private r1;
            EvLog DEBUG "Failed opening dbus connection"], 1%nat.
    cbn. rewrite <- app_assoc, H1. repeat split; auto; discriminate. }
  destruct (respond e1 nih_dbus_proxy_new) as [r2 e2] eqn:H2.
  cbn -[cull_loop cull_list CGM_SUPPORTS_NAMED take].
  destruct (rc r2 =? 0) eqn:Hr2; cbn -[cull_loop cull_list CGM_SUPPORTS_NAMED take].
  { repeat split; try tauto; try congruence.
    exists [EvCall dbus_connection_open_private r1; EvCall nih_dbus_proxy_new r2;
            EvLog ERROR "Error opening cgmanager proxy"], 2%nat.
    cbn. rewrite <- !app_assoc, H1. cbn. rewrite H2.
    repeat split; auto; discriminate. }
  destruct (respond e2 cgmanager_get_api_version_sync) as [r3 e3] eqn:H3.
  cbn -[cull_loop cull_list CGM_SUPPORTS_NAMED take].
  destruct (rc r3 =? 0) eqn:Hr3; cbn -[cull_loop cull_list CGM_SUPPORTS_NAMED take].
  2:{ repeat split; try tauto; try congruence.
    exists [EvCall dbus_connection_open_private r1; EvCall nih_dbus_proxy_new r2;
            EvCall cgmanager_get_api_version_sync r3;
            EvLog ERROR "Error cgroup manager api version"], 3%nat.
    cbn. rewrite <- !app_assoc, H1. cbn. rewrite H2. cbn. rewrite H3.
    repeat split; auto. }
  assert (Hev : exists evs (k : nat),
            ((trace w ++ [EvCall dbus_connection_open_private r1]) ++
              [EvCall nih_dbus_proxy_new r2]) ++
              [EvCall cgmanager_get_api_version_sync r3] = trace w ++ evs /\
            calls_of evs = take k [dbus_connection_open_private; nih_dbus_proxy_new;
                                   cgmanager_get_api_version_sync] /\
            e3 = env_after respond (env w) (calls_of evs) /\ (true = true -> k = 3%nat)).
  { exists [EvCall dbus_connection_open_private r1; EvCall nih_dbus_proxy_new r2;
            EvCall cgmanager_get_api_version_sync r3], 3%nat.
    cbn. rewrite <- !app_assoc, H1. cbn. rewrite H2. cbn. rewrite H3. auto. }
  destruct (out r3 <? CGM_SUPPORTS_NAMED) eqn:Hv.
  - match goal with
    | |- context [cull_loop ?a ?b ?c ?d] =>
        destruct (cull_loop a b c d) as [subs nr] eqn:Heq
    end.
    cbn -[cull_loop cull_list CGM_SUPPORTS_NAMED take].
    split; [reflexivity|]. split; [reflexivity|]. split; [discriminate|].
    split; [apply Hnone|]. split; [|exact Hev].
    intros Hb. unfold in_bounds, registry. cbn -[cull_loop cull_list CGM_SUPPORTS_NAMED].
    rewrite ?Hv. apply (Hcull Hb subs nr). exact Heq.
  - cbn -[cull_loop cull_list CGM_SUPPORTS_NAMED take].
    split; [reflexivity|]. split; [reflexivity|]. split; [discriminate|].
    split; [tauto|]. split; [|exact Hev].
    unfold in_bounds, registry. cbn -[CGM_SUPPORTS_NAMED]. rewrite ?Hv. tauto.
Qed.

End ConnectFacts.

Module CullKeeps.

Lemma filter_delete_named (l : list string) i x :
  l !! i = Some x -> is_named x = true ->
  List.filter kernel (delete i l) = List.filter kernel l.
Proof.
  revert i. induction l as [|y l IH]; intros [|i] Hx Hn; try discriminate.
  - inversion Hx; subst. cbn [delete list_delete List.filter].
    unfold kernel at 2. rewrite Hn. reflexivity.
  - cbn [delete list_delete List.filter].
    destruct (kernel y); [f_equal|]; exact (IH i Hx Hn).
Qed.

(** The loop deletes named controllers only, and moves nothing. *)
Lemma cull_list_keeps fuel : forall i (l : list string),
  cull_list fuel i l `sublist_of` l /\
  List.filter kernel (cull_list fuel i l) = List.filter kernel l.
Proof.
  induction fuel as [|fuel IH]; intros i l; cbn [cull_list]; [split; reflexivity|].
  destruct (i <? length l)%nat eqn:Hi; [|split; reflexivity].
  apply Nat.ltb_lt in Hi.
  destruct (lookup_lt_is_Some_2 l i Hi) as [x Hx].
  rewrite Hx. change (default "" (Some x)) with x.
  change (CStr.strncmp x "name=" 5 =? 0) with (is_named x).
  destruct (is_named x) eqn:Hn; cbn [negb]; [|apply IH].
  destruct (IH (S i) (delete i l)) as [H1 H2]. split.
  - etransitivity; [exact H1|]. apply sublist_delete.
  - rewrite H2. apply (filter_delete_named l i x Hx Hn).
Qed.

(** A list without named controllers is left as it is. *)
Lemma cull_list_noop fuel : forall i (l : list string),
  Forall (fun s => is_named s = false) l -> cull_list fuel i l = l.
Proof.
  induction fuel as [|fuel IH]; intros i l Hl; cbn [cull_list]; [reflexivity|].
  destruct (i <? length l)%nat eqn:Hi; [|reflexivity].
  apply Nat.ltb_lt in Hi.
  destruct (lookup_lt_is_Some_2 l i Hi) as [x Hx].
  rewrite Hx. change (default "" (Some x)) with x.
  change (CStr.strncmp x "name=" 5 =? 0) with (is_named x).
  rewrite Forall_forall in Hl.
  rewrite (Hl x) by (eapply list_elem_of_lookup_2; exact Hx).
  cbn. apply IH. rewrite Forall_forall. exact Hl.
Qed.

Lemma filter_kernel_unnamed (l : list string) :
  Forall (fun s => is_named s = false) (List.filter kernel l).
Proof.
  rewrite Forall_forall. intros x Hx. apply list_elem_of_In in Hx.
  apply filter_In in Hx as [_ Hx].
  unfold kernel in Hx. apply negb_true_iff in Hx. exact Hx.
Qed.

End CullKeeps.

Section Registry.

Context {E : Type} (respond : E -> call -> reply * E).

(** Property X1.  Connecting never loses a kernel controller: whatever the
    daemon answers, the registry afterwards is the registry before with some
    named controllers taken out, the others in their order; it is the same
    registry when the connection fails or the daemon knows named controllers;
    and the count stays inside the array. *)
Theorem connect_keeps_kernel_controllers (w : world E) :
  in_bounds w ->
  let b := fst (cgm_dbus_connect respond w) in
  let w' := snd (cgm_dbus_connect respond w) in
  in_bounds w' /\
  registry w' `sublist_of` registry w /\
  List.filter (fun s => negb (is_named s)) (registry w') =
    List.filter (fun s => negb (is_named s)) (registry w) /\
  (b = false \/ CGM_SUPPORTS_NAMED <= api_version w' -> registry w' = registry w).
Proof.
  intros Hb b w'.
  destruct (connect_facts respond w) as (_ & _ & _ & _ & Hreg & _).
  destruct (Hreg Hb) as [Hb' Hr]. fold b w' in Hb', Hr.
  split; [exact Hb'|]. rewrite Hr.
  destruct (b && (api_version w' <? CGM_SUPPORTS_NAMED)) eqn:Hc.
  - destruct (CullKeeps.cull_list_keeps (nr_subsystems w) 0 (registry w)) as [H1 H2].
    split; [exact H1|]. split; [exact H2|].
    apply andb_prop in Hc as [Hc1 Hc2]. apply Z.ltb_lt in Hc2.
    intros [H|H]; [congruence | lia].
  - split; [reflexivity|]. split; reflexivity.
Qed.

(** Property X2.  A daemon older than CGM_SUPPORTS_NAMED and a registry in
    which no two named controllers are neighbours: a successful connect leaves
    exactly the kernel controllers, and every later connect finds nothing more
    to remove. *)
Theorem connect_culls_named_when_apart (w : world E) :
  in_bounds w ->
  no_adjacent_named (registry w) = true ->
  fst (cgm_dbus_connect respond w) = true ->
  api_version (snd (cgm_dbus_connect respond w)) < CGM_SUPPORTS_NAMED ->
  let w' := snd (cgm_dbus_connect respond w) in
  registry w' = List.filter (fun s => negb (is_named s)) (registry w) /\
  Forall (fun s => is_named s = false) (registry w') /\
  registry (snd (cgm_dbus_connect respond w')) = registry w'.
Proof.
  intros Hb Hadj Hok Hv w'.
  destruct (connect_facts respond w) as (_ & _ & _ & _ & Hreg & _).
  destruct (Hreg Hb) as [Hb' Hr]. fold w' in Hb', Hr.
  rewrite Hok in Hr. cbn in Hr.
  replace (api_version w' <? CGM_SUPPORTS_NAMED) with true in Hr
    by (symmetry; apply Z.ltb_lt; exact Hv).
  assert (Hlen : length (registry w) = nr_subsystems w).
  { unfold registry. apply length_take_le. exact Hb. }
  rewrite CullMore.cull_list_filter in Hr; [|lia|exact Hadj].
  rewrite take_0, drop_0 in Hr. cbn [app] in Hr.
  assert (Hun : Forall (fun s => is_named s = false) (registry w')).
  { rewrite Hr. apply CullKeeps.filter_kernel_unnamed. }
  split; [exact Hr|]. split; [exact Hun|].
  destruct (connect_facts respond w') as (_ & _ & _ & _ & Hreg' & _).
  destruct (Hreg' Hb') as [_ Hr']. rewrite Hr'.
  match goal with |- (if ?c then _ else _) = _ => destruct c end; [|reflexivity].
  apply CullKeeps.cull_list_noop. exact Hun.
Qed.

End Registry.

(** ** Every operation closes the connection it opened *)

Section Proxy.

Context {E : Type} (respond : E -> call -> reply * E).

Lemma keeps_ret {A} (a : A) : keeps_proxy (@ret E A a).
Proof. intros w. reflexivity. Qed.

Lemma keeps_bind {A B} (m : M E A) (k : A -> M E B) :
  keeps_proxy m -> (forall a, keeps_proxy (k a)) -> keeps_proxy (bind m k).
Proof.
  intros Hm Hk w. rewrite bind_eq. rewrite Hk. apply Hm.
Qed.

Lemma keeps_call c : keeps_proxy (do_call respond c).
Proof. intros w. unfold do_call. destruct (respond _ _). reflexivity. Qed.

Lemma keeps_log lvl msg : keeps_proxy (log E lvl msg).
Proof. intros w. reflexivity. Qed.

Lemma keeps_get : keeps_proxy (get E).
Proof. intros w. reflexivity. Qed.

Lemma keeps_set_subsystems s n : keeps_proxy (set_subsystems E s n).
Proof. intros w. reflexivity. Qed.

Lemma keeps_for_each l (body : string -> M E unit) :
  (forall s, keeps_proxy (body s)) -> keeps_proxy (for_each l body).
Proof.
  intros Hb. induction l as [|s l IH]; cbn [for_each].
  - apply keeps_ret.
  - apply keeps_bind; [apply Hb | intros _; exact IH].
Qed.

Lemma closed_disconnect : ends_closed (@cgm_dbus_disconnect E).
Proof. intros w. reflexivity. Qed.

Lemma closed_bind {A B} (m : M E A) (k : A -> M E B) :
  (forall a, ends_closed (k a)) -> ends_closed (bind m k).
Proof. intros Hk w. rewrite bind_eq. apply Hk. Qed.

Lemma closed_keeps {A B} (m : M E A) (k : A -> M E B) :
  ends_closed m -> (forall a, keeps_proxy (k a)) -> ends_closed (bind m k).
Proof. intros Hm Hk w. rewrite bind_eq, Hk. apply Hm. Qed.

Lemma keeps_balanced {A} (m : M E A) : keeps_proxy m -> balanced m.
Proof. intros H w Hw. rewrite H. exact Hw. Qed.

Lemma closed_balanced {A} (m : M E A) : ends_closed m -> balanced m.
Proof. intros H w _. apply H. Qed.

(** An operation that connects first: when the connection fails it only
    reports, and otherwise it ends with the disconnect. *)
Lemma balanced_session {A} (fail : M E A) (body : M E A) :
  keeps_proxy fail -> ends_closed body ->
  balanced (bind (cgm_dbus_connect respond)
                 (fun ok => if negb ok then fail else body)).
Proof.
  intros Hf Hb w Hw. rewrite bind_eq.
  destruct (connect_facts respond w) as (Hc & _).
  specialize (Hc Hw).
  destruct (fst (cgm_dbus_connect respond w)); cbn [negb].
  - apply Hb.
  - rewrite Hf. exact Hc.
Qed.

Ltac keeps :=
  repeat first
    [ apply keeps_ret | apply keeps_call | apply keeps_log | apply keeps_get
    | apply keeps_set_subsystems
    | apply keeps_bind; [|intros ?]
    | apply keeps_for_each; intros ?
    | match goal with
      | |- keeps_proxy (if ?b then _ else _) => destruct b
      | |- keeps_proxy (match ?x with _ => _ end) => destruct x
      end ].

Ltac closed :=
  repeat first
    [ apply closed_disconnect
    | apply closed_keeps; [apply closed_disconnect | intros ?; keeps]
    | apply closed_bind; intros ?
    | match goal with
      | |- ends_closed (if ?b then _ else _) => destruct b
      | |- ends_closed (match ?x with _ => _ end) => destruct x
      end ].

Lemma closed_create_again fuel : forall index d base baselen off,
  ends_closed (cgm_create_again respond fuel index d base baselen off).
Proof.
  induction fuel as [|fuel IH]; intros index d base baselen off;
    cbn [cgm_create_again]; unfold cgm_create_bad.
  - closed.
  - destruct (index =? 100); [closed|].
    destruct (_ && _); [closed|].
    apply closed_bind; intros w0. apply closed_bind; intros o.
    destruct o; [closed| |closed].
    apply closed_bind; intros _. apply IH.
Qed.

Lemma create_ends_closed d : ends_closed (cgm_create respond (Some d)).
Proof.
  unfold cgm_create, cgm_create_bad.
  destruct (lxc_string_replace _ _ _); [|closed].
  destruct (_ >=? _); [closed|]. apply closed_create_again.
Qed.

(** Property X3.  Started without a connection, each of cgm_enter,
    cgm_destroy, cgm_chown, cgm_get_nrtasks and cgm_unfreeze returns without
    one, on success and on every failure; cgm_create, which is handed the
    connection that cgm_init opened, always closes it when it is given a
    handle. *)
Theorem operations_leave_no_connection hdata d pid conf :
  balanced (cgm_enter respond hdata pid) /\
  balanced (cgm_destroy respond hdata) /\
  balanced (cgm_chown respond hdata conf) /\
  balanced (cgm_get_nrtasks respond hdata) /\
  balanced (cgm_unfreeze respond hdata) /\
  ends_closed (cgm_create respond (Some d)).
Proof.
  split; [|split; [|split; [|split; [|split]]]].
  - unfold cgm_enter. apply balanced_session; [keeps|].
    destruct hdata as [h|]; [destruct (cgroup_path h)|]; closed.
  - unfold cgm_destroy.
    destruct hdata as [h|]; [destruct (cgroup_path h)|];
      try (apply keeps_balanced; apply keeps_ret).
    apply balanced_session; [keeps|]. closed.
  - unfold cgm_chown.
    destruct hdata as [h|]; [destruct (cgroup_path h)|];
      try (apply keeps_balanced; apply keeps_ret).
    apply balanced_session; [keeps|].
    closed.
  - unfold cgm_get_nrtasks.
    destruct hdata as [h|]; [destruct (cgroup_path h)|];
      try (apply keeps_balanced; apply keeps_ret).
    apply balanced_session; [keeps|]. closed.
  - unfold cgm_unfreeze.
    destruct hdata as [h|]; [destruct (cgroup_path h)|];
      try (apply keeps_balanced; apply keeps_ret).
    apply balanced_session; [keeps|]. closed.
  - apply create_ends_closed.
Qed.

End Proxy.

(** ** The handle cgm_create returns *)

Module HandleFacts.
Import CStr StrFacts.

Lemma skipped_slashes s : leading_slashes (skip (leading_slashes s) s) = 0%nat.
Proof.
  induction s as [|c s IH]; [reflexivity|].
  destruct c as [[] [] [] [] [] [] [] []]; cbn; solve [exact IH | reflexivity].
Qed.

Lemma no_slash_app x c t :
  leading_slashes x = 0%nat -> leading_slashes (String c t) = 0%nat ->
  leading_slashes (x +:+ String c t) = 0%nat.
Proof.
  destruct x as [|a x]; intros Hx Ht; [exact Ht|].
  rewrite append_cons.
  destruct a as [[] [] [] [] [] [] [] []]; cbn in *; solve [discriminate | reflexivity].
Qed.

(** No candidate path begins with a slash. *)
Lemma candidate_relative base index :
  leading_slashes (candidate base index) = 0%nat.
Proof.
  rewrite CandFacts.candidate_suffix. unfold suffix.
  destruct (index =? 0).
  - rewrite append_nil_r. apply skipped_slashes.
  - rewrite append_cons, append_nil_l.
    apply no_slash_app; [apply skipped_slashes | reflexivity].
Qed.

Section Again.

Context {E : Type} (respond : E -> call -> reply * E).

Lemma create_bad_result d (w : world E) :
  fst (cgm_create_bad d w) = (false, Some d).
Proof. reflexivity. Qed.

Lemma again_result fuel : forall index d base (w : world E),
  0 <= index <= 100 ->
  let r := fst (cgm_create_again respond fuel index d base (strlen base)
                  (leading_slashes base) w) in
  (fst r = false /\ snd r = Some d) \/
  (fst r = true /\
   exists i, index <= i < 100 /\
     snd r = Some (CgmData (name d) (Some (candidate base i)) (cgroup_pattern d))).
Proof.
  induction fuel as [|fuel IH]; intros index d base w Hi; [left; split; reflexivity|].
  destruct (index =? 100) eqn:H100.
  { cbn [cgm_create_again]. rewrite H100. left. split; reflexivity. }
  destruct (negb (index =? 0) &&
            (strlen ("-" +:+ fmt_d index) >=? MAXPATHLEN - strlen base)) eqn:Hg.
  { cbn [cgm_create_again]. rewrite H100, Hg. left. split; reflexivity. }
  rewrite (RetryFacts.again_unfold respond fuel index d base w H100 Hg). cbn zeta.
  apply Z.eqb_neq in H100.
  destruct (fst (cgm_create_for respond (registry w) (candidate base index) w)).
  - right. split; [reflexivity|]. exists index. split; [lia | reflexivity].
  - destruct (IH (index + 1) d base
                (snd (cleanup_cgroups respond (candidate base index)
                        (snd (cgm_create_for respond (registry w)
                                (candidate base index) w))))) as [H|[H1 [i [Hr H2]]]];
      [lia | left; exact H |].
    right. split; [exact H1|]. exists i. split; [lia | exact H2].
  - left. split; reflexivity.
Qed.

End Again.

End HandleFacts.

Section Handle.

Context {E : Type} (respond : E -> call -> reply * E).

(** Property X4.  Whatever the daemon answers, cgm_create hands back the
    handle it was given when it fails, and when it succeeds the same handle
    with a path that does not begin with a slash: the expanded pattern with
    its leading slashes dropped, with or without a suffix -1 .. -99. *)
Theorem cgm_create_handle d (w : world E) :
  let r := fst (cgm_create respond (Some d) w) in
  (fst r = false /\ snd r = Some d) \/
  (fst r = true /\
   exists full i p,
     lxc_string_replace "%n" (name d) (cgroup_pattern d) = Some full /\
     0 <= i < 100 /\ p = candidate full i /\
     CStr.leading_slashes p = 0%nat /\
     snd r = Some (CgmData (name d) (Some p) (cgroup_pattern d))).
Proof.
  unfold cgm_create.
  destruct (lxc_string_replace "%n" (name d) (cgroup_pattern d)) as [full|] eqn:Hf;
    [|left; split; reflexivity].
  destruct (CStr.strlen full >=? MAXPATHLEN); [left; split; reflexivity|].
  destruct (HandleFacts.again_result respond 101 0 d full w ltac:(lia))
    as [H|[H1 [i [Hi H2]]]]; [left; exact H|].
  right. split; [exact H1|].
  exists full, i, (candidate full i).
  split; [reflexivity|]. split; [exact Hi|]. split; [reflexivity|].
  split; [apply HandleFacts.candidate_relative | exact H2].
Qed.

End Handle.

(** ** The life cycle of a container's cgroup, on the test double *)

Module LifeFacts.
Import Double.

Implicit Types (w : world (gset (string * string))).

Lemma enter_for_double ver pid p abs l : forall w,
  (forall s, s ∈ l -> (s, p) ∈ env w) ->
  fst (do_cgm_enter_for (respond ver) l pid p abs w) = true /\
  env (snd (do_cgm_enter_for (respond ver) l pid p abs w)) = env w /\
  nr_subsystems (snd (do_cgm_enter_for (respond ver) l pid p abs w)) = nr_subsystems w /\
  subsystems (snd (do_cgm_enter_for (respond ver) l pid p abs w)) = subsystems w.
Proof.
  induction l as [|s l IH]; intros w Hall; cbn [do_cgm_enter_for]; [auto|].
  rewrite bind_eq.
  assert (Hs : has (env w) s p = true).
  { apply bool_decide_eq_true. apply Hall. left. }
  assert (Hstep : lxc_cgmanager_enter (respond ver) pid s p abs w =
                  (true, snd (lxc_cgmanager_enter (respond ver) pid s p abs w)) /\
                  env (snd (lxc_cgmanager_enter (respond ver) pid s p abs w)) = env w /\
                  nr_subsystems (snd (lxc_cgmanager_enter (respond ver) pid s p abs w))
                    = nr_subsystems w /\
                  subsystems (snd (lxc_cgmanager_enter (respond ver) pid s p abs w))
                    = subsystems w).
  { unfold lxc_cgmanager_enter, bind, do_call, ret.
    destruct abs; cbn; rewrite Hs; cbn; auto. }
  destruct Hstep as (Heq & He & Hn & Hsub). rewrite Heq. cbn [fst snd negb].
  destruct (IH (snd (lxc_cgmanager_enter (respond ver) pid s p abs w)))
    as (H1 & H2 & H3 & H4).
  { intros s' Hs'. rewrite He. apply Hall. right. exact Hs'. }
  rewrite H1, H2, H3, H4. auto.
Qed.

(** The registry a connect leaves is part of the one it found. *)
Lemma connect_sub ver w :
  in_bounds w ->
  fst (cgm_dbus_connect (respond ver) w) = true /\
  env (snd (cgm_dbus_connect (respond ver) w)) = env w /\
  in_bounds (snd (cgm_dbus_connect (respond ver) w)) /\
  cgroup_manager (snd (cgm_dbus_connect (respond ver) w)) = true /\
  (registry (snd (cgm_dbus_connect (respond ver) w)) `sublist_of` registry w) /\
  (((ver <? CGM_SUPPORTS_NAMED) = true ->
    Forall (fun s => is_named s = false) (registry w)) ->
   registry (snd (cgm_dbus_connect (respond ver) w)) = registry w) /\
  (CGM_SUPPORTS_NAMED <= ver \/ no_adjacent_named (registry w) = true ->
   (ver <? CGM_SUPPORTS_NAMED) = true ->
   Forall (fun s => is_named s = false)
          (registry (snd (cgm_dbus_connect (respond ver) w)))).
Proof.
  intros Hb.
  destruct (DoubleFacts.connect_on_double ver w) as (Hc & He & _ & Hreg).
  destruct (Hreg Hb) as [Hb' Hr].
  destruct (connect_facts (respond ver) w) as (_ & Hcm & _).
  split; [exact Hc|]. split; [exact He|]. split; [exact Hb'|].
  split; [apply Hcm; exact Hc|].
  rewrite Hr.
  assert (Hlen : length (registry w) = nr_subsystems w).
  { unfold registry. apply length_take_le. exact Hb. }
  destruct (ver <? CGM_SUPPORTS_NAMED) eqn:Hv.
  - split; [apply CullKeeps.cull_list_keeps|]. split.
    + intros Hun. apply CullKeeps.cull_list_noop. apply Hun. reflexivity.
    + intros [Hge|Hadj] _; [apply Z.ltb_lt in Hv; lia|].
      rewrite CullMore.cull_list_filter; [|lia|exact Hadj].
      rewrite take_0, drop_0. cbn [app]. apply CullKeeps.filter_kernel_unnamed.
  - split; [reflexivity|]. split; [reflexivity|]. intros _ H. discriminate H.
Qed.

Lemma enter_on_double ver d p pid w :
  cgroup_path d = Some p -> in_bounds w ->
  (forall s, s ∈ registry w -> (s, p) ∈ env w) ->
  let r := cgm_enter (respond ver) (Some d) pid w in
  fst r = true /\ env (snd r) = env w /\ in_bounds (snd r) /\
  registry (snd r) = registry (snd (cgm_dbus_connect (respond ver) w)).
Proof.
  intros Hp Hb Hall. cbn zeta. unfold cgm_enter. rewrite bind_eq.
  destruct (connect_sub ver w Hb) as (Hc & He & Hb' & _ & Hsub & _).
  rewrite Hc. cbn [negb]. rewrite Hp.
  set (wc := snd (cgm_dbus_connect (respond ver) w)) in *.
  rewrite bind_eq. unfold do_cgm_enter. rewrite bind_eq. cbn [get fst snd].
  destruct (enter_for_double ver pid p false (registry wc) wc) as (H1 & H2 & H3 & H4).
  { intros s Hs. rewrite He. apply Hall.
    eapply sublist_submseteq, elem_of_submseteq in Hsub; eauto. }
  rewrite bind_eq. unfold get.
  cbn [cgm_dbus_disconnect set_cgroup_manager ret fst snd env].
  split; [exact H1|]. split; [rewrite H2; exact He|].
  unfold in_bounds, registry in *. cbn [nr_subsystems subsystems].
  rewrite H3, H4. auto.
Qed.

Lemma init_on_double ver cfg n w :
  fst (Startup.cgm_init (respond ver) cfg n w) =
    Some (CgmData n None (Some (match cfg with Some p => p | None => "%n" end))) /\
  env (snd (Startup.cgm_init (respond ver) cfg n w)) =
    env (snd (cgm_dbus_connect (respond ver) w)) /\
  nr_subsystems (snd (Startup.cgm_init (respond ver) cfg n w)) =
    nr_subsystems (snd (cgm_dbus_connect (respond ver) w)) /\
  subsystems (snd (Startup.cgm_init (respond ver) cfg n w)) =
    subsystems (snd (cgm_dbus_connect (respond ver) w)).
Proof.
  unfold Startup.cgm_init. rewrite bind_eq.
  destruct (DoubleFacts.connect_on_double ver w) as (Hc & _).
  rewrite Hc. cbn [negb]. unfold bind, do_call, ret. cbn. auto.
Qed.

(** A create that finds its first candidate free. *)
Lemma create_fresh ver d full w :
  lxc_string_replace "%n" (name d) (cgroup_pattern d) = Some full ->
  CStr.strlen full < MAXPATHLEN ->
  NoDup (registry w) ->
  (forall s, s ∈ registry w -> (s, candidate full 0) ∉ env w) ->
  let r := cgm_create (respond ver) (Some d) w in
  fst r = (true, Some (CgmData (name d) (Some (candidate full 0)) (cgroup_pattern d))) /\
  (forall x, x ∈ env (snd r) <->
             x ∈ env w \/ (fst x ∈ registry w /\ snd x = candidate full 0)) /\
  nr_subsystems (snd r) = nr_subsystems w /\
  subsystems (snd r) = subsystems w /\
  cgroup_manager (snd r) = false.
Proof.
  intros Hf Hlen Hnd Hfree. cbn zeta. unfold cgm_create. rewrite Hf.
  replace (CStr.strlen full >=? MAXPATHLEN) with false
    by (symmetry; rewrite Z.geb_leb; apply Z.leb_gt; exact Hlen).
  change 101%nat with (S 100).
  rewrite (RetryFacts.again_unfold (respond ver) 100 0 d full w eq_refl eq_refl).
  cbn zeta.
  destruct (CreateFacts.create_for_double ver (candidate full 0) (registry w) w Hnd)
    as (H1 & H2 & _ & H4). cbn zeta in *.
  destruct (H4 Hfree) as [Ho Hall]. rewrite Ho.
  destruct (create_for_spec (respond ver) (registry w) (candidate full 0) w)
    as (evs & [(_ & Hn & Hs & _) _] & _).
  cbn [fst snd cgm_dbus_disconnect set_cgroup_manager env nr_subsystems subsystems
       cgroup_manager].
  split; [reflexivity|]. split; [|auto].
  intros x. split.
  - apply H1.
  - intros [Hx|[Hx1 Hx2]]; [apply H2; exact Hx|].
    destruct x as [s q]. cbn in Hx1, Hx2. subst q. apply Hall. exact Hx1.
Qed.

End LifeFacts.

(** Property X5.  On a daemon that keeps the cgroups as a set, with a registry
    that holds no name twice and whose count is inside the array, and a
    pattern that expands to fewer than MAXPATHLEN characters: when, for some
    n from 0 to 99, the candidates base, base-1, .., base-(n-1) are each
    taken in some registered subsystem, base-n is free in all of them and its
    suffix fits into the rest of the buffer, cgm_create succeeds with the
    path base-n, and cgm_enter on the handle it returns then moves the pid
    into every registered subsystem and returns true, whether or not its
    connect culls the registry in between. *)
Theorem create_then_enter_on_double (ver : Z) (d : cgm_data) (full : string)
    (n pid : Z)
    (w : world (gset (string * string))) :
  in_bounds w ->
  NoDup (registry w) ->
  lxc_string_replace "%n" (name d) (cgroup_pattern d) = Some full ->
  CStr.strlen full < MAXPATHLEN ->
  0 <= n < 100 -> fits full n ->
  (forall i, 0 <= i < n ->
     exists s, s ∈ registry w /\ (s, candidate full i) ∈ env w) ->
  (forall s, s ∈ registry w -> (s, candidate full n) ∉ env w) ->
  let r := cgm_create (Double.respond ver) (Some d) w in
  exists d',
    fst r = (true, Some d') /\
    cgroup_path d' = Some (candidate full n) /\
    fst (cgm_enter (Double.respond ver) (Some d') pid (snd r)) = true.
Proof.
  intros Hb Hnd Hf Hlen Hn Hfit Htaken Hfree. cbn zeta.
  assert (Hc : cgm_create (Double.respond ver) (Some d) w =
               cgm_create_again (Double.respond ver) 101 0 d full (CStr.strlen full)
                 (CStr.leading_slashes full) w).
  { unfold cgm_create. rewrite Hf.
    replace (CStr.strlen full >=? MAXPATHLEN) with false
      by (symmetry; rewrite Z.geb_leb; apply Z.leb_gt; exact Hlen).
    reflexivity. }
  rewrite Hc.
  destruct (RetryFacts.again_success ver d full n (Z.to_nat n) 0 101 w)
    as (Hres & Hreg & Hall & _); try assumption; try lia.
  cbn zeta in Hres, Hreg, Hall.
  destruct (again_spec (Double.respond ver) 101 0 d full (CStr.strlen full)
              (CStr.leading_slashes full) w) as (evs & [Hext _] & _).
  set (w2 := snd (cgm_create_again _ _ _ _ _ _ _ _)) in *.
  eexists. split; [exact Hres|]. split; [reflexivity|].
  refine (proj1 (LifeFacts.enter_on_double ver
                   (CgmData (name d) (Some (candidate full n)) (cgroup_pattern d))
                   (candidate full n) pid w2 eq_refl _ _)).
  - eapply in_bounds_extends; [exact Hext | exact Hb].
  - intros s Hs. apply Hall. rewrite <- Hreg. exact Hs.
Qed.

(** Property X6.  On a daemon that keeps the cgroups as a set, with a registry
    that holds no name twice and whose count is inside the array, with either
    a daemon that knows named controllers or a registry in which no two of
    them are neighbours, with a pattern that expands to fewer than MAXPATHLEN
    characters, and with nothing at or below the expanded path in any
    registered subsystem beforehand: cgm_init hands out a handle, cgm_create
    on it creates the cgroup of the expanded pattern in every registered
    subsystem, cgm_enter then succeeds, and cgm_destroy leaves the daemon
    with exactly the cgroups it had before the container, and no
    connection. *)
Theorem lifecycle_on_double (ver : Z) (cfg : option string) (n : string)
    (pid : Z) (full : string)
    (w : world (gset (string * string))) :
  in_bounds w ->
  NoDup (registry w) ->
  (CGM_SUPPORTS_NAMED <= ver \/ no_adjacent_named (registry w) = true) ->
  lxc_string_replace "%n" n (Some (match cfg with Some p => p | None => "%n" end))
    = Some full ->
  CStr.strlen full < MAXPATHLEN ->
  (forall s q, s ∈ registry w -> Double.under (candidate full 0) q = true ->
               (s, q) ∉ env w) ->
  let R := Double.respond ver in
  let r1 := Startup.cgm_init R cfg n w in
  exists h h',
    fst r1 = Some h /\
    let r2 := cgm_create R (Some h) (snd r1) in
    fst r2 = (true, Some h') /\
    cgroup_path h' = Some (candidate full 0) /\
    (forall s, s ∈ registry (snd r2) -> (s, candidate full 0) ∈ env (snd r2)) /\
    let r3 := cgm_enter R (Some h') pid (snd r2) in
    fst r3 = true /\
    let r4 := cgm_destroy R (Some h') (snd r3) in
    env (snd r4) = env w /\ cgroup_manager (snd r4) = false.
Proof.
  intros Hb Hnd Hcull Hf Hlen Hfree R r1.
  (* cgm_init *)
  destruct (LifeFacts.init_on_double ver cfg n w) as (Hh & He1 & Hn1 & Hs1).
  destruct (LifeFacts.connect_sub ver w Hb) as (_ & Hec & Hbc & _ & Hsub & _ & Hun).
  fold R in Hh, He1, Hn1, Hs1, Hec, Hbc, Hsub, Hun. fold r1 in Hh, He1, Hn1, Hs1.
  set (w1 := snd r1) in *.
  assert (Hreg1 : registry w1 = registry (snd (cgm_dbus_connect R w))).
  { unfold registry. rewrite Hn1, Hs1. reflexivity. }
  assert (Hb1 : in_bounds w1).
  { unfold in_bounds in *. rewrite Hn1, Hs1. exact Hbc. }
  assert (Hsub1 : forall s, s ∈ registry w1 -> s ∈ registry w).
  { intros s Hs. rewrite Hreg1 in Hs.
    eapply sublist_submseteq, elem_of_submseteq in Hsub; eauto. }
  assert (Hnd1 : NoDup (registry w1)).
  { rewrite Hreg1. eapply sublist_NoDup; eauto. }
  assert (Hst1 : (ver <? CGM_SUPPORTS_NAMED) = true ->
                 Forall (fun s => is_named s = false) (registry w1)).
  { rewrite Hreg1. apply Hun. exact Hcull. }
  assert (Henv1 : env w1 = env w) by (rewrite He1; exact Hec).
  set (pat := match cfg with Some p => p | None => "%n" end) in *.
  exists (CgmData n None (Some pat)),
         (CgmData n (Some (candidate full 0)) (Some pat)).
  split; [exact Hh|]. intros r2.
  (* cgm_create *)
  destruct (LifeFacts.create_fresh ver (CgmData n None (Some pat)) full w1 Hf Hlen Hnd1)
    as (Hres & Henv2 & Hn2 & Hs2 & _).
  { intros s Hs. rewrite Henv1. apply Hfree; [apply Hsub1; exact Hs|].
    apply DoubleFacts.under_refl. }
  cbn zeta in Hres, Henv2, Hn2, Hs2. cbn [name cgroup_pattern] in Hres.
  fold R in Hres, Henv2, Hn2, Hs2. fold r2 in Hres, Henv2, Hn2, Hs2.
  set (w2 := snd r2) in *.
  assert (Hreg2 : registry w2 = registry w1).
  { unfold registry. rewrite Hn2, Hs2. reflexivity. }
  assert (Hb2 : in_bounds w2).
  { unfold in_bounds in *. rewrite Hn2, Hs2. exact Hb1. }
  split; [exact Hres|]. split; [reflexivity|].
  assert (Hall : forall s, s ∈ registry w2 -> (s, candidate full 0) ∈ env w2).
  { intros s Hs. apply Henv2. right. cbn. rewrite <- Hreg2. auto. }
  split; [exact Hall|]. intros r3.
  (* cgm_enter *)
  destruct (LifeFacts.enter_on_double ver
              (CgmData n (Some (candidate full 0)) (Some pat))
              (candidate full 0) pid w2 eq_refl Hb2 Hall)
    as (Hok & Henv3 & Hb3 & Hreg3).
  cbn zeta in Hok, Henv3, Hb3, Hreg3. fold R in Hok, Henv3, Hb3, Hreg3.
  fold r3 in Hok, Henv3, Hb3, Hreg3.
  set (w3 := snd r3) in *.
  destruct (LifeFacts.connect_sub ver w2 Hb2) as (_ & _ & _ & _ & _ & Hsame2 & _).
  fold R in Hsame2. rewrite Hsame2 in Hreg3 by (rewrite Hreg2; exact Hst1).
  split; [exact Hok|]. intros r4.
  (* cgm_destroy *)
  destruct (LifeFacts.connect_sub ver w3 Hb3) as (Hc3 & Hec3 & _ & _ & _ & Hsame3 & _).
  fold R in Hc3, Hec3, Hsame3.
  destruct (destroy_spec R (CgmData n (Some (candidate full 0)) (Some pat))
              (candidate full 0) w3 eq_refl Hc3) as (evs & [_ Henv4] & Hcalls).
  fold r4 in Henv4.
  rewrite Hcalls, Hec3 in Henv4.
  split.
  - apply set_eq. intros x. rewrite Henv4. subst R.
    rewrite (DoubleFacts.removes_elem ver (candidate full 0)).
    rewrite Hsame3 by (rewrite Hreg3, Hreg2; exact Hst1).
    rewrite Hreg3, Hreg2, Henv3, Henv2, Henv1. split.
    + intros [[Hx|[Hx1 Hx2]] Hno]; [exact Hx|].
      exfalso. apply Hno. split; [exact Hx1|]. rewrite Hx2.
      apply DoubleFacts.under_refl.
    + intros Hx. split; [left; exact Hx|].
      intros [Hx1 Hx2]. destruct x as [s q]. cbn in Hx1, Hx2.
      apply (Hfree s q); [apply Hsub1; exact Hx1 | exact Hx2 | exact Hx].
  - subst r4.
    rewrite (destroy_eq R (CgmData n (Some (candidate full 0)) (Some pat))
               (candidate full 0) w3 eq_refl).
    rewrite Hc3. reflexivity.
Qed.

(** ** cgm_get and the caller's buffer *)

Module GetSafety.
Import Get.

(** Property X7.  Whatever the pipe delivers, cgm_get leaves the caller a
    buffer of the size it was given, returns -1 or an index inside it, and has
    a NUL at the index it returns; when the pipe, the fork or the read of the
    header fails it returns -1 and has not touched the buffer. *)
Theorem cgm_get_stays_in_buffer io (buf : list byte) len r v rest :
  0 < len < 9223372036854775808 ->
  length buf = Z.to_nat len ->
  -2147483648 <= hdr io < 2147483648 ->
  cgm_get io (Some buf) len = Some (r, v, rest) ->
  exists b,
    v = Some b /\ length b = length buf /\ -1 <= r < len /\
    (0 <= r -> b !! Z.to_nat r = Some x00) /\
    (pipe_rc io < 0 \/ fork_rc io < 0 \/ hdr_rc io <> 4 -> r = -1 /\ b = buf).
Proof.
  intros Hlen Hbuf Hhdr Hget.
  unfold cgm_get in Hget.
  destruct (pipe_rc io <? 0) eqn:E1.
  { inversion Hget; subst. exists buf. repeat split; auto; lia. }
  destruct (fork_rc io <? 0) eqn:E2.
  { inversion Hget; subst. exists buf. repeat split; auto; lia. }
  destruct (fork_rc io =? 0) eqn:E0; [discriminate|].
  apply Z.ltb_ge in E1, E2.
  injection Hget as Hget. unfold cgm_get_parent in Hget.
  destruct (hdr_rc io =? 4) eqn:E3; cbn [negb] in Hget.
  2:{ inversion Hget; subst. exists buf. repeat split; auto; lia. }
  apply Z.eqb_eq in E3.
  destruct (len =? 0) eqn:E4; [apply Z.eqb_eq in E4; lia|].
  rewrite drop_ge, app_nil_r in Hget by lia.
  assert (Hrep : length (replicate (Z.to_nat len) x00) = length buf).
  { rewrite length_replicate. lia. }
  assert (Hzero : forall i : nat, (i < Z.to_nat len)%nat ->
                    replicate (Z.to_nat len) x00 !! i = Some x00).
  { intros i Hi. apply lookup_replicate_2. exact Hi. }
  destruct (hdr io <? 0) eqn:E5.
  { inversion Hget; subst. eexists. split; [reflexivity|].
    split; [exact Hrep|]. split; [lia|]. split; [lia|]. intros; lia. }
  apply Z.ltb_ge in E5.
  destruct (hdr io =? 0) eqn:E6.
  { inversion Hget; subst. eexists. split; [reflexivity|].
    split; [exact Hrep|]. split; [lia|].
    split; [intros _; apply Hzero; lia|]. intros; lia. }
  apply Z.eqb_neq in E6.
  rewrite GetFacts.readlen_min in Hget by lia.
  unfold read_body in Hget.
  destruct (body io) as [bs|] eqn:Hbody.
  2:{ cbn in Hget. rewrite GetFacts.int_small in Hget by lia.
      destruct (-1 =? Z.min (hdr io) len) eqn:E7; [apply Z.eqb_eq in E7; lia|].
      cbn in Hget. inversion Hget; subst. eexists. split; [reflexivity|].
      split; [exact Hrep|]. split; [lia|]. split; [lia|]. intros; lia. }
  cbn zeta in Hget.
  set (m := Z.min (hdr io) len) in *.
  set (got := take (Z.to_nat m) bs) in *.
  assert (Hgot : Z.of_nat (length got) <= m).
  { unfold got. rewrite length_take. lia. }
  set (buf1 := got ++ drop (length got) (replicate (Z.to_nat len) x00)) in *.
  assert (Hl1 : length buf1 = length buf).
  { unfold buf1. rewrite length_app, length_drop, length_replicate. lia. }
  rewrite GetFacts.int_small in Hget by lia.
  destruct (Z.of_nat (length got) =? m) eqn:E7; cbn [negb] in Hget.
  2:{ inversion Hget; subst. exists buf1. split; [reflexivity|].
      split; [exact Hl1|]. split; [lia|]. split; [lia|]. intros; lia. }
  apply Z.eqb_eq in E7.
  rewrite GetFacts.size_t_small in Hget by lia.
  destruct (hdr io >=? len) eqn:E8.
  - rewrite Z.geb_leb in E8. apply Z.leb_le in E8.
    rewrite GetFacts.int_small in Hget by lia.
    inversion Hget; subst r v rest. eexists. split; [reflexivity|].
    split; [rewrite length_insert; exact Hl1|]. split; [lia|].
    split; [|intros; lia].
    intros _. apply list_lookup_insert_eq. lia.
  - rewrite Z.geb_leb in E8. apply Z.leb_gt in E8.
    assert (Hm : m = hdr io) by lia.
    assert (Hlast : buf1 !! Z.to_nat (hdr io) = Some x00).
    { unfold buf1. rewrite lookup_app_r by lia.
      rewrite lookup_drop. apply Hzero. lia. }
    destruct (size_t (int (hdr io + 1)) <? len) eqn:E9.
    + assert (Hint : hdr io + 1 < 2147483648).
      { destruct (Z.eq_dec (hdr io + 1) 2147483648) as [He|He]; [|lia].
        rewrite He in E9. vm_compute (size_t (int 2147483648)) in E9.
        apply Z.ltb_lt in E9. lia. }
      rewrite GetFacts.int_small in * by lia.
      rewrite GetFacts.size_t_small in E9 by lia. apply Z.ltb_lt in E9.
      inversion Hget; subst r v rest. eexists. split; [reflexivity|].
      split; [rewrite !length_insert; exact Hl1|]. split; [lia|].
      split; [|intros; lia].
      intros _. apply list_lookup_insert_eq. rewrite length_insert. lia.
    + inversion Hget; subst r v rest. exists buf1. split; [reflexivity|].
      split; [exact Hl1|]. split; [lia|]. split; [intros _; exact Hlast|].
      intros; lia.
Qed.

End GetSafety.

(** ** Start-up *)

Section StartupFacts.

Context {E : Type} (respond : E -> call -> reply * E).
Implicit Types (w : world E).

Lemma escape_for_spec me l : forall w,
  exists evs (k : nat),
    runs respond w (snd (Startup.lxc_cgmanager_escape_for respond l me w)) evs /\
    calls_of evs = map (mv true me "/") (take k l) /\
    (fst (Startup.lxc_cgmanager_escape_for respond l me w) = true <->
     k = length l /\ Forall (fun r => rc r = 0) (replies_of evs)).
Proof.
  induction l as [|s l IH]; intros w; cbn [Startup.lxc_cgmanager_escape_for].
  - exists [], 0%nat. split; [apply runs_nil; reflexivity|]. split; [reflexivity|].
    split; [intros _; split; [reflexivity | constructor] | reflexivity].
  - rewrite bind_eq.
    pose proof (do_call_runs respond (cgmanager_move_pid_abs_sync s "/" me) w) as H0.
    set (r := fst (do_call respond _ w)) in *.
    set (w0 := snd (do_call respond _ w)) in *.
    destruct (rc r =? 0) eqn:Hrc; cbn [negb].
    + destruct (IH w0) as (evs & k & Hrun & Hc & Hiff).
      exists ([EvCall (cgmanager_move_pid_abs_sync s "/" me) r] ++ evs), (S k).
      split; [eapply runs_trans; eauto|].
      split; [cbn; rewrite Hc; reflexivity|].
      rewrite Hiff. cbn. apply Z.eqb_eq in Hrc. split.
      * intros [-> HF]. split; [reflexivity | constructor; assumption].
      * intros [Hk HF]. inversion HF; subst. split; [lia | assumption].
    + rewrite bind_eq.
      exists ([EvCall (cgmanager_move_pid_abs_sync s "/" me) r] ++
              [EvLog ERROR "call to cgmanager_move_pid_abs_sync() failed"]), 1%nat.
      split; [eapply runs_trans; [exact H0 | apply log_runs]|].
      split; [cbn; rewrite take_0; reflexivity|].
      cbn. apply Z.eqb_neq in Hrc. split; [discriminate|].
      intros [_ HF]. inversion HF; subst. contradiction.
Qed.

Lemma escape_spec w :
  exists me rest (k : nat),
    runs respond w (snd (Startup.lxc_cgmanager_escape respond w))
         (EvCall sys_getpid me :: rest) /\
    calls_of rest = map (mv true (rc me) "/") (take k (registry w)) /\
    (fst (Startup.lxc_cgmanager_escape respond w) = true <->
     k = length (registry w) /\ Forall (fun r => rc r = 0) (replies_of rest)).
Proof.
  unfold Startup.lxc_cgmanager_escape. rewrite !bind_eq. cbn [get fst snd].
  pose proof (do_call_runs respond sys_getpid w) as Hx.
  pose proof (runs_registry _ _ _ _ Hx) as Hr.
  set (me := fst (do_call respond sys_getpid w)) in *.
  set (w3 := snd (do_call respond sys_getpid w)) in *.
  destruct (escape_for_spec (rc me) (registry w3) w3)
    as (rest & k & Hrun & Hcalls & Hiff).
  rewrite Hr in Hcalls, Hiff, Hrun |- *.
  exists me, rest, k. split; [|split; [exact Hcalls | exact Hiff]].
  change (EvCall sys_getpid me :: rest) with ([EvCall sys_getpid me] ++ rest).
  eapply runs_trans; eauto.
Qed.

(** The loop of lxc_cgmanager_escape ends after the last subsystem or at
    the first move the daemon refuses. *)
Lemma escape_for_cases me l : forall w,
  exists evs,
    runs respond w (snd (Startup.lxc_cgmanager_escape_for respond l me w)) evs /\
    ((fst (Startup.lxc_cgmanager_escape_for respond l me w) = true /\
      calls_of evs = map (mv true me "/") l /\
      Forall (fun r => rc r = 0) (replies_of evs)) \/
     (fst (Startup.lxc_cgmanager_escape_for respond l me w) = false /\
      exists (i : nat) s rs r,
        l !! i = Some s /\
        calls_of evs = map (mv true me "/") (take (S i) l) /\
        replies_of evs = rs ++ [r] /\
        Forall (fun r => rc r = 0) rs /\ rc r <> 0)).
Proof.
  induction l as [|s l IH]; intros w; cbn [Startup.lxc_cgmanager_escape_for].
  - exists []. split; [apply runs_nil; reflexivity|]. left.
    split; [reflexivity|]. split; [reflexivity | constructor].
  - rewrite bind_eq.
    pose proof (do_call_runs respond (cgmanager_move_pid_abs_sync s "/" me) w) as H0.
    set (r := fst (do_call respond _ w)) in *.
    set (w0 := snd (do_call respond _ w)) in *.
    destruct (rc r =? 0) eqn:Hrc; cbn [negb].
    + destruct (IH w0) as (evs & Hrun & Hcase).
      exists ([EvCall (cgmanager_move_pid_abs_sync s "/" me) r] ++ evs).
      split; [eapply runs_trans; eauto|].
      apply Z.eqb_eq in Hrc.
      destruct Hcase as [(Hf & Hc & Hr) | (Hf & i & s' & rs & r' & Hi & Hc & Hr & Hrs & Hr')].
      * left. split; [exact Hf|]. cbn. rewrite Hc. split; [reflexivity|].
        constructor; assumption.
      * right. split; [exact Hf|]. exists (S i), s', (r :: rs), r'.
        cbn. rewrite Hc, Hr. split; [exact Hi|]. split; [reflexivity|].
        split; [reflexivity|]. split; [constructor; assumption | exact Hr'].
    + rewrite bind_eq.
      exists ([EvCall (cgmanager_move_pid_abs_sync s "/" me) r] ++
              [EvLog ERROR "call to cgmanager_move_pid_abs_sync() failed"]).
      split; [eapply runs_trans; [exact H0 | apply log_runs]|].
      right. split; [reflexivity|]. exists 0%nat, s, [], r.
      cbn. rewrite take_0. split; [reflexivity|]. split; [reflexivity|].
      split; [reflexivity|]. split; [constructor | apply Z.eqb_neq; exact Hrc].
Qed.

Lemma escape_cases w :
  exists me rest,
    runs respond w (snd (Startup.lxc_cgmanager_escape respond w))
         (EvCall sys_getpid me :: rest) /\
    ((fst (Startup.lxc_cgmanager_escape respond w) = true /\
      calls_of rest = map (mv true (rc me) "/") (registry w) /\
      Forall (fun r => rc r = 0) (replies_of rest)) \/
     (fst (Startup.lxc_cgmanager_escape respond w) = false /\
      exists (i : nat) s rs r,
        registry w !! i = Some s /\
        calls_of rest = map (mv true (rc me) "/") (take (S i) (registry w)) /\
        replies_of rest = rs ++ [r] /\
        Forall (fun r => rc r = 0) rs /\ rc r <> 0)).
Proof.
  unfold Startup.lxc_cgmanager_escape. rewrite !bind_eq. cbn [get fst snd].
  pose proof (do_call_runs respond sys_getpid w) as Hx.
  pose proof (runs_registry _ _ _ _ Hx) as Hr.
  set (me := fst (do_call respond sys_getpid w)) in *.
  set (w3 := snd (do_call respond sys_getpid w)) in *.
  destruct (escape_for_cases (rc me) (registry w3) w3) as (rest & Hrun & Hcase).
  rewrite Hr in Hcase, Hrun |- *.
  exists me, rest. split; [|exact Hcase].
  change (EvCall sys_getpid me :: rest) with ([EvCall sys_getpid me] ++ rest).
  eapply runs_trans; eauto.
Qed.

Lemma keeps_collect self one : keeps_proxy (@collect_subsytems E self one).
Proof.
  unfold collect_subsytems.
  apply keeps_bind; [apply keeps_get | intros w0].
  destruct (subsystems w0); [apply keeps_ret|].
  destruct (match self with Some f => Some f | None => one end); [|apply keeps_ret].
  apply keeps_bind.
  - apply keeps_for_each. intros line. unfold collect_line.
    destruct (String.eqb _ ""); [apply keeps_ret|].
    destruct (CStr.after_chr ":" _) as [sl|]; [|apply keeps_ret].
    destruct (CStr.after_chr ":" sl); [|apply keeps_ret].
    apply keeps_for_each. intros p. unfold add_subsystem.
    apply keeps_bind; [apply keeps_get | intros; apply keeps_set_subsystems].
  - intros _. apply keeps_bind; [apply keeps_get | intros w1].
    destruct (_ =? _)%nat; [|apply keeps_ret].
    apply keeps_bind; [apply (keeps_log (E:=E)) | intros; apply keeps_ret].
Qed.

(** What discovery leaves of the array. *)
Lemma collect_array self one w :
  (subsystems w = None -> nr_subsystems w = 0%nat) ->
  let r := collect_subsytems self one w in
  (fst r = true -> subsystems (snd r) <> None) /\
  (fst r = false -> subsystems (snd r) = None /\ nr_subsystems (snd r) = 0%nat).
Proof.
  intros Hw. cbn zeta.
  destruct (subsystems w) as [arr|] eqn:Hs.
  { rewrite collect_memo by (rewrite Hs; discriminate). cbn.
    rewrite Hs. split; [intros _; discriminate | intros H; discriminate H]. }
  specialize (Hw eq_refl).
  rewrite (collect_eq self one w Hs).
  destruct (match self with Some f => Some f | None => one end) as [content|].
  2:{ cbn. rewrite Hs. split; [discriminate | auto]. }
  cbn zeta. rewrite for_each_lines.
  assert (Hc : counted w).
  { unfold counted, registry. rewrite Hw, take_0. reflexivity. }
  destruct (add_all_spec (flat_map line_tokens (CStr.getlines "" content)) w Hc)
    as (_ & _ & Hnr & Hsome & Hnil & _ & _).
  cbn zeta in Hnr, Hsome, Hnil.
  set (toks := flat_map line_tokens (CStr.getlines "" content)) in *.
  set (w1 := snd (for_each toks add_subsystem w)) in *.
  destruct toks as [|t toks].
  - rewrite (Hnil eq_refl), Hw. cbn. rewrite Hs, Hw.
    split; [discriminate | auto].
  - rewrite Hnr, Hw. cbn.
    split; [intros _; apply Hsome; discriminate | discriminate].
Qed.

(** Property X8. cgm_ops_init keeps the registry exactly when it succeeds:
    when it returns NULL after a failed discovery, a failed connect or a
    failed escape, the array pointer is NULL and the count is 0, so that the
    next call starts over; when it returns the operations the array is there.
    Either way it leaves no connection. *)
Theorem cgm_ops_init_all_or_nothing self one w :
  (subsystems w = None -> nr_subsystems w = 0%nat) ->
  cgroup_manager w = false ->
  let r := Startup.cgm_ops_init respond self one w in
  cgroup_manager (snd r) = false /\
  (fst r = true -> subsystems (snd r) <> None) /\
  (fst r = false -> subsystems (snd r) = None /\ nr_subsystems (snd r) = 0%nat).
Proof.
  intros Hw Hcm. cbn zeta. unfold Startup.cgm_ops_init. rewrite bind_eq.
  destruct (collect_array self one w Hw) as [Hyes Hno]. cbn zeta in Hyes, Hno.
  pose proof (keeps_collect self one w) as Hk. rewrite Hcm in Hk.
  set (w1 := snd (collect_subsytems self one w)) in *.
  destruct (fst (collect_subsytems self one w)) eqn:Hfound; cbn [negb].
  2:{ cbn. split; [exact Hk|].
      split; [intros H; discriminate H | intros _; apply Hno; reflexivity]. }
  specialize (Hyes eq_refl). clear Hno.
  rewrite bind_eq.
  destruct (connect_facts respond w1) as (Hc1 & Hc2 & _ & Hnone & _).
  cbn zeta in Hc1, Hc2, Hnone. specialize (Hc1 Hk).
  set (wc := snd (cgm_dbus_connect respond w1)) in *.
  destruct (fst (cgm_dbus_connect respond w1)) eqn:Hok; cbn [negb].
  2:{ rewrite bind_eq. cbn. split; [exact Hc1|].
      split; [intros H; discriminate H | auto]. }
  assert (Hsc : subsystems wc <> None) by (rewrite Hnone; exact Hyes).
  rewrite bind_eq.
  pose proof (do_call_runs respond sys_geteuid wc) as [(_ & _ & Hs2 & _) _].
  set (e := fst (do_call respond sys_geteuid wc)) in *.
  set (w2 := snd (do_call respond sys_geteuid wc)) in *.
  destruct (rc e =? 0).
  2:{ rewrite bind_eq. cbn. rewrite Hs2.
      split; [reflexivity|]. split; [intros _; exact Hsc | intros H; discriminate H]. }
  rewrite bind_eq.
  destruct (escape_spec w2) as (me & rest & k & [(_ & _ & Hs3 & _) _] & _).
  set (w4 := snd (Startup.lxc_cgmanager_escape respond w2)) in *.
  destruct (fst (Startup.lxc_cgmanager_escape respond w2));
    cbn [negb]; rewrite !bind_eq; cbn.
  - rewrite Hs3, Hs2. split; [reflexivity|].
    split; [intros _; exact Hsc | intros H; discriminate H].
  - split; [reflexivity|]. split; [intros H; discriminate H | auto].
Qed.

(** Property X9.  Once discovery and the connect have succeeded, cgm_ops_init
    asks for the effective uid; a process that is not root asks nothing more
    and succeeds; root asks for its pid and moves itself to the root cgroup of
    the registered subsystems with the absolute-path RPC, in registry order.
    Either every move is made and accepted, and cgm_ops_init succeeds; or a
    move is refused, every move before it was accepted, no move follows it,
    and cgm_ops_init fails. *)
Theorem cgm_ops_init_escapes_as_root self one w :
  fst (collect_subsytems self one w) = true ->
  fst (cgm_dbus_connect respond (snd (collect_subsytems self one w))) = true ->
  let wc := snd (cgm_dbus_connect respond (snd (collect_subsytems self one w))) in
  let r := Startup.cgm_ops_init respond self one w in
  exists e evs,
    trace (snd r) = trace wc ++ EvCall sys_geteuid e :: evs /\
    if rc e =? 0 then
      exists me rest,
        evs = EvCall sys_getpid me :: rest /\
        ((fst r = true /\
          calls_of rest =
            map (fun s => cgmanager_move_pid_abs_sync s "/" (rc me)) (registry wc) /\
          Forall (fun r => rc r = 0) (replies_of rest)) \/
         (fst r = false /\
          exists (i : nat) s rs r0,
            registry wc !! i = Some s /\
            calls_of rest =
              map (fun s => cgmanager_move_pid_abs_sync s "/" (rc me))
                  (take (S i) (registry wc)) /\
            replies_of rest = rs ++ [r0] /\
            Forall (fun r => rc r = 0) rs /\ rc r0 <> 0))
    else evs = [] /\ fst r = true.
Proof.
  intros Hfound Hok wc r. subst r. unfold Startup.cgm_ops_init.
  rewrite bind_eq, Hfound. cbn [negb]. rewrite bind_eq, Hok. cbn [negb].
  fold wc. rewrite bind_eq.
  pose proof (do_call_runs respond sys_geteuid wc) as [Hx2 _].
  assert (Hr2 : registry (snd (do_call respond sys_geteuid wc)) = registry wc)
    by (eapply registry_extends; exact Hx2).
  destruct Hx2 as (Ht2 & _).
  set (e := fst (do_call respond sys_geteuid wc)) in *.
  set (w2 := snd (do_call respond sys_geteuid wc)) in *.
  exists e.
  destruct (rc e =? 0).
  2:{ exists []. rewrite bind_eq. cbn. split; [exact Ht2 | auto]. }
  rewrite bind_eq.
  destruct (escape_cases w2) as (me & rest & [(Ht3 & _) _] & Hcase).
  set (w4 := snd (Startup.lxc_cgmanager_escape respond w2)) in *.
  rewrite Hr2 in Hcase.
  exists (EvCall sys_getpid me :: rest).
  split.
  - destruct (fst (Startup.lxc_cgmanager_escape respond w2));
      cbn [negb]; rewrite !bind_eq; cbn; rewrite Ht3, Ht2, <- !app_assoc;
      reflexivity.
  - exists me, rest. split; [reflexivity|].
    destruct Hcase as [(Hf & Hc & Hr) | (Hf & Hstop)]; rewrite Hf;
      cbn [negb]; rewrite !bind_eq; cbn [fst snd ret].
    + left. split; [reflexivity|]. split; [exact Hc | exact Hr].
    + right. split; [reflexivity | exact Hstop].
Qed.

(** Property X10. cgm_init hands out a handle exactly when the connect
    succeeds, and leaves the connection open for cgm_create, which closes it.
    The handle carries the name, no path, and a pattern that is never NULL:
    the configured lxc.cgroup.pattern for root when there is one, and the bare
    container name otherwise. *)
Theorem cgm_init_handle cfg n w :
  let c := cgm_dbus_connect respond w in
  let r := Startup.cgm_init respond cfg n w in
  (fst c = false ->
   fst r = None /\ (cgroup_manager w = false -> cgroup_manager (snd r) = false)) /\
  (fst c = true ->
   exists e,
     trace (snd r) = trace (snd c) ++ [EvCall sys_geteuid e] /\
     fst r = Some (CgmData n None
                     (Some (if rc e =? 0
                            then match cfg with Some p => p | None => "%n" end
                            else "%n"))) /\
     cgroup_manager (snd r) = true /\
     cgroup_manager (snd (cgm_create respond (fst r) (snd r))) = false).
Proof.
  cbn zeta. unfold Startup.cgm_init. rewrite bind_eq.
  destruct (connect_facts respond w) as (Hc1 & Hc2 & _).
  cbn zeta in Hc1, Hc2.
  set (wc := snd (cgm_dbus_connect respond w)) in *.
  destruct (fst (cgm_dbus_connect respond w)) eqn:Hok; cbn [negb].
  - split; [discriminate|]. intros _. rewrite bind_eq.
    pose proof (do_call_runs respond sys_geteuid wc) as [(Ht & _) _].
    pose proof (keeps_call respond sys_geteuid wc) as Hk.
    set (e := fst (do_call respond sys_geteuid wc)) in *.
    set (w2 := snd (do_call respond sys_geteuid wc)) in *.
    exists e. cbn [ret fst snd].
    split; [exact Ht|].
    split; [destruct (rc e =? 0); reflexivity|].
    split; [rewrite Hk; apply Hc2; reflexivity|].
    apply create_ends_closed.
  - split; [|discriminate]. intros _. rewrite bind_eq. cbn.
    split; [reflexivity|]. exact Hc1.
Qed.

End StartupFacts.

(** ** cgm_setup_limits *)

Module LimitsFacts.
Import Limits.

Section Loop.

Context {E : Type} (respond : E -> call -> reply * E).
Implicit Types (w : world E).

(** How the loop over the settings ends: with every setting of the pass
    written, at the first write the daemon refuses, or at the first name
    of 100 characters or more. *)
Lemma setup_limits_for_spec path dd l : forall w,
  let F := List.filter (in_pass dd) l in
  let r := setup_limits_for respond l path dd w in
  exists evs,
    runs respond w (snd r) evs /\
    ((fst r = Some true /\
      calls_of evs = map (set_call path) F /\
      Forall (fun r => rc r = 0) (replies_of evs)) \/
     (fst r = Some false /\
      exists (j : nat) rs r0,
        (j < length F)%nat /\
        calls_of evs = map (set_call path) (take (S j) F) /\
        replies_of evs = rs ++ [r0] /\
        Forall (fun r => rc r = 0) rs /\ rc r0 <> 0) \/
     (exists (j : nat) cg,
        F !! j = Some cg /\
        calls_of evs = map (set_call path) (take j F) /\
        Forall (fun r => rc r = 0) (replies_of evs) /\
        ((fst r = Some false /\ 100 < CStr.strlen (subsystem cg)) \/
         (fst r = None /\ CStr.strlen (subsystem cg) = 100)))).
Proof.
  induction l as [|cg l IH]; intros w; cbn zeta; cbn [setup_limits_for List.filter].
  - rewrite bind_eq. exists [EvLog INFO "cgroup limits have been setup"].
    split; [apply log_runs|]. left. cbn. repeat split. constructor.
  - destruct (in_pass dd cg) eqn:Hp; cbn [negb]; [|apply IH].
    destruct (CStr.strlen (subsystem cg) >? 100) eqn:Hlong.
    { exists []. split; [apply runs_nil; reflexivity|]. right. right.
      exists 0%nat, cg. split; [reflexivity|]. split; [reflexivity|].
      split; [constructor|]. left. split; [reflexivity|].
      apply Z.gtb_lt in Hlong. lia. }
    destruct (CStr.strlen (subsystem cg) + 1 >? 100) eqn:Hfull.
    { exists []. split; [apply runs_nil; reflexivity|]. right. right.
      exists 0%nat, cg. split; [reflexivity|]. split; [reflexivity|].
      split; [constructor|]. right. split; [reflexivity|].
      apply Z.gtb_lt in Hfull. rewrite Z.gtb_ltb in Hlong. apply Z.ltb_ge in Hlong.
      lia. }
    cbn zeta. rewrite bind_eq. fold (set_call path cg).
    pose proof (do_call_runs respond (set_call path cg) w) as H0.
    set (r := fst (do_call respond (set_call path cg) w)) in *.
    set (w0 := snd (do_call respond (set_call path cg) w)) in *.
    destruct (rc r =? 0) eqn:Hrc; cbn [negb].
    + rewrite bind_eq.
      pose proof (log_runs respond DEBUG "cgroup set to" w0) as H1.
      set (w1 := snd (log E DEBUG "cgroup set to" w0)) in *.
      destruct (IH w1) as (evs & Hrun & Hcase). cbn zeta in Hrun, Hcase.
      exists (([EvCall (set_call path cg) r] ++ [EvLog DEBUG "cgroup set to"]) ++ evs).
      split; [eapply runs_trans; [eapply runs_trans; eauto | exact Hrun]|].
      apply Z.eqb_eq in Hrc.
      destruct Hcase as [(Hf & Hc & Hr) | [(Hf & j & rs & r0 & Hj & Hc & Hr & Hrs & Hr0)
                        | (j & cg' & Hj & Hc & Hr & Hend)]].
      * left. split; [exact Hf|]. cbn. rewrite Hc. split; [reflexivity|].
        constructor; assumption.
      * right. left. split; [exact Hf|]. exists (S j), (r :: rs), r0.
        cbn. rewrite Hc, Hr. repeat split; auto. lia.
      * right. right. exists (S j), cg'. cbn. rewrite Hc.
        split; [exact Hj|]. split; [reflexivity|]. split; [constructor; assumption|].
        exact Hend.
    + rewrite !bind_eq.
      exists ([EvCall (set_call path cg) r] ++
              [EvLog ERROR "call to cgmanager_set_value_sync failed"] ++
              [EvLog ERROR "Error setting cgroup limit type"]).
      split; [eapply runs_trans; [exact H0|];
              eapply runs_trans; apply log_runs|].
      right. left. split; [reflexivity|]. exists 0%nat, [], r.
      apply Z.eqb_neq in Hrc. cbn. rewrite take_0.
      repeat split; auto. lia.
Qed.

(** cgm_setup_limits once the handle has a path and the connect has
    succeeded. *)
Lemma setup_limits_eq d path cg l dd w :
  cgroup_path d = Some path ->
  fst (cgm_dbus_connect respond w) = true ->
  let wc := snd (cgm_dbus_connect respond w) in
  let loop := setup_limits_for respond (cg :: l) path dd wc in
  cgm_setup_limits respond (Some d) (cg :: l) dd w =
  match fst loop with
  | None => (None, snd loop)
  | Some b => (Some b, snd (cgm_dbus_disconnect (snd loop)))
  end.
Proof.
  intros Hp Hc. cbn zeta. unfold cgm_setup_limits. rewrite Hp, bind_eq, Hc.
  cbn [negb]. rewrite bind_eq.
  destruct (fst (setup_limits_for respond (cg :: l) path dd _)); reflexivity.
Qed.

End Loop.

End LimitsFacts.

Section LimitsTheorems.

Context {E : Type} (respond : E -> call -> reply * E).
Implicit Types (w : world E).

(** Property X11.  With a handle that has a path and a connection that opens,
    cgm_setup_limits with do_devices false writes the settings whose name does
    not begin with devices, with do_devices true the others; it writes them in
    the order of the configuration, to the controller that is the name up to
    its first dot.  It ends in one of three ways: every setting of the pass
    written and accepted, and the result true; a write refused, every write
    before it accepted and none after it, and the result false; or a setting
    with a name of 100 characters or more reached, every setting before it
    written and accepted, neither it nor a later one written, and the result
    not true. *)
Theorem cgm_setup_limits_in_order d path settings dd w :
  cgroup_path d = Some path ->
  settings <> [] ->
  fst (cgm_dbus_connect respond w) = true ->
  let F := List.filter (Limits.in_pass dd) settings in
  let r := Limits.cgm_setup_limits respond (Some d) settings dd w in
  exists evs,
    trace (snd r) = trace (snd (cgm_dbus_connect respond w)) ++ evs /\
    ((fst r = Some true /\
      calls_of evs = map (Limits.set_call path) F /\
      Forall (fun r => rc r = 0) (replies_of evs)) \/
     (fst r = Some false /\
      exists (j : nat) rs r0,
        (j < length F)%nat /\
        calls_of evs = map (Limits.set_call path) (take (S j) F) /\
        replies_of evs = rs ++ [r0] /\
        Forall (fun r => rc r = 0) rs /\ rc r0 <> 0) \/
     (fst r <> Some true /\
      exists (j : nat) cg,
        F !! j = Some cg /\
        100 <= CStr.strlen (Limits.subsystem cg) /\
        calls_of evs = map (Limits.set_call path) (take j F) /\
        Forall (fun r => rc r = 0) (replies_of evs))).
Proof.
  intros Hp Hne Hc F r. destruct settings as [|cg l]; [contradiction|].
  subst r. rewrite (LimitsFacts.setup_limits_eq respond d path cg l dd w Hp Hc).
  cbn zeta.
  destruct (LimitsFacts.setup_limits_for_spec respond path dd (cg :: l)
              (snd (cgm_dbus_connect respond w))) as (evs & [(Ht & _) _] & Hcase).
  cbn zeta in Ht, Hcase. fold F in Hcase.
  set (loop := Limits.setup_limits_for respond (cg :: l) path dd _) in *.
  exists evs.
  destruct Hcase as [(Hf & Hcalls & Hr) | [(Hf & j & rs & r0 & Hj & Hcalls & Hr & Hrs & Hr0)
                    | (j & cg' & Hj & Hcalls & Hr & Hend)]].
  - rewrite Hf. cbn [fst snd]. split; [exact Ht|].
    left. split; [reflexivity|]. split; [exact Hcalls | exact Hr].
  - rewrite Hf. cbn [fst snd]. split; [exact Ht|].
    right. left. split; [reflexivity|]. exists j, rs, r0.
    split; [exact Hj|]. split; [exact Hcalls|]. split; [exact Hr|].
    split; [exact Hrs | exact Hr0].
  - assert (Htr : trace (snd match fst loop with
                             | Some b => (Some b, snd (cgm_dbus_disconnect (snd loop)))
                             | None => (None, snd loop)
                             end) = trace (snd loop)).
    { destruct (fst loop); reflexivity. }
    rewrite Htr. split; [exact Ht|].
    right. right. split.
    + destruct Hend as [[Hf _]|[Hf _]]; rewrite Hf; intros H; discriminate H.
    + exists j, cg'. split; [exact Hj|]. split; [|split; [exact Hcalls | exact Hr]].
      destruct Hend as [[_ Hl]|[_ Hl]]; lia.
Qed.


(** Property X13.  The two passes together: when the pass without the devices
    settings and then the pass with them both return true, every setting of
    the configuration has been written exactly once, the devices settings
    after all the others. *)
Theorem cgm_setup_limits_two_passes d path settings w :
  cgroup_path d = Some path ->
  let r1 := Limits.cgm_setup_limits respond (Some d) settings false w in
  let r2 := Limits.cgm_setup_limits respond (Some d) settings true (snd r1) in
  fst r1 = Some true -> fst r2 = Some true ->
  exists evs,
    trace (snd r2) = trace w ++ evs /\
    List.filter is_set_value (calls_of evs) =
      map (Limits.set_call path)
          (List.filter (Limits.in_pass false) settings ++
           List.filter (Limits.in_pass true) settings) /\
    Permutation (List.filter is_set_value (calls_of evs))
                (map (Limits.set_call path) settings).
Proof.
  intros Hp r1 r2 H1 H2.
  assert (Hperm : Permutation
            (List.filter (Limits.in_pass false) settings ++
             List.filter (Limits.in_pass true) settings) settings).
  { clear. induction settings as [|cg l IH]; [constructor|].
    cbn [List.filter].
    assert (Hneg : Limits.in_pass false cg = negb (Limits.in_pass true cg)).
    { unfold Limits.in_pass.
      destruct (CStr.strncmp "devices" (Limits.subsystem cg) 7 =? 0); reflexivity. }
    rewrite Hneg. destruct (Limits.in_pass true cg); cbn [negb].
    - symmetry. apply Permutation_cons_app. symmetry. exact IH.
    - cbn [app]. constructor. exact IH. }
  destruct settings as [|cg l].
  { exists []. cbn. rewrite app_nil_r. repeat split; constructor. }
  assert (Hpass : forall dd w0,
            fst (Limits.cgm_setup_limits respond (Some d) (cg :: l) dd w0) = Some true ->
            exists evs,
              trace (snd (Limits.cgm_setup_limits respond (Some d) (cg :: l) dd w0)) =
                trace w0 ++ evs /\
              List.filter is_set_value (calls_of evs) =
                map (Limits.set_call path) (List.filter (Limits.in_pass dd) (cg :: l))).
  { intros dd w0 Hres.
    destruct (connect_facts respond w0) as (_ & _ & _ & _ & _ & ce & k & Hct & Hcc & _).
    destruct (fst (cgm_dbus_connect respond w0)) eqn:Hc.
    2:{ unfold Limits.cgm_setup_limits in Hres. rewrite Hp, bind_eq, Hc in Hres.
        cbn [negb] in Hres. rewrite bind_eq in Hres. discriminate Hres. }
    rewrite (LimitsFacts.setup_limits_eq respond d path cg l dd w0 Hp Hc) in *.
    cbn zeta in *.
    destruct (LimitsFacts.setup_limits_for_spec respond path dd (cg :: l)
                (snd (cgm_dbus_connect respond w0))) as (evs & [(Ht & _) _] & Hcase).
    cbn zeta in Ht, Hcase.
    set (loop := Limits.setup_limits_for respond (cg :: l) path dd _) in *.
    destruct Hcase as [(Hf & Hcalls & _) | [(Hf & _) | (j & cg' & _ & _ & _ & [[Hf _]|[Hf _]])]];
      rewrite Hf in Hres |- *; try discriminate Hres.
    exists (ce ++ evs). cbn [snd cgm_dbus_disconnect set_cgroup_manager trace].
    split; [rewrite Ht, Hct, app_assoc; reflexivity|].
    rewrite calls_of_app, List.filter_app, Hcc, Hcalls.
    assert (Hz : List.filter is_set_value
                   (take k [dbus_connection_open_private; nih_dbus_proxy_new;
                            cgmanager_get_api_version_sync]) = []).
    { destruct k as [|[|[|k]]]; try reflexivity.
      cbn [take]. rewrite take_nil. reflexivity. }
    rewrite Hz. cbn [app].
    generalize (List.filter (Limits.in_pass dd) (cg :: l)). clear.
    intros F. induction F as [|x F IH]; [reflexivity|]. cbn. rewrite IH. reflexivity. }
  destruct (Hpass false w H1) as (e1 & Ht1 & Hc1).
  destruct (Hpass true (snd r1) H2) as (e2 & Ht2 & Hc2).
  fold r1 in Ht1, Hc1. fold r2 in Ht2, Hc2.
  exists (e1 ++ e2). split; [rewrite Ht2, Ht1, app_assoc; reflexivity|].
  rewrite calls_of_app, List.filter_app, Hc1, Hc2, <- map_app.
  split; [reflexivity|]. apply Permutation_map. exact Hperm.
Qed.

End LimitsTheorems.

(** ** Operations on a running container *)

Module RunningFacts.
Import Running.

Lemma strrchr_cut_none c s :
  strrchr_cut c s = None -> CStr.after_chr c s = None.
Proof.
  induction s as [|y s IH]; [reflexivity|].
  cbn [strrchr_cut CStr.after_chr].
  destruct (strrchr_cut c s) as [[a' b']|]; [discriminate|].
  destruct (Ascii.eqb y c); [discriminate|]. intros _. apply IH. reflexivity.
Qed.

(** The cut is at the character, and nothing after it holds one. *)
Lemma strrchr_cut_spec c s a b :
  strrchr_cut c s = Some (a, b) ->
  s = a +:+ String c b /\ CStr.after_chr c b = None.
Proof.
  revert a. induction s as [|x s IH]; intros a H; [discriminate|].
  cbn [strrchr_cut] in H.
  destruct (strrchr_cut c s) as [[a' b']|] eqn:Hs.
  - inversion H; subst. destruct (IH a' eq_refl) as [-> Hb].
    rewrite StrFacts.append_cons. auto.
  - destruct (Ascii.eqb x c) eqn:Hx; [|discriminate].
    apply Ascii.eqb_eq in Hx. subst x.
    assert (Ha : a = EmptyString) by congruence.
    assert (Hb : b = s) by congruence. subst a b.
    split; [reflexivity|]. apply strrchr_cut_none. exact Hs.
Qed.

Section Steps.

Context {E : Type} (respond : E -> call -> reply * E).
Context (HAVE : bool)
        (init_pid : E -> string -> string -> Z)
        (cmd_path : E -> string -> string -> string -> option string)
        (abs_sync : E -> string -> Z -> Z * option string).
Implicit Types (w : world E).

Lemma supported_eq w :
  abs_cgroup_supported HAVE w =
  (HAVE && (api_version w >=? CGM_SUPPORTS_GET_ABS), w).
Proof. reflexivity. Qed.

Lemma first_subsystem_eq w :
  first_subsystem w = (default "" (default [] (subsystems w) !! 0%nat), w).
Proof. reflexivity. Qed.

Lemma lookup_pure name lxcpath controller w :
  snd (try_get_abs_cgroup HAVE init_pid cmd_path abs_sync name lxcpath controller w) = w.
Proof.
  unfold try_get_abs_cgroup. rewrite bind_eq, supported_eq. cbn [fst snd].
  rewrite bind_eq. cbn [get fst snd].
  destruct (HAVE && _); [|reflexivity].
  destruct (_ <? 0); [reflexivity|].
  destruct (abs_sync _ _ _) as [r cg]. destruct (negb _); reflexivity.
Qed.

(** A move that succeeds leaves its call in the log and nothing else. *)
Lemma enter_step pid s p abs w :
  let r := fst (do_call respond (mv abs pid p s) w) in
  let w' := snd (do_call respond (mv abs pid p s) w) in
  lxc_cgmanager_enter respond pid s p abs w =
  if rc r =? 0 then (true, w')
  else (false, snd (log E ERROR "call to cgmanager_move_pid_sync failed" w')).
Proof.
  cbn zeta. unfold lxc_cgmanager_enter. rewrite bind_eq. fold (mv abs pid p s).
  destruct (rc _ =? 0); cbn [negb]; [reflexivity|]. rewrite bind_eq. reflexivity.
Qed.

Lemma set_fails_eq wr w :
  fst (set_fails wr w) = ChildEnd 0 None 1 /\
  cgroup_manager (snd (set_fails wr w)) = cgroup_manager w.
Proof.
  unfold set_fails. rewrite bind_eq. destruct (negb _); split; reflexivity.
Qed.

Lemma get_fails_eq wr w :
  fst (get_fails wr w) = ChildEnd (-1) None 1 /\
  cgroup_manager (snd (get_fails wr w)) = cgroup_manager w.
Proof.
  unfold get_fails. rewrite bind_eq. destruct (negb _); split; reflexivity.
Qed.

End Steps.

End RunningFacts.

Section RunningTheorems.

Context {E : Type} (respond : E -> call -> reply * E).
Context (HAVE : bool)
        (init_pid : E -> string -> string -> Z)
        (cmd_path : E -> string -> string -> string -> option string)
        (abs_sync : E -> string -> Z -> Z * option string)
        (get_value : E -> string -> string -> string -> Z * string).
Implicit Types (w : world E).


Ltac failed :=
  match goal with
  | Hone : forall x : Running.child_end, _, Hparent : forall io, _ |-
      (Running.sent_int (fst ?X) = 0 \/ _) /\ _ =>
      let Hx := fresh "Hx" in
      assert (Hx : fst X = Running.ChildEnd 0 None 1)
        by (rewrite ?bind_eq; cbn [ret fst snd]; apply RunningFacts.set_fails_eq);
      destruct (Hone (fst X) Hx) as (? & ? & ?);
      split; [assumption|]; split; [assumption|]; split; [exact Hparent|];
      intros; contradiction
  end.

(** Property X15.  The child of cgm_set hands 1 to the parent only after the
    daemon has accepted the write, and 0 on every failure.  When it hands over
    1 it has connected, moved itself into the directory above the container's
    cgroup for the controller named before the first dot of the file name, and
    written the value to the file in the last component of the cgroup; these
    are its only calls after the connect.  It exits with 0 exactly when it
    handed over 1 and the write to the pipe was complete.  The parent returns
    0 exactly when it reads a whole int that is not 0: so cgm_set returns 0
    only when the daemon accepted the value. *)
Theorem cgm_set_reports_the_daemon name lxcpath filename value (wr : Z) w :
  let c := Running.do_cgm_set respond HAVE init_pid cmd_path abs_sync
             name lxcpath filename value wr w in
  let wc := snd (cgm_dbus_connect respond w) in
  let abs := HAVE && (api_version wc >=? CGM_SUPPORTS_GET_ABS) in
  (Running.sent_int (fst c) = 0 \/ Running.sent_int (fst c) = 1) /\
  (Running.exit_status (fst c) = 0 <-> Running.sent_int (fst c) = 1 /\ wr = 4) /\
  (forall io, Running.cgm_set io = Some 0 <->
              0 <= Running.pipe_rc io /\ 0 < Running.fork_rc io /\
              Running.rd_rc io = 4 /\ Running.rd io <> 0) /\
  (Running.sent_int (fst c) = 1 ->
   exists cgroup dir cglast me r1 r2,
     fst (cgm_dbus_connect respond w) = true /\
     fst (Running.try_get_abs_cgroup HAVE init_pid cmd_path abs_sync name lxcpath
            (default "" (default [] (subsystems wc) !! 0%nat)) wc) = Some cgroup /\
     cgroup = dir +:+ String "/" cglast /\ CStr.after_chr "/" cglast = None /\
     trace (snd c) =
       trace wc ++
       [EvCall sys_getpid me;
        EvCall (mv abs (rc me) dir (CStr.before_chr "." filename)) r1;
        EvCall (cgmanager_set_value_sync (CStr.before_chr "." filename) cglast
                  filename value) r2] /\
     rc r1 = 0 /\ rc r2 = 0).
Proof.
  cbn zeta.
  set (c := Running.do_cgm_set _ _ _ _ _ _ _ _ _ _ _).
  assert (Hparent : forall io, Running.cgm_set io = Some 0 <->
              0 <= Running.pipe_rc io /\ 0 < Running.fork_rc io /\
              Running.rd_rc io = 4 /\ Running.rd io <> 0).
  { intros io. unfold Running.cgm_set.
    destruct (Running.pipe_rc io <? 0) eqn:H1;
      [apply Z.ltb_lt in H1; split; [discriminate | lia]|].
    destruct (Running.fork_rc io <? 0) eqn:H2;
      [apply Z.ltb_lt in H2; split; [discriminate | lia]|].
    destruct (Running.fork_rc io =? 0) eqn:H3;
      [apply Z.eqb_eq in H3; split; [discriminate | lia]|].
    apply Z.ltb_ge in H1, H2. apply Z.eqb_neq in H3.
    destruct (Running.rd_rc io =? 4) eqn:H4; cbn [negb orb].
    - apply Z.eqb_eq in H4.
      destruct (Running.rd io =? 0) eqn:H5.
      + apply Z.eqb_eq in H5. split; [discriminate | lia].
      + apply Z.eqb_neq in H5. split; [intros _; lia | reflexivity].
    - apply Z.eqb_neq in H4. split; [discriminate | lia]. }
  assert (Hone : forall x : Running.child_end,
            x = Running.ChildEnd 0 None 1 ->
            (Running.sent_int x = 0 \/ Running.sent_int x = 1) /\
            (Running.exit_status x = 0 <-> Running.sent_int x = 1 /\ wr = 4) /\
            Running.sent_int x <> 1).
  { intros x ->. cbn. split; [left; reflexivity|].
    split; [split; [discriminate | intros [H1 _]; discriminate] | discriminate]. }
  subst c. unfold Running.do_cgm_set.
  destruct (CStr.after_chr "." filename) as [key|];
    [|failed].
  cbn zeta. rewrite bind_eq.
  set (wc := snd (cgm_dbus_connect respond w)).
  destruct (fst (cgm_dbus_connect respond w)) eqn:Hc; cbn [negb].
  2:{ failed. }
  rewrite bind_eq, RunningFacts.first_subsystem_eq. cbn [fst snd].
  rewrite bind_eq, RunningFacts.lookup_pure.
  destruct (fst (Running.try_get_abs_cgroup HAVE init_pid cmd_path abs_sync name lxcpath _ wc))
    as [cgroup|] eqn:Hcg.
  2:{ failed. }
  destruct (Running.strrchr_cut "/" cgroup) as [[dir cglast]|] eqn:Hcut.
  2:{ failed. }
  rewrite bind_eq.
  pose proof (do_call_runs respond sys_getpid wc) as [(Ht1 & _ & _ & Ha1) _].
  set (me := fst (do_call respond sys_getpid wc)) in *.
  set (w1 := snd (do_call respond sys_getpid wc)) in *.
  rewrite bind_eq, RunningFacts.supported_eq. cbn [fst snd]. rewrite Ha1.
  set (abs := HAVE && (api_version wc >=? CGM_SUPPORTS_GET_ABS)).
  rewrite bind_eq, (RunningFacts.enter_step respond). cbn zeta.
  pose proof (do_call_runs respond
                (mv abs (rc me) dir (CStr.before_chr "." filename)) w1)
    as [(Ht2 & _) _].
  set (r1 := fst (do_call respond (mv abs (rc me) dir _) w1)) in *.
  set (w2 := snd (do_call respond (mv abs (rc me) dir _) w1)) in *.
  destruct (rc r1 =? 0) eqn:Hr1; cbn [fst snd negb].
  2:{ failed. }
  rewrite bind_eq.
  pose proof (do_call_runs respond
                (cgmanager_set_value_sync (CStr.before_chr "." filename) cglast
                   filename value) w2) as [(Ht3 & _) _].
  set (r2 := fst (do_call respond (cgmanager_set_value_sync _ _ _ _) w2)) in *.
  set (w3 := snd (do_call respond (cgmanager_set_value_sync _ _ _ _) w2)) in *.
  destruct (rc r2 =? 0) eqn:Hr2; cbn [negb].
  2:{ failed. }
  rewrite bind_eq. cbn [ret fst snd Running.sent_int Running.exit_status].
  split; [right; reflexivity|]. split.
  { destruct (wr =? 4) eqn:Hw; cbn [negb].
    - apply Z.eqb_eq in Hw. split; auto.
    - apply Z.eqb_neq in Hw. split; [discriminate | intros [_ H]; contradiction]. }
  split; [exact Hparent|]. intros _.
  destruct (RunningFacts.strrchr_cut_spec "/" cgroup dir cglast Hcut) as [Hs Hn].
  exists cgroup, dir, cglast, me, r1, r2.
  split; [reflexivity|]. split; [reflexivity|]. split; [exact Hs|]. split; [exact Hn|].
  split; [|split; apply Z.eqb_eq; assumption].
  cbn [cgm_dbus_disconnect set_cgroup_manager snd trace].
  rewrite Ht3, Ht2, Ht1, <- !app_assoc. reflexivity.
Qed.

End RunningTheorems.

(** ** cgm_mount_cgroup *)

Section MountFacts.

Context {F : Type} (fs : F -> Mount.fs_call -> Z * F).

(** One way through cgm_bind_dir, its calls made and their answers named:
    the answers are put in place and the tests evaluated. *)
Ltac mount_case :=
  split; [lia|];
  split; [reflexivity|];
  cbn [take fold_left app zip_with Mount.answers Mount.passed fst snd
       replicate Nat.sub];
  repeat match goal with
         | H : fs _ _ = _ |- _ => rewrite !H; cbn [fst snd]
         end;
  repeat match goal with
         | H : (_ =? _) = _ |- _ => rewrite !H
         | H : (_ <? _) = _ |- _ => rewrite !H
         end;
  cbn [negb];
  split; [reflexivity|];
  split; [reflexivity|];
  split; [split; [intros H; try discriminate H; split; reflexivity
                 | intros [Hk Ho]; first [reflexivity | discriminate Hk | discriminate Ho]]
         | intros H; first [discriminate H | reflexivity]].

(** Property X16. cgm_mount_cgroup looks for the lower socket directory first
    and for the upper one only when the lower is missing; with neither it
    returns false and touches nothing.  Otherwise it checks that sys/fs/cgroup
    exists under the root, mounts a tmpfs there, creates the directory
    cgmanager in it and bind-mounts the socket directory it found onto that,
    in this order.  Every one of these calls but the last it makes has passed
    its test; it returns true exactly when it has made all four and all four
    passed, and false with the last call it made failed otherwise, and it
    undoes nothing. *)
Theorem cgm_mount_cgroup_plan hdata root (type : Z) (f : F) :
  let r := Mount.cgm_mount_cgroup fs hdata root type (f, []) in
  let calls := snd (snd r) in
  let lower := negb (fst (fs f (Mount.dir_exists Mount.CGMANAGER_LOWER_SOCK)) =? 0) in
  let upper :=
    negb (fst (fs (snd (fs f (Mount.dir_exists Mount.CGMANAGER_LOWER_SOCK)))
                  (Mount.dir_exists Mount.CGMANAGER_UPPER_SOCK)) =? 0) in
  let probes :=
    if lower then [Mount.dir_exists Mount.CGMANAGER_LOWER_SOCK]
    else [Mount.dir_exists Mount.CGMANAGER_LOWER_SOCK;
          Mount.dir_exists Mount.CGMANAGER_UPPER_SOCK] in
  let src := if lower then Mount.CGMANAGER_LOWER_SOCK else Mount.CGMANAGER_UPPER_SOCK in
  let steps :=
    [Mount.dir_exists (root +:+ "/sys/fs/cgroup");
     Mount.sys_mount "cgroup" (root +:+ "/sys/fs/cgroup") "tmpfs" 0
       (Some "size=10000,mode=755");
     Mount.sys_mkdir ((root +:+ "/sys/fs/cgroup") +:+ "/cgmanager") 493;
     Mount.sys_mount src ((root +:+ "/sys/fs/cgroup") +:+ "/cgmanager") "none"
       Mount.MS_BIND None] in
  let f0 := fold_left (fun s c => snd (fs s c)) probes f in
  (lower || upper = false -> fst r = false /\ calls = probes) /\
  (lower || upper = true ->
   exists k : nat,
     (1 <= k <= 4)%nat /\
     calls = probes ++ take k steps /\
     fst (snd r) = fold_left (fun s c => snd (fs s c)) calls f /\
     let oks := zip_with Mount.passed (take k steps)
                  (Mount.answers fs f0 (take k steps)) in
     take (k - 1) oks = replicate (k - 1) true /\
     (fst r = true <-> k = 4%nat /\ oks = [true; true; true; true]) /\
     (fst r = false -> oks !! (k - 1)%nat = Some false)).
Proof.
  cbn zeta. unfold Mount.cgm_mount_cgroup, Mount.cgm_bind_dir, Mount.fs_bind,
    Mount.fs_do, Mount.fs_ret. cbn -[take fold_left zip_with Mount.answers].
  destruct (fs f (Mount.dir_exists Mount.CGMANAGER_LOWER_SOCK)) as [l f1] eqn:H1.
  cbn -[take fold_left zip_with Mount.answers].
  destruct (l =? 0) eqn:Hl; cbn -[take fold_left zip_with Mount.answers].
  - destruct (fs f1 (Mount.dir_exists Mount.CGMANAGER_UPPER_SOCK)) as [u f2] eqn:H2.
    cbn -[take fold_left zip_with Mount.answers].
    destruct (u =? 0) eqn:Hu; cbn -[take fold_left zip_with Mount.answers].
    + split; [auto | intros H; discriminate H].
    + split; [intros H; discriminate H | intros _].
      cbn [fold_left]. rewrite H1. cbn [snd]. rewrite H2. cbn [snd].
      destruct (fs f2 (Mount.dir_exists _)) as [a f3] eqn:H3.
      cbn -[take fold_left zip_with Mount.answers].
      destruct (a =? 0) eqn:Ha; cbn -[take fold_left zip_with Mount.answers].
      { exists 1%nat. mount_case. }
      destruct (fs f3 (Mount.sys_mount "cgroup" _ _ _ _)) as [b f4] eqn:H4.
      cbn -[take fold_left zip_with Mount.answers].
      destruct (b =? 0) eqn:Hb; cbn -[take fold_left zip_with Mount.answers].
      2:{ exists 2%nat. mount_case. }
      destruct (fs f4 (Mount.sys_mkdir _ _)) as [c f5] eqn:H5.
      cbn -[take fold_left zip_with Mount.answers].
      destruct (c <? 0) eqn:Hc; cbn -[take fold_left zip_with Mount.answers].
      { exists 3%nat. mount_case. }
      destruct (fs f5 (Mount.sys_mount _ _ "none" _ _)) as [d f6] eqn:H6.
      cbn -[take fold_left zip_with Mount.answers].
      destruct (d =? 0) eqn:Hd; cbn -[take fold_left zip_with Mount.answers];
        exists 4%nat; mount_case.
  - split; [intros H; discriminate H | intros _].
    cbn [fold_left]. rewrite H1. cbn [snd].
    destruct (fs f1 (Mount.dir_exists _)) as [a f3] eqn:H3.
    cbn -[take fold_left zip_with Mount.answers].
    destruct (a =? 0) eqn:Ha; cbn -[take fold_left zip_with Mount.answers].
    { exists 1%nat. mount_case. }
    destruct (fs f3 (Mount.sys_mount "cgroup" _ _ _ _)) as [b f4] eqn:H4.
    cbn -[take fold_left zip_with Mount.answers].
    destruct (b =? 0) eqn:Hb; cbn -[take fold_left zip_with Mount.answers].
    2:{ exists 2%nat. mount_case. }
    destruct (fs f4 (Mount.sys_mkdir _ _)) as [c f5] eqn:H5.
    cbn -[take fold_left zip_with Mount.answers].
    destruct (c <? 0) eqn:Hc; cbn -[take fold_left zip_with Mount.answers].
    { exists 3%nat. mount_case. }
    destruct (fs f5 (Mount.sys_mount _ _ "none" _ _)) as [d f6] eqn:H6.
    cbn -[take fold_left zip_with Mount.answers].
    destruct (d =? 0) eqn:Hd; cbn -[take fold_left zip_with Mount.answers];
      exists 4%nat; mount_case.
Qed.

End MountFacts.

(** ** cgm_get from the daemon to the caller's buffer *)

Module PipeFacts.
Import Get Running.

Lemma length_bytes s :
  length (list_byte_of_string s) = String.length s.
Proof.
  unfold list_byte_of_string. rewrite length_map.
  induction s as [|c s IH]; cbn; [reflexivity | rewrite IH; reflexivity].
Qed.

(** The parent of cgm_get on a pipe that holds a length and the bytes of
    the value, as many of them as the parent asks for. *)
Lemma parent_frames (bs there buf : list byte) (len pid : Z) :
  0 < pid -> 0 < len < 2147483648 -> length buf = Z.to_nat len ->
  Z.of_nat (length bs) < 2147483648 ->
  take (Z.to_nat (Z.min (Z.of_nat (length bs)) len)) there =
    take (Z.to_nat (Z.min (Z.of_nat (length bs)) len)) bs ->
  exists rest,
    cgm_get (PipeIO 0 pid 4 (Z.of_nat (length bs)) (Some there)) (Some buf) len =
    Some (fst (framed bs len), Some (snd (framed bs len)), rest).
Proof.
  intros Hpid Hlen Hbuf Hn Hsame. unfold cgm_get, cgm_get_parent, framed.
  cbn [Get.pipe_rc Get.fork_rc hdr_rc hdr body]. cbn zeta.
  change (0 <? 0) with false. cbn iota.
  replace (pid <? 0) with false by (symmetry; apply Z.ltb_ge; lia).
  replace (pid =? 0) with false by (symmetry; apply Z.eqb_neq; lia).
  change (negb (4 =? 4)) with false. cbn iota.
  replace (len =? 0) with false by (symmetry; apply Z.eqb_neq; lia).
  rewrite drop_ge, app_nil_r by lia.
  set (n := Z.of_nat (length bs)) in *.
  replace (n <? 0) with false by (symmetry; apply Z.ltb_ge; lia).
  destruct (n =? 0) eqn:E0; [eexists; reflexivity|].
  apply Z.eqb_neq in E0.
  rewrite GetFacts.readlen_min by lia.
  unfold read_body. cbn zeta.
  set (m := Z.min n len) in *.
  rewrite Hsame.
  set (got := take (Z.to_nat m) bs) in *.
  assert (Hgot : Z.of_nat (length got) = m).
  { unfold got. rewrite length_take. lia. }
  rewrite GetFacts.int_small by lia.
  replace (Z.of_nat (length got) =? m) with true by (symmetry; apply Z.eqb_eq; exact Hgot).
  cbn [negb]. rewrite GetFacts.size_t_small by lia.
  rewrite Z.geb_leb.
  destruct (len <=? n) eqn:E1.
  - apply Z.leb_le in E1. rewrite GetFacts.int_small by lia.
    eexists. apply f_equal.
    apply (f_equal2 pair); [apply (f_equal2 pair); [reflexivity | apply f_equal] | reflexivity].
    assert (Hlg : length got = Z.to_nat len) by lia.
    rewrite Hlg, drop_replicate, Nat.sub_diag. cbn [replicate].
    rewrite app_nil_r.
    rewrite insert_take_drop by lia.
    rewrite drop_ge by lia.
    cbn [snd]. unfold got. rewrite take_take. f_equal. f_equal. lia.
  - apply Z.leb_gt in E1.
    assert (Hm : m = n) by lia.
    assert (Hall : got = bs).
    { unfold got. apply take_ge. lia. }
    assert (Hlg : length got = Z.to_nat n) by lia.
    destruct (n + 1 <? len) eqn:E2.
    + apply Z.ltb_lt in E2.
      rewrite GetFacts.int_small by lia. rewrite GetFacts.size_t_small by lia.
      replace (n + 1 <? len) with true by (symmetry; apply Z.ltb_lt; lia).
      eexists. apply f_equal.
    apply (f_equal2 pair); [apply (f_equal2 pair); [reflexivity | apply f_equal] | reflexivity].
      rewrite drop_replicate, Hlg.
      replace (Z.to_nat len - Z.to_nat n)%nat
        with (S (S (Z.to_nat (len - n - 1) - 1))) by lia.
      rewrite (insert_app_r_alt got _ (Z.to_nat n)) by lia.
      rewrite Hlg, Nat.sub_diag. cbn [replicate].
      rewrite insert_app_r_alt by lia.
      rewrite Hlg.
      replace (Z.to_nat (n + 1) - Z.to_nat n)%nat with 1%nat by lia.
      cbn. rewrite Hall.
      replace (Z.to_nat (len - n - 1)) with (S (Z.to_nat (len - n - 1) - 1)) at 2 by lia.
      reflexivity.
    + apply Z.ltb_ge in E2. assert (Hlen1 : len = n + 1) by lia.
      rewrite GetFacts.int_small by lia. rewrite GetFacts.size_t_small by lia.
      replace (n + 1 <? len) with false by (symmetry; apply Z.ltb_ge; lia).
      eexists. apply f_equal.
    apply (f_equal2 pair); [apply (f_equal2 pair); [reflexivity | apply f_equal] | reflexivity].
      rewrite drop_replicate, Hlg, Hall.
      replace (Z.to_nat len - Z.to_nat n)%nat with 1%nat by lia.
      reflexivity.
Qed.

(** The parent of cgm_get on a pipe that holds a length and fewer bytes
    than the parent asks for. *)
Lemma parent_short (there buf : list byte) (n len pid : Z) :
  0 < pid -> 0 < len < 2147483648 -> length buf = Z.to_nat len ->
  0 < n < 2147483648 ->
  Z.of_nat (length there) < Z.min n len ->
  exists b rest,
    cgm_get (PipeIO 0 pid 4 n (Some there)) (Some buf) len = Some (-1, b, rest).
Proof.
  intros Hpid Hlen Hbuf Hn Hshort. unfold cgm_get, cgm_get_parent.
  cbn [Get.pipe_rc Get.fork_rc hdr_rc hdr body]. cbn zeta.
  change (0 <? 0) with false. cbn iota.
  replace (pid <? 0) with false by (symmetry; apply Z.ltb_ge; lia).
  replace (pid =? 0) with false by (symmetry; apply Z.eqb_neq; lia).
  change (negb (4 =? 4)) with false. cbn iota.
  replace (len =? 0) with false by (symmetry; apply Z.eqb_neq; lia).
  replace (n <? 0) with false by (symmetry; apply Z.ltb_ge; lia).
  replace (n =? 0) with false by (symmetry; apply Z.eqb_neq; lia).
  rewrite GetFacts.readlen_min by lia.
  unfold read_body. cbn zeta.
  set (got := take (Z.to_nat (Z.min n len)) there).
  assert (Hgot : Z.of_nat (length got) = Z.of_nat (length there)).
  { unfold got. rewrite length_take. lia. }
  rewrite GetFacts.int_small by lia.
  replace (Z.of_nat (length got) =? Z.min n len) with false
    by (symmetry; apply Z.eqb_neq; lia).
  cbn [negb]. eexists _, _. reflexivity.
Qed.

(** The parent of cgm_get on a pipe that holds the error value. *)
Lemma parent_error (buf : list byte) (len pid wr2 : Z) (avail : nat) :
  0 < pid -> 0 < len -> length buf = Z.to_nat len ->
  cgm_get (pipe_of pid (ChildEnd (-1) None 1) wr2 avail) (Some buf) len =
  Some (-1, Some (replicate (Z.to_nat len) x00), Some []).
Proof.
  intros Hpid Hlen Hbuf. unfold pipe_of, cgm_get, cgm_get_parent.
  cbn [Get.pipe_rc Get.fork_rc hdr_rc hdr body sent_int sent_bytes]. cbn zeta.
  rewrite take_nil.
  change (0 <? 0) with false. cbn iota.
  replace (pid <? 0) with false by (symmetry; apply Z.ltb_ge; lia).
  replace (pid =? 0) with false by (symmetry; apply Z.eqb_neq; lia).
  change (negb (4 =? 4)) with false. cbn iota.
  replace (len =? 0) with false by (symmetry; apply Z.eqb_neq; lia).
  rewrite drop_ge, app_nil_r by lia. reflexivity.
Qed.

End PipeFacts.

Section EndToEnd.

Context {E : Type} (respond : E -> call -> reply * E).
Context (HAVE : bool)
        (init_pid : E -> string -> string -> Z)
        (cmd_path : E -> string -> string -> string -> option string)
        (abs_sync : E -> string -> Z -> Z * option string)
        (get_value : E -> string -> string -> string -> Z * string).
Implicit Types (w : world E).

Ltac get_failed :=
  match goal with
  | Hone : forall x : Running.child_end, _ |-
      (Running.sent_int (fst ?X) = -1 /\ _) \/ _ =>
      let Hx := fresh "Hx" in
      assert (Hx : fst X = Running.ChildEnd (-1) None 1)
        by (rewrite ?bind_eq; cbn [ret fst snd]; apply RunningFacts.get_fails_eq);
      left; rewrite Hx; apply Hone; reflexivity
  end.

(** Property X17. cgm_get from end to end, with a buffer of len bytes, len
    below 2^31, and the child's write of the length complete.  Either the
    child reports -1, and then the parent returns -1; or the child has
    connected, moved itself into the directory above the container's cgroup,
    and asked the daemon for the file in the last component of the cgroup.
    Then, for an answer shorter than 2^31 bytes: when the answer is empty, or
    the pipe holds the min(len, length) bytes the parent asks for when it
    reads, the caller's buffer holds the daemon's answer, cut to len - 1 bytes
    and a NUL when it does not fit, followed by a newline when there is room
    for it, and the return value is the number of bytes before the final NUL;
    when the pipe holds fewer bytes, the parent returns -1. *)
Theorem cgm_get_end_to_end name lxcpath filename (buf : list byte)
    (len pid wr2 : Z) (avail : nat) w :
  0 < pid -> 0 < len < 2147483648 -> length buf = Z.to_nat len ->
  let c := Running.do_cgm_get respond HAVE init_pid cmd_path abs_sync get_value
             name lxcpath filename true 4 wr2 w in
  let wc := snd (cgm_dbus_connect respond w) in
  let abs := HAVE && (api_version wc >=? CGM_SUPPORTS_GET_ABS) in
  let parent := Get.cgm_get (Running.pipe_of pid (fst c) wr2 avail) (Some buf) len in
  (Running.sent_int (fst c) = -1 /\
   parent = Some (-1, Some (replicate (Z.to_nat len) x00), Some [])) \/
  (exists cgroup dir cglast me r1 v,
     fst (Running.try_get_abs_cgroup HAVE init_pid cmd_path abs_sync name lxcpath
            (default "" (default [] (subsystems wc) !! 0%nat)) wc) = Some cgroup /\
     cgroup = dir +:+ String "/" cglast /\
     trace (snd c) =
       trace wc ++
       [EvCall sys_getpid me;
        EvCall (mv abs (rc me) dir (CStr.before_chr "." filename)) r1] /\
     rc r1 = 0 /\
     get_value (env (snd c)) (CStr.before_chr "." filename) cglast filename = (0, v) /\
     (CStr.strlen v < 2147483648 ->
      let there := Z.of_nat (Nat.min avail (Z.to_nat wr2)) in
      (CStr.strlen v = 0 \/ Z.min (CStr.strlen v) len <= there ->
       exists rest,
         parent =
         Some (fst (Running.framed (list_byte_of_string v) len),
               Some (snd (Running.framed (list_byte_of_string v) len)), rest)) /\
      (0 < CStr.strlen v -> there < Z.min (CStr.strlen v) len ->
       exists b rest, parent = Some (-1, b, rest)))).
Proof.
  intros Hpid Hlen Hbuf. cbn zeta.
  assert (Hone : forall x : Running.child_end,
            x = Running.ChildEnd (-1) None 1 ->
            Running.sent_int x = -1 /\
            Get.cgm_get (Running.pipe_of pid x wr2 avail) (Some buf) len =
              Some (-1, Some (replicate (Z.to_nat len) x00), Some [])).
  { intros x ->. split; [reflexivity|].
    apply PipeFacts.parent_error; [exact Hpid | lia | exact Hbuf]. }
  unfold Running.do_cgm_get.
  destruct (CStr.after_chr "." filename) as [key|]; [|get_failed].
  cbn zeta. rewrite bind_eq.
  set (wc := snd (cgm_dbus_connect respond w)).
  destruct (fst (cgm_dbus_connect respond w)) eqn:Hc; cbn [negb]; [|get_failed].
  rewrite bind_eq, RunningFacts.first_subsystem_eq. cbn [fst snd].
  rewrite bind_eq, RunningFacts.lookup_pure.
  destruct (fst (Running.try_get_abs_cgroup HAVE init_pid cmd_path abs_sync name lxcpath _ wc))
    as [cgroup|] eqn:Hcg; [|get_failed].
  destruct (Running.strrchr_cut "/" cgroup) as [[dir cglast]|] eqn:Hcut; [|get_failed].
  rewrite bind_eq.
  pose proof (do_call_runs respond sys_getpid wc) as [(Ht1 & _ & _ & Ha1) _].
  set (me := fst (do_call respond sys_getpid wc)) in *.
  set (w1 := snd (do_call respond sys_getpid wc)) in *.
  rewrite bind_eq, RunningFacts.supported_eq. cbn [fst snd]. rewrite Ha1.
  set (abs := HAVE && (api_version wc >=? CGM_SUPPORTS_GET_ABS)).
  rewrite bind_eq, (RunningFacts.enter_step respond). cbn zeta.
  pose proof (do_call_runs respond
                (mv abs (rc me) dir (CStr.before_chr "." filename)) w1)
    as [(Ht2 & _) _].
  set (r1 := fst (do_call respond (mv abs (rc me) dir _) w1)) in *.
  set (w2 := snd (do_call respond (mv abs (rc me) dir _) w1)) in *.
  destruct (rc r1 =? 0) eqn:Hr1; cbn [fst snd negb]; [|get_failed].
  rewrite bind_eq. cbn [get fst snd].
  destruct (get_value (env w2) (CStr.before_chr "." filename) cglast filename)
    as [rv v] eqn:Hv.
  destruct (rv =? 0) eqn:Hrv; cbn [negb]; [|get_failed].
  apply Z.eqb_eq in Hrv. subst rv.
  right.
  destruct (RunningFacts.strrchr_cut_spec "/" cgroup dir cglast Hcut) as [Hs _].
  exists cgroup, dir, cglast, me, r1, v.
  rewrite bind_eq. change (negb (4 =? 4)) with false. cbn iota.
  match goal with
  | |- context [(if ?b then ?m1 else ?m2) ?x] =>
      set (res := (if b then m1 else m2) x)
  end.
  assert (Hw : snd res = snd (cgm_dbus_disconnect w2)).
  { subst res. destruct (_ || _); reflexivity. }
  set (k := Nat.min avail (Z.to_nat wr2)).
  assert (Hl : Z.of_nat (length (list_byte_of_string v)) = CStr.strlen v).
  { rewrite PipeFacts.length_bytes. reflexivity. }
  assert (Hf : CStr.strlen v < 2147483648 ->
               Running.pipe_of pid (fst res) wr2 avail =
               Get.PipeIO 0 pid 4 (Z.of_nat (length (list_byte_of_string v)))
                 (Some (take k (list_byte_of_string v)))).
  { intros Hsmall. subst res.
    assert (Hi : Get.int (CStr.strlen v) = CStr.strlen v).
    { apply GetFacts.int_small. unfold CStr.strlen in *. lia. }
    rewrite Hi, Hl.
    destruct (CStr.strlen v =? 0) eqn:H0; cbn [orb negb]; unfold Running.pipe_of;
      cbn [ret fst Running.sent_int Running.sent_bytes]; fold k; [|reflexivity].
    apply Z.eqb_eq in H0. rewrite H0.
    destruct v; [reflexivity|]. unfold CStr.strlen in H0. cbn in H0. lia. }
  clearbody res.
  split; [reflexivity|]. split; [exact Hs|].
  rewrite Hw. cbn [cgm_dbus_disconnect set_cgroup_manager snd trace env].
  split; [rewrite Ht2, Ht1, <- app_assoc; reflexivity|].
  split; [apply Z.eqb_eq; exact Hr1|]. split; [exact Hv|].
  intros Hsmall. rewrite (Hf Hsmall). split.
  - intros Hthere.
    apply PipeFacts.parent_frames; try assumption; [lia|].
    rewrite take_take. f_equal.
    destruct Hthere as [H0 | Hk]; [|lia].
    rewrite Hl, H0. lia.
  - intros Hpos Hk.
    apply PipeFacts.parent_short; try assumption; [lia|].
    rewrite length_take. lia.
Qed.

End EndToEnd.

(** ** The further properties at concrete inputs *)

Lemma connect_keeps_kernel_controllers_witness :
  List.filter (fun s => negb (is_named s))
    (registry (snd (cgm_dbus_connect (Double.respond 3) Example.named))) =
  List.filter (fun s => negb (is_named s)) (registry Example.named).
Proof.
  refine (proj1 (proj2 (proj2
            (connect_keeps_kernel_controllers (Double.respond 3) Example.named _)))).
  unfold in_bounds. cbn. lia.
Defined.

Lemma connect_culls_named_when_apart_witness :
  registry (snd (cgm_dbus_connect (Double.respond 3) Sample.apart)) =
  List.filter (fun s => negb (is_named s)) (registry Sample.apart).
Proof.
  refine (proj1 (connect_culls_named_when_apart (Double.respond 3) Sample.apart
                   _ _ _ _)).
  - unfold in_bounds. cbn. lia.
  - reflexivity.
  - reflexivity.
  - reflexivity.
Defined.

Lemma create_then_enter_on_double_witness :
  exists d',
    fst (cgm_create (Double.respond 4) (Some Example.fresh) Example.crowded) =
      (true, Some d') /\
    cgroup_path d' = Some (candidate "/lxc/c1" 2) /\
    fst (cgm_enter (Double.respond 4) (Some d') 7
           (snd (cgm_create (Double.respond 4) (Some Example.fresh) Example.crowded)))
      = true.
Proof.
  refine (create_then_enter_on_double 4 Example.fresh "/lxc/c1" 2 7 Example.crowded
            _ _ _ _ _ _ _ _).
  - unfold in_bounds. cbn. lia.
  - by_decide.
  - reflexivity.
  - reflexivity.
  - lia.
  - right. reflexivity.
  - intros i Hi. assert (i = 0 \/ i = 1) as [-> | ->] by lia.
    + exists "cpu". split; by_decide.
    + exists "memory". split; by_decide.
  - intros s Hs.
    apply elem_of_cons in Hs as [-> | Hs]; [by_decide|].
    apply elem_of_cons in Hs as [-> | Hs]; [by_decide|].
    inversion Hs.
Defined.

Lemma lifecycle_on_double_witness :
  exists h h',
    fst (Startup.cgm_init (Double.respond 4) (Some "/lxc/%n") "c1" Sample.clean) = Some h /\
    let r2 := cgm_create (Double.respond 4) (Some h)
                (snd (Startup.cgm_init (Double.respond 4) (Some "/lxc/%n") "c1"
                        Sample.clean)) in
    fst r2 = (true, Some h') /\
    cgroup_path h' = Some (candidate "/lxc/c1" 0) /\
    (forall s, s ∈ registry (snd r2) -> (s, candidate "/lxc/c1" 0) ∈ env (snd r2)) /\
    let r3 := cgm_enter (Double.respond 4) (Some h') 7 (snd r2) in
    fst r3 = true /\
    let r4 := cgm_destroy (Double.respond 4) (Some h') (snd r3) in
    env (snd r4) = env Sample.clean /\ cgroup_manager (snd r4) = false.
Proof.
  refine (lifecycle_on_double 4 (Some "/lxc/%n") "c1" 7 "/lxc/c1" Sample.clean
            _ _ _ _ _ _).
  - unfold in_bounds. cbn. lia.
  - by_decide.
  - left. unfold CGM_SUPPORTS_NAMED. lia.
  - reflexivity.
  - reflexivity.
  - intros s q _ Hu Hin.
    change (env Sample.clean) with ({[ ("cpu", "lxc/other") ]} : gset (string * string)) in Hin.
    apply elem_of_singleton in Hin. inversion Hin; subst.
    vm_compute in Hu. discriminate Hu.
Defined.

Lemma cgm_get_stays_in_buffer_witness :
  exists b,
    Some [x61; x62; x63; x0a; x00; x00; x00; x00] = Some b /\
    length b = length (replicate 8 x00) /\ -1 <= 4 < 8 /\
    (0 <= 4 -> b !! Z.to_nat 4 = Some x00) /\
    (Get.pipe_rc Example.abc < 0 \/ Get.fork_rc Example.abc < 0 \/
     Get.hdr_rc Example.abc <> 4 -> 4 = -1 /\ b = replicate 8 x00).
Proof.
  refine (GetSafety.cgm_get_stays_in_buffer Example.abc (replicate 8 x00) 8 4
            (Some [x61; x62; x63; x0a; x00; x00; x00; x00]) (Some []) _ _ _ _).
  - lia.
  - reflexivity.
  - cbn. lia.
  - reflexivity.
Defined.

Lemma cgm_ops_init_all_or_nothing_witness :
  subsystems (snd (Startup.cgm_ops_init Script.respond (Some Example.proc_cgroup) None
                     Sample.unreachable)) = None /\
  nr_subsystems (snd (Startup.cgm_ops_init Script.respond (Some Example.proc_cgroup) None
                        Sample.unreachable)) = 0%nat.
Proof.
  refine (proj2 (proj2 (cgm_ops_init_all_or_nothing Script.respond
                          (Some Example.proc_cgroup) None Sample.unreachable _ _)) _).
  - intros _. reflexivity.
  - reflexivity.
  - reflexivity.
Defined.

Lemma cgm_ops_init_escapes_as_root_witness :
  let wc := snd (cgm_dbus_connect Script.respond
                   (snd (collect_subsytems (Some Example.proc_cgroup) None Sample.boot))) in
  let r := Startup.cgm_ops_init Script.respond (Some Example.proc_cgroup) None
             Sample.boot in
  exists e evs,
    trace (snd r) = trace wc ++ EvCall sys_geteuid e :: evs /\
    if rc e =? 0 then
      exists me rest,
        evs = EvCall sys_getpid me :: rest /\
        ((fst r = true /\
          calls_of rest =
            map (fun s => cgmanager_move_pid_abs_sync s "/" (rc me)) (registry wc) /\
          Forall (fun r => rc r = 0) (replies_of rest)) \/
         (fst r = false /\
          exists (i : nat) s rs r0,
            registry wc !! i = Some s /\
            calls_of rest =
              map (fun s => cgmanager_move_pid_abs_sync s "/" (rc me))
                  (take (S i) (registry wc)) /\
            replies_of rest = rs ++ [r0] /\
            Forall (fun r => rc r = 0) rs /\ rc r0 <> 0))
    else evs = [] /\ fst r = true.
Proof.
  refine (cgm_ops_init_escapes_as_root Script.respond (Some Example.proc_cgroup) None
            Sample.boot _ _).
  - reflexivity.
  - reflexivity.
Defined.

Lemma cgm_setup_limits_in_order_witness :
  let F := List.filter (Limits.in_pass false) Sample.limits in
  let r := Limits.cgm_setup_limits Script.respond (Some Example.created) Sample.limits
             false Sample.one_pass in
  exists evs,
    trace (snd r) = trace (snd (cgm_dbus_connect Script.respond Sample.one_pass)) ++ evs /\
    ((fst r = Some true /\
      calls_of evs = map (Limits.set_call "lxc/c1") F /\
      Forall (fun r => rc r = 0) (replies_of evs)) \/
     (fst r = Some false /\
      exists (j : nat) rs r0,
        (j < length F)%nat /\
        calls_of evs = map (Limits.set_call "lxc/c1") (take (S j) F) /\
        replies_of evs = rs ++ [r0] /\
        Forall (fun r => rc r = 0) rs /\ rc r0 <> 0) \/
     (fst r <> Some true /\
      exists (j : nat) cg,
        F !! j = Some cg /\
        100 <= CStr.strlen (Limits.subsystem cg) /\
        calls_of evs = map (Limits.set_call "lxc/c1") (take j F) /\
        Forall (fun r => rc r = 0) (replies_of evs))).
Proof.
  refine (cgm_setup_limits_in_order Script.respond Example.created "lxc/c1"
            Sample.limits false Sample.one_pass _ _ _).
  - reflexivity.
  - discriminate.
  - reflexivity.
Defined.


Lemma cgm_setup_limits_two_passes_witness :
  let r1 := Limits.cgm_setup_limits Script.respond (Some Example.created) Sample.limits
              false Sample.two_passes in
  let r2 := Limits.cgm_setup_limits Script.respond (Some Example.created) Sample.limits
              true (snd r1) in
  exists evs,
    trace (snd r2) = trace Sample.two_passes ++ evs /\
    List.filter is_set_value (calls_of evs) =
      map (Limits.set_call "lxc/c1")
          (List.filter (Limits.in_pass false) Sample.limits ++
           List.filter (Limits.in_pass true) Sample.limits) /\
    Permutation (List.filter is_set_value (calls_of evs))
                (map (Limits.set_call "lxc/c1") Sample.limits).
Proof.
  refine (cgm_setup_limits_two_passes Script.respond Example.created "lxc/c1"
            Sample.limits Sample.two_passes _ _ _).
  - reflexivity.
  - reflexivity.
  - reflexivity.
Defined.


Lemma cgm_get_end_to_end_witness :
  let c := Running.do_cgm_get Script.respond false
             (fun _ _ _ => 1) (fun _ _ _ _ => Some "lxc/c1") (fun _ _ _ => (0, None))
             (fun _ _ _ _ => (0, "512"))
             "c1" "/var/lib/lxc" "cpu.shares" true 4 3 Sample.attached in
  exists rest,
    Get.cgm_get (Running.pipe_of 9 (fst c) 3 3) (Some (replicate 8 x00)) 8 =
    Some (4, Some [x35; x31; x32; x0a; x00; x00; x00; x00], rest).
Proof.
  destruct (cgm_get_end_to_end Script.respond false
              (fun _ _ _ => 1) (fun _ _ _ _ => Some "lxc/c1") (fun _ _ _ => (0, None))
              (fun _ _ _ _ => (0, "512"))
              "c1" "/var/lib/lxc" "cpu.shares" (replicate 8 x00) 8 9 3 3%nat
              Sample.attached)
    as [[H _] | (cgroup & dir & cglast & me & r1 & v & _ & _ & _ & _ & Hv & Hres)].
  - lia.
  - lia.
  - reflexivity.
  - vm_compute in H. discriminate H.
  - injection Hv as <-.
    refine (proj1 (Hres _) _).
    + vm_compute. reflexivity.
    + right. vm_compute. discriminate.
Defined.
